(** * MultiAgent4VD: SARIF artifact locator and suspicious-region selector

    A shallow embedding of [sarif_utils.py] and of the [FakeToolset] tools
    of [tools.py], with the properties of the locator tiers, of the window
    merge, of the snippet cap, of the knowledge-base filter and of the
    bounded file read.

    Python values are modelled as follows.
    - [int] is [Z]; [len] returns a [Z].
    - [str] is [string]; a character is a code point below 256.
    - [Optional[str]] and a dict key that may be missing are [option].
    - a dict used as a map ([uriBaseId_map]) is a [gmap string string],
      the [seen] set of the deduplication loop a [gset string].
    - the operating system and the library functions the code calls
      ([os.name], [os.path.isfile], [os.path.join], [os.path.normpath],
      [urllib.parse.urlparse], [urllib.parse.unquote], [open]/[read]) are
      the fields of the class [Platform]; [posix] is an instance of it over
      an explicit list of files. *)

From Stdlib Require Import ZArith String Ascii Bool Lia Sorted.
From stdpp Require Import base strings gmap list.

Open Scope string_scope.
Open Scope Z_scope.

(** ** Python built-ins on integers, lists and strings *)

Module Py.

(** [len(l)] *)
Definition len {A} (l : list A) : Z := Z.of_nat (length l).

(** [len(s)] *)
Definition slen (s : string) : Z := Z.of_nat (String.length s).

(** Bound of a slice: a negative bound counts from the end, and every
    bound is clamped to [0, n]. *)
Definition bound (n i : Z) : Z :=
  if i <? 0 then Z.max 0 (n + i) else Z.min i n.

(** [l[lo:hi]] *)
Definition slice {A} (l : list A) (lo hi : Z) : list A :=
  let a := bound (len l) lo in
  let b := bound (len l) hi in
  take (Z.to_nat (b - a)) (drop (Z.to_nat a) l).

(** [l[:hi]] *)
Definition slice_to {A} (l : list A) (hi : Z) : list A :=
  take (Z.to_nat (bound (len l) hi)) l.

(** [s[:hi]] *)
Definition sslice_to (s : string) (hi : Z) : string :=
  substring 0 (Z.to_nat (bound (slen s) hi)) s.

(** [s[lo:]] *)
Definition sslice_from (s : string) (lo : Z) : string :=
  let a := Z.to_nat (bound (slen s) lo) in
  substring a (String.length s - a) s.

(** Truth value of a string and of an optional string: [None] and the
    empty string are false. *)
Definition truthy (s : string) : bool := negb (String.eqb s "").

Definition otruthy (o : option string) : bool :=
  match o with Some s => truthy s | None => false end.

(** [c.lower()] on the code points below 256: the letters A-Z, and the
    Latin-1 capitals 0xC0-0xDE other than the multiplication sign 0xD7. *)
Definition lower_char (c : ascii) : ascii :=
  let n := nat_of_ascii c in
  if ((65 <=? n) && (n <=? 90))%nat then ascii_of_nat (n + 32)
  else if ((192 <=? n) && (n <=? 222) && negb (n =? 215))%nat
       then ascii_of_nat (n + 32)
  else c.

(** [s.lower()] *)
Fixpoint lower (s : string) : string :=
  match s with
  | EmptyString => EmptyString
  | String c r => String (lower_char c) (lower r)
  end.

(** [s.startswith(p)] *)
Definition startswith (s p : string) : bool := String.prefix p s.

(** [s.endswith(p)] for a one-character [p] *)
Fixpoint endswith_char (s : string) (c : ascii) : bool :=
  match s with
  | EmptyString => false
  | String d EmptyString => Ascii.eqb d c
  | String _ r => endswith_char r c
  end.

(** [needle in hay] *)
Fixpoint contains (hay needle : string) : bool :=
  String.prefix needle hay ||
  match hay with
  | EmptyString => false
  | String _ r => contains r needle
  end.

(** [s.replace(a, b)] for one-character [a] and [b] *)
Fixpoint replace_char (a b : ascii) (s : string) : string :=
  match s with
  | EmptyString => EmptyString
  | String c r => String (if Ascii.eqb c a then b else c) (replace_char a b r)
  end.

(** [sep.join(parts)] *)
Fixpoint join (sep : string) (parts : list string) : string :=
  match parts with
  | [] => ""
  | [p] => p
  | p :: rest => p +:+ sep +:+ join sep rest
  end.

(** [any(f(x) for x in l)] *)
Definition any {A} (f : A -> bool) (l : list A) : bool := existsb f l.

Definition newline : ascii := ascii_of_nat 10.
Definition backslash : ascii := ascii_of_nat 92.

(** Line boundaries of [str.splitlines] below code point 256:
    LF, VT, FF, CR, FS, GS, RS and NEL. *)
Definition is_linebreak (c : ascii) : bool :=
  let n := nat_of_ascii c in
  ((n =? 10) || (n =? 11) || (n =? 12) || (n =? 13) ||
   (n =? 28) || (n =? 29) || (n =? 30) || (n =? 133))%nat.

(** [s.splitlines()]: [cur] is the line being read, reversed; [open] tells
    whether a line is being read (a final line break opens no new line);
    [after_cr] tells that the previous character was CR, so that CR LF
    counts as one boundary. *)
Fixpoint splitlines_go (s : string) (cur : list ascii) (open after_cr : bool)
  : list string :=
  match s with
  | EmptyString => if open then [string_of_list_ascii (rev cur)] else []
  | String c r =>
      if after_cr && Ascii.eqb c newline then splitlines_go r [] false false
      else if is_linebreak c then
        string_of_list_ascii (rev cur) ::
        splitlines_go r [] false (Ascii.eqb c (ascii_of_nat 13))
      else splitlines_go r (c :: cur) true false
  end.

Definition splitlines (s : string) : list string := splitlines_go s [] false false.

End Py.


(** ** Exceptions

    A call that may raise returns a [Res]; [try_except] is
    [try: ... except Exception: ...]. Every exception below is a subclass
    of [Exception]. *)

Inductive PyExc : Type :=
  | FileNotFoundError
  | PermissionError
  | IsADirectoryError
  | UnicodeDecodeError
  | LookupError
  | ValueError
  | OSError
  | AttributeError.

Inductive Res (A : Type) : Type :=
  | Ret (a : A)
  | Raise (e : PyExc).

Arguments Ret {A} a.
Arguments Raise {A} e.

Definition bind {A B} (m : Res A) (k : A -> Res B) : Res B :=
  match m with
  | Ret a => k a
  | Raise e => Raise e
  end.

Definition try_except {A} (body : Res A) (handler : PyExc -> Res A) : Res A :=
  match body with
  | Ret a => Ret a
  | Raise e => handler e
  end.

(** ** The platform: operating system and library functions *)

(** The attributes of [urllib.parse.ParseResult] that the code reads. *)
Record ParseResult : Type := mkParse {
  scheme : string;
  netloc : string;
  path : string
}.

Class Platform : Type := {
  (** [os.name] *)
  os_name : string;
  (** [os.path.isfile]; it never raises *)
  os_path_isfile : string -> bool;
  (** [os.path.join] of two components *)
  os_path_join : string -> string -> string;
  (** [os.path.normpath] *)
  os_path_normpath : string -> string;
  (** [urllib.parse.urlparse]; it raises [ValueError] on some inputs *)
  urlparse : string -> Res ParseResult;
  (** [urllib.parse.unquote] *)
  unquote : string -> string;
  (** [open(path, "r", encoding=encoding, errors=errors)] followed by
      [f.read()]: the decoded text, or the exception raised *)
  read_text : string -> string -> string -> Res string;
  (** no file has the empty path *)
  isfile_empty : os_path_isfile "" = false;
  (** a URI that starts with [file://] parses, when it parses, with the
      scheme [file] *)
  urlparse_file_scheme : forall uri parsed,
    Py.startswith uri "file://" = true ->
    urlparse uri = Ret parsed -> scheme parsed = "file"
}.

(** ** sarif_utils.py *)

Module SarifUtils.

(** [artifactLocation] object of a SARIF location. A key read with
    [.get(key)] and tested ([uri], [uriBaseId]) is [None] when it is
    missing or holds [null]: the code reads both alike. *)
Record Artifact : Type := mkArtifact {
  uri : option string;
  uriBaseId : option string;
  index : option Z
}.

(** [cfg["app"]]: each key may be missing. *)
Record App : Type := mkApp {
  uriBaseId_map : option (gmap string string);
  project_root : option string;
  prefer_absolute_uri : option bool
}.

Record Cfg : Type := mkCfg { app : option App }.

(** [cfg.get("app", {})] *)
Definition cfg_app (cfg : Cfg) : App :=
  default (mkApp None None None) (app cfg).

(** What [d.get(key, {})] finds for a key that holds an object: the key is
    missing (the default [{}] is used), it holds [null], or it holds the
    object. *)
Inductive Entry (A : Type) : Type :=
  | Missing
  | Null
  | Object (a : A).

Arguments Missing {A}.
Arguments Null {A}.
Arguments Object {A} a.

(** [artifactLocation]: [None] when the key is missing or holds [null];
    [not art] is true of both. *)
Record PhysicalLocation : Type := mkPhysical {
  artifactLocation : option Artifact
}.

Record Location : Type := mkLocation {
  physicalLocation : Entry PhysicalLocation
}.

(** A SARIF result: [locations] is [None] when the key is missing or
    holds [null] (the code reads [... or []]), and an entry of the list
    may be [null] (the code reads [loc or {}]). *)
Record ScanResult : Type := mkResult {
  ruleId : option string;
  locations : option (list (option Location))
}.

(** [not art] for an artifact dict: it has no key at all. *)
Definition artifact_is_empty (a : Artifact) : bool :=
  match uri a, uriBaseId a, index a with
  | None, None, None => true
  | _, _, _ => false
  end.

Section Locator.

Context `{P : Platform}.

Definition _file_from_file_uri (uri : string) : option string :=
  match urlparse uri with
  | Raise _ => None
  | Ret parsed =>
      if negb (String.eqb (scheme parsed) "file") then None
      else
        let path := unquote (path parsed) in
        let path :=
          if String.eqb os_name "nt" then
            if Py.startswith path "/" && (3 <? Py.slen path)
               && bool_decide (String.get 2 path = Some ":"%char)
            then Py.sslice_from path 1
            else path
          else path in
        Some path
  end.

Definition _resolve_with_base (rel_uri : string) (uri_base_id : option string)
    (cfg : Cfg) : string :=
  let app := cfg_app cfg in
  let base_map := default ∅ (uriBaseId_map app) in
  let project_root := default "" (project_root app) in
  let base_dir :=
    match uri_base_id with
    | Some t =>
        if Py.truthy t then
          match base_map !! t with
          | Some d => d
          | None => project_root
          end
        else project_root
    | None => project_root
    end in
  let rel_path := Py.replace_char Py.backslash "/" rel_uri in
  os_path_normpath (os_path_join base_dir rel_path).

(** [cfg.get("app", {}).get("prefer_absolute_uri", True)] *)
Definition prefer_absolute (cfg : Cfg) : bool :=
  default true (prefer_absolute_uri (cfg_app cfg)).

(** Tier 1: the branch of [resolve_artifact_location] that returns the
    decoded [file://] path; [None] when the branch does not return. *)
Definition tier1 (uri : string) (cfg : Cfg) : option string :=
  if Py.startswith uri "file://" then
    if prefer_absolute cfg then
      match _file_from_file_uri uri with
      | Some p => if Py.truthy p && os_path_isfile p then Some p else None
      | None => None
      end
    else None
  else None.

Definition resolve_artifact_location (artifact : Artifact) (cfg : Cfg)
  : option string :=
  match uri artifact with
  | None => None
  | Some uri =>
      if negb (Py.truthy uri) then None
      else
        match tier1 uri cfg with
        | Some p => Some p
        | None =>
            let base_id := uriBaseId artifact in
            let abs_path := _resolve_with_base uri base_id cfg in
            if os_path_isfile abs_path then Some abs_path
            else
              let project_root := default "" (project_root (cfg_app cfg)) in
              let fallback :=
                os_path_normpath (os_path_join project_root uri) in
              if os_path_isfile fallback then Some fallback
              else if Py.startswith uri "file://"
                   then _file_from_file_uri uri
                   else Some abs_path
        end
  end.

(** First loop of [extract_result_files], one turn: [paths] after the
    location. [(loc or {}).get("physicalLocation", {})] is [None] when the
    key holds [null], and [phy.get] then raises [AttributeError]. *)
Definition collect_step (cfg : Cfg) (paths : list string)
    (loc : option Location) : Res (list string) :=
  let phy := match loc with
             | Some l => physicalLocation l
             | None => Missing
             end in
  match phy with
  | Null => Raise AttributeError
  | Missing => Ret paths
  | Object phy =>
      match artifactLocation phy with
      | None => Ret paths
      | Some art =>
          if artifact_is_empty art then Ret paths
          else
            match resolve_artifact_location art cfg with
            | Some p => if Py.truthy p then Ret (paths ++ [p])%list
                        else Ret paths
            | None => Ret paths
            end
      end
  end.

(** The loop [for loc in locs]: it ends at the first exception. *)
Fixpoint collect_loop (cfg : Cfg) (locs : list (option Location))
    (paths : list string) : Res (list string) :=
  match locs with
  | [] => Ret paths
  | loc :: rest =>
      bind (collect_step cfg paths loc) (collect_loop cfg rest)
  end.

(** Second loop: [seen] and [dedup]. *)
Definition dedup_step (st : gset string * list string) (p : string)
  : gset string * list string :=
  let '(seen, dedup) := st in
  if bool_decide (p ∈ seen) then st
  else ({[p]} ∪ seen, (dedup ++ [p])%list).

Definition extract_result_files (res : ScanResult) (cfg : Cfg)
  : Res (list string) :=
  let locs := default [] (locations res) in
  bind (collect_loop cfg locs [])
       (fun paths => Ret (snd (fold_left dedup_step paths (∅, [])))).

Definition safe_read_text (path encoding : string) (max_chars : Z)
  : Res string :=
  try_except
    (bind (read_text path encoding "ignore") (fun s =>
     let s := if Py.slen s >? max_chars then Py.sslice_to s max_chars else s in
     Ret s))
    (fun _ => Ret "").

End Locator.

End SarifUtils.

(** ** A POSIX platform

    [os.name] is ["posix"], [os.path] is [posixpath], and the file system is
    a list [fs] of the paths that name a regular file, each with its bytes
    or with the exception that opening it raises. [urlparse] and [unquote]
    follow [urllib.parse] on ASCII URIs: the address inside a bracketed
    host is not validated, parameters are not split off the path (the
    [file] scheme has none), and escapes above [%7F] are kept as written. *)

Module Posix.

(** [s.split(sep)] for a one-character separator *)
Fixpoint split_go (sep : ascii) (s : string) (cur : list ascii) : list string :=
  match s with
  | EmptyString => [string_of_list_ascii (rev cur)]
  | String c r =>
      if Ascii.eqb c sep then string_of_list_ascii (rev cur) :: split_go sep r []
      else split_go sep r (c :: cur)
  end.

Definition split (sep : ascii) (s : string) : list string := split_go sep s [].

(** [posixpath.join(a, b)] *)
Definition join (a b : string) : string :=
  if Py.startswith b "/" then b
  else if negb (Py.truthy a) || Py.endswith_char a "/" then a +:+ b
  else a +:+ "/" +:+ b.

(** One turn of the component loop of [posixpath.normpath]. *)
Definition norm_step (initial_slashes : nat) (new_comps : list string)
    (comp : string) : list string :=
  if String.eqb comp "" || String.eqb comp "." then new_comps
  else if negb (String.eqb comp "..")
          || (Nat.eqb initial_slashes 0 && bool_decide (new_comps = []))
          || bool_decide (last new_comps = Some "..")
       then (new_comps ++ [comp])%list
  else removelast new_comps.

(** [posixpath.normpath(path)] *)
Definition normpath (path : string) : string :=
  if String.eqb path "" then "."
  else
    let initial_slashes : nat :=
      if Py.startswith path "/" then
        if Py.startswith path "//" && negb (Py.startswith path "///")
        then 2%nat else 1%nat
      else 0%nat in
    let comps := fold_left (norm_step initial_slashes) (split "/" path) [] in
    let path := Py.join "/" comps in
    let path := Py.join "" (replicate initial_slashes "/") +:+ path in
    if Py.truthy path then path else ".".

Definition is_alpha (c : ascii) : bool :=
  let n := nat_of_ascii c in
  (((65 <=? n) && (n <=? 90)) || ((97 <=? n) && (n <=? 122)))%nat.

Definition is_digit (c : ascii) : bool :=
  let n := nat_of_ascii c in ((48 <=? n) && (n <=? 57))%nat.

Definition is_scheme_char (c : ascii) : bool :=
  is_alpha c || is_digit c
  || Ascii.eqb c "+" || Ascii.eqb c "-" || Ascii.eqb c ".".

(** Split at the first character that satisfies [stop]: the part before,
    and the rest from that character on. *)
Fixpoint break (stop : ascii -> bool) (l : list ascii)
  : list ascii * list ascii :=
  match l with
  | [] => ([], [])
  | c :: r =>
      if stop c then ([], l)
      else let '(a, b) := break stop r in (c :: a, b)
  end.

(** [url.lstrip] of the controls and the space *)
Fixpoint dropwhile_ctl (l : list ascii) : list ascii :=
  match l with
  | [] => []
  | c :: r => if (nat_of_ascii c <=? 32)%nat then dropwhile_ctl r else l
  end.

Definition mem (c : ascii) (l : list ascii) : bool := existsb (Ascii.eqb c) l.

(** [urlsplit]: leading controls and spaces are stripped, tabs and line
    breaks removed, then scheme, authority and path are cut off. *)
Definition urlparse (url : string) : Res ParseResult :=
  let l := list_ascii_of_string url in
  let l := dropwhile_ctl l in
  let l := List.filter (fun c => negb (mem c [ascii_of_nat 9; ascii_of_nat 10;
                                             ascii_of_nat 13])) l in
  let '(pre, post) := break (Ascii.eqb ":") l in
  let '(scheme, l) :=
    match pre, post with
    | c :: _, _ :: rest =>
        if is_alpha c && forallb is_scheme_char pre
        then (Py.lower (string_of_list_ascii pre), rest)
        else ("", l)
    | _, _ => ("", l)
    end in
  let stop c := Ascii.eqb c "/" || Ascii.eqb c "?" || Ascii.eqb c "#" in
  let '(netloc, l) :=
    match l with
    | "/"%char :: "/"%char :: rest => break stop rest
    | _ => ([], l)
    end in
  if xorb (mem "[" netloc) (mem "]" netloc) then Raise ValueError
  else
    let '(l, _) := break (Ascii.eqb "#") l in
    let '(l, _) := break (Ascii.eqb "?") l in
    Ret (mkParse scheme (string_of_list_ascii netloc) (string_of_list_ascii l)).

Definition hex_digit (c : ascii) : option nat :=
  let n := nat_of_ascii c in
  if is_digit c then Some (n - 48)%nat
  else if ((65 <=? n) && (n <=? 70))%nat then Some (n - 55)%nat
  else if ((97 <=? n) && (n <=? 102))%nat then Some (n - 87)%nat
  else None.

(** [unquote]: every escape [%XX] below [%80] is replaced by its character. *)
Fixpoint unquote_go (l : list ascii) : list ascii :=
  match l with
  | [] => []
  | c :: t =>
      if Ascii.eqb c "%" then
        match t with
        | a :: b :: r =>
            match hex_digit a, hex_digit b with
            | Some x, Some y =>
                if (16 * x + y <? 128)%nat
                then ascii_of_nat (16 * x + y) :: unquote_go r
                else c :: unquote_go t
            | _, _ => c :: unquote_go t
            end
        | _ => c :: unquote_go t
        end
      else c :: unquote_go t
  end.

Definition unquote (s : string) : string :=
  string_of_list_ascii (unquote_go (list_ascii_of_string s)).

(** The file system: a regular file is named by a non-empty listed path. *)
Definition lookup_file (fs : list (string * Res string)) (p : string)
  : option (Res string) :=
  snd <$> List.find (fun f => String.eqb (fst f) p) fs.

Definition isfile (fs : list (string * Res string)) (p : string) : bool :=
  Py.truthy p && bool_decide (is_Some (lookup_file fs p)).

(** Decoding. The codecs are [utf-8], [ascii] and [latin-1], the error
    handlers [strict] and [ignore]; text has code points below 256, so a
    UTF-8 sequence is one byte, or a byte 0xC2 or 0xC3 with a continuation
    byte. An undecodable byte raises under [strict] and is skipped under
    [ignore]. *)
Definition is_continuation (b : ascii) : bool :=
  let n := nat_of_ascii b in ((128 <=? n) && (n <=? 191))%nat.

Fixpoint decode_utf8 (ignore : bool) (l : list ascii) : Res (list ascii) :=
  match l with
  | [] => Ret []
  | b :: r =>
      let n := nat_of_ascii b in
      let invalid :=
        if ignore then decode_utf8 ignore r else Raise UnicodeDecodeError in
      if (n <? 128)%nat then bind (decode_utf8 ignore r) (fun t => Ret (b :: t))
      else
        match r with
        | c :: r' =>
            if ((n =? 194) || (n =? 195))%nat && is_continuation c
            then bind (decode_utf8 ignore r')
                      (fun t => Ret (ascii_of_nat
                                       ((n - 192) * 64 + (nat_of_ascii c - 128))
                                     :: t))
            else invalid
        | [] => invalid
        end
  end.

Fixpoint decode_ascii (ignore : bool) (l : list ascii) : Res (list ascii) :=
  match l with
  | [] => Ret []
  | b :: r =>
      if (nat_of_ascii b <? 128)%nat
      then bind (decode_ascii ignore r) (fun t => Ret (b :: t))
      else if ignore then decode_ascii ignore r
      else Raise UnicodeDecodeError
  end.

Definition decode (encoding errors : string) (bytes : list ascii)
  : Res (list ascii) :=
  bind (if String.eqb errors "strict" then Ret false
        else if String.eqb errors "ignore" then Ret true
        else Raise LookupError)
       (fun ignore =>
          if String.eqb encoding "utf-8" then decode_utf8 ignore bytes
          else if String.eqb encoding "ascii" then decode_ascii ignore bytes
          else if String.eqb encoding "latin-1" then Ret bytes
          else Raise LookupError).

(** Text mode turns CR LF and CR into LF. *)
Fixpoint universal_newlines (l : list ascii) : list ascii :=
  match l with
  | [] => []
  | c :: r =>
      if Ascii.eqb c (ascii_of_nat 13) then
        Py.newline ::
        match r with
        | d :: r' => if Ascii.eqb d Py.newline then universal_newlines r'
                     else universal_newlines r
        | [] => []
        end
      else c :: universal_newlines r
  end.

(** Opening a listed file gives its bytes or the exception listed with it;
    any other path is not found. *)
Definition read_text (fs : list (string * Res string))
    (p encoding errors : string) : Res string :=
  if isfile fs p then
    bind (default (Raise FileNotFoundError) (lookup_file fs p)) (fun bytes =>
    bind (decode encoding errors (list_ascii_of_string bytes)) (fun t =>
    Ret (string_of_list_ascii (universal_newlines t))))
  else Raise FileNotFoundError.

Lemma isfile_empty fs : isfile fs "" = false.
Proof. reflexivity. Qed.

Lemma startswith_split (s p : string) :
  Py.startswith s p = true -> exists rest, s = p +:+ rest.
Proof.
  unfold Py.startswith. revert s.
  induction p as [|c p IH]; intros s Hp.
  - exists s. reflexivity.
  - destruct s as [|d s]; simpl in Hp; [discriminate|].
    destruct (ascii_dec c d) as [->|]; [|discriminate].
    destruct (IH s Hp) as [rest ->]. exists rest. reflexivity.
Qed.

Lemma urlparse_file_scheme (uri : string) (parsed : ParseResult) :
  Py.startswith uri "file://" = true ->
  urlparse uri = Ret parsed -> scheme parsed = "file".
Proof.
  intros Hp Hparse.
  destruct (startswith_split _ _ Hp) as [rest ->].
  unfold urlparse in Hparse. simpl in Hparse.
  destruct (break _ (List.filter _ _)) as [nl l1].
  destruct (xorb _ _); [discriminate|].
  destruct (break _ l1) as [l2 ?]. destruct (break _ l2) as [l3 ?].
  inversion Hparse. reflexivity.
Qed.

End Posix.

Definition posix (fs : list (string * Res string)) : Platform := {|
  os_name := "posix";
  os_path_isfile := Posix.isfile fs;
  os_path_join := Posix.join;
  os_path_normpath := Posix.normpath;
  urlparse := Posix.urlparse;
  unquote := Posix.unquote;
  read_text := Posix.read_text fs;
  isfile_empty := Posix.isfile_empty fs;
  urlparse_file_scheme := Posix.urlparse_file_scheme
|}.

(** ** tools.py

    The two tools of [FakeToolset] that feed the evidence bundle. The log
    line each tool writes is no part of the value it returns and is left
    out. *)

Module Tools.

(** A record of the knowledge base; each key may be missing. *)
Record KbItem : Type := mkItem {
  id : option string;
  cwe : option (list string);
  patterns : option (list string);
  detection_hints : option (list string);
  fixes : option (list string)
}.

Record SelectorRules : Type := mkRules {
  suspicious_keywords : option (list string)
}.

Record FakeToolset : Type := mkToolset {
  available : list string;
  vuln_kb : list KbItem;
  selector_rules : SelectorRules;
  calc_max_digits : Z
}.

Record KbOut : Type := mkKbOut {
  kb_tool : string;
  query : option string;
  hits : list KbItem
}.

Record Snippet : Type := mkSnippet {
  start_line : Z;
  end_line : Z;
  text : string
}.

Record SelectOut : Type := mkSelectOut {
  tool : string;
  file_path : string;
  snippet_count : Z;
  snippets : list Snippet
}.

(** *** retrieve_vuln_kb *)

(** The character class of the pattern [[a-z0-9\-\._/]+]. *)
Definition is_tok_char (c : ascii) : bool :=
  let n := nat_of_ascii c in
  (((97 <=? n) && (n <=? 122)) || ((48 <=? n) && (n <=? 57)))%nat
  || Ascii.eqb c "-" || Ascii.eqb c "." || Ascii.eqb c "_" || Ascii.eqb c "/".

Definition flush (cur : list ascii) : list string :=
  match cur with
  | [] => []
  | _ => [string_of_list_ascii (rev cur)]
  end.

(** [re.findall] of that pattern: the maximal runs of class characters,
    left to right; [cur] is the run being read, reversed. *)
Fixpoint findall_go (s : string) (cur : list ascii) : list string :=
  match s with
  | EmptyString => flush cur
  | String c r =>
      if is_tok_char c then findall_go r (c :: cur)
      else (flush cur ++ findall_go r [])%list
  end.

Definition findall (s : string) : list string := findall_go s [].

(** The text a record is searched in. *)
Definition item_text (item : KbItem) : string :=
  Py.lower
    (Py.join " " [
       Py.join " " (default [] (cwe item));
       Py.join " " (default [] (patterns item));
       Py.join " " (default [] (detection_hints item));
       Py.join " " (default [] (fixes item));
       default "" (id item)
     ]).

(** One turn of the loop over [self.vuln_kb]. *)
Definition kb_step (q : string) (hits : list KbItem) (item : KbItem)
  : list KbItem :=
  if Py.contains q (Py.lower (default "" (id item))) then (hits ++ [item])%list
  else
    let text := item_text item in
    if Py.any (fun tok => Py.contains text tok) (findall q)
    then (hits ++ [item])%list
    else hits.

Definition retrieve_vuln_kb (self : FakeToolset)
    (rule_id_or_query : option string) : KbOut :=
  let q := Py.lower (default "" rule_id_or_query) in
  let hits := fold_left (kb_step q) (vuln_kb self) [] in
  mkKbOut "retrieve_vuln_kb" rule_id_or_query hits.

(** *** select_suspicious *)

(** [for idx, line in enumerate(lines): if hit(line): hit_lines.append(idx)],
    counting from [idx]. *)
Fixpoint scan (hit : string -> bool) (idx : Z) (lines : list string) : list Z :=
  match lines with
  | [] => []
  | line :: rest =>
      if hit line then idx :: scan hit (idx + 1) rest
      else scan hit (idx + 1) rest
  end.

(** Primary test of a line. *)
Definition primary_hit (suspicious_keywords : list string) (line : string)
  : bool :=
  let low := Py.lower line in
  Py.any (fun kw => Py.contains low (Py.lower kw)) suspicious_keywords.

Definition fallbacks : list string :=
  ["regex"; "pattern"; "compile"; "file"; "path"; "input"; "sanitize"].

(** Fallback test of a line:
    [any(k in line.lower() for k in fallbacks if k in cq_low)]. *)
Definition fallback_hit (cq_low : string) (line : string) : bool :=
  Py.any (fun k => Py.contains (Py.lower line) k)
         (List.filter (fun k => Py.contains cq_low k) fallbacks).

(** The hit lines after both scans. *)
Definition hit_lines (suspicious_keywords : list string)
    (codeql_query : option string) (lines : list string) : list Z :=
  let hit_lines := scan (primary_hit suspicious_keywords) 0 lines in
  match hit_lines with
  | [] =>
      let cq_low := Py.lower (default "" codeql_query) in
      scan (fallback_hit cq_low) 0 lines
  | _ => hit_lines
  end.

(** The window of a hit, clamped to the file. *)
Definition window (n context_window h : Z) : Z * Z :=
  (Z.max 0 (h - context_window), Z.min (n - 1) (h + context_window)).

(** One turn of the merge loop: [ranges[-1]] is overwritten, or the window
    is appended. *)
Definition merge_step (n context_window : Z) (ranges : list (Z * Z)) (h : Z)
  : list (Z * Z) :=
  let '(s, e) := window n context_window h in
  match last ranges with
  | Some (s0, e0) =>
      if s <=? e0 + 1
      then <[(length ranges - 1)%nat := (s0, Z.max e0 e)]> ranges
      else (ranges ++ [(s, e)])%list
  | None => (ranges ++ [(s, e)])%list
  end.

Definition merge_ranges (n context_window : Z) (hit_lines : list Z)
  : list (Z * Z) :=
  fold_left (merge_step n context_window) hit_lines [].

(** The region emitted for a range. *)
Definition make_snippet (lines : list string) (r : Z * Z) : Snippet :=
  let '(s, e) := r in
  mkSnippet (s + 1) (e + 1)
            (Py.join (String Py.newline "") (Py.slice lines s (e + 1))).

(** [if context_window <= 0: context_window = 10] *)
Definition coerce_window (context_window : Z) : Z :=
  if context_window <=? 0 then 10 else context_window.

Definition select_suspicious (self : FakeToolset) (file_path : string)
    (file_content : string) (codeql_query : option string)
    (context_window max_snippets : Z) : SelectOut :=
  let suspicious_keywords :=
    default [] (suspicious_keywords (selector_rules self)) in
  let context_window := coerce_window context_window in
  let lines := Py.splitlines file_content in
  let n := Py.len lines in
  let hit_lines := hit_lines suspicious_keywords codeql_query lines in
  let ranges := merge_ranges n context_window hit_lines in
  let snippets :=
    map (make_snippet lines) (Py.slice_to ranges max_snippets) in
  mkSelectOut "select_suspicious" file_path (Py.len snippets) snippets.

(** The value of [ranges] when the merge loop of [select_suspicious] ends. *)
Definition ranges_of (self : FakeToolset) (file_content : string)
    (codeql_query : option string) (context_window : Z) : list (Z * Z) :=
  let lines := Py.splitlines file_content in
  merge_ranges (Py.len lines) (coerce_window context_window)
    (hit_lines (default [] (suspicious_keywords (selector_rules self)))
               codeql_query lines).

End Tools.

(** ** The words of the specification, as definitions *)

Module LocatorSpec.
Import SarifUtils.

Section Spec.

Context `{P : Platform}.

(** The shape [/X:...] that URI parsing gives a drive-letter path. *)
Definition drive_letter_pattern (path : string) : bool :=
  Py.startswith path "/" && (3 <? Py.slen path)
  && bool_decide (String.get 2 path = Some ":"%char).

(** The decoding rule as the specification words it: the percent-decoded
    path, without its leading separator on a drive-letter pattern. *)
Definition decoded_path_spec (parsed : ParseResult) : string :=
  let p := unquote (path parsed) in
  if drive_letter_pattern p then Py.sslice_from p 1 else p.

(** The decoding rule with the gate the code has: the separator is dropped
    on a Windows host only. *)
Definition decoded_path (parsed : ParseResult) : string :=
  let p := unquote (path parsed) in
  if String.eqb os_name "nt" && drive_letter_pattern p
  then Py.sslice_from p 1 else p.

(** The path of tier 2 for a base directory. *)
Definition joined (base_dir rel_uri : string) : string :=
  os_path_normpath
    (os_path_join base_dir (Py.replace_char Py.backslash "/" rel_uri)).

(** [cfg]'s project root and base-path mapping, with their defaults. *)
Definition root_of (cfg : Cfg) : string :=
  default "" (project_root (cfg_app cfg)).

Definition base_map_of (cfg : Cfg) : gmap string string :=
  default ∅ (uriBaseId_map (cfg_app cfg)).

(** The path of tier 3. *)
Definition root_joined (cfg : Cfg) (uri : string) : string :=
  os_path_normpath (os_path_join (root_of cfg) uri).

(** What one location contributes to the path list: the result of its
    artifact, when it has an artifact and the result is a non-empty path. *)
Definition location_path (cfg : Cfg) (loc : option Location) : option string :=
  match loc with
  | Some l =>
      match physicalLocation l with
      | Object phy =>
          match artifactLocation phy with
          | Some art =>
              match resolve_artifact_location art cfg with
              | Some p => if Py.truthy p then Some p else None
              | None => None
              end
          | None => None
          end
      | Missing | Null => None
      end
  | None => None
  end.

(** The location is an object whose key [physicalLocation] holds [null]. *)
Definition null_physical (loc : option Location) : bool :=
  match loc with
  | Some l =>
      match physicalLocation l with
      | Null => true
      | Missing | Object _ => false
      end
  | None => false
  end.

(** The resolved paths of a result, one per location that has one, in the
    order of the locations. *)
Definition resolved_paths (res : ScanResult) (cfg : Cfg) : list string :=
  omap (location_path cfg) (default [] (locations res)).

End Spec.

(** Deduplication that keeps the first occurrence of each element. *)
Fixpoint first_seen (l : list string) : list string :=
  match l with
  | [] => []
  | x :: r => x :: List.filter (fun y => negb (String.eqb y x)) (first_seen r)
  end.

(** [y] is not [x]; [y] is not in [d]. *)
Definition differs (x y : string) : bool := negb (String.eqb y x).

Definition notin (d : list string) (y : string) : bool :=
  negb (existsb (String.eqb y) d).

(** [p] is met before [q] in [l]: at the first occurrence of [p], no [q]
    has been met yet. *)
Definition first_before (l : list string) (p q : string) : Prop :=
  exists l1 l2, l = (l1 ++ p :: l2)%list /\ ~ In p l1 /\ ~ In q l1.

(** [p] stands before [q] in [l]. *)
Definition stands_before (l : list string) (p q : string) : Prop :=
  exists l1 l2 l3, l = (l1 ++ p :: l2 ++ q :: l3)%list.

End LocatorSpec.

(** ** Concrete inputs *)

Module Inputs.
Import SarifUtils.

Definition fs_src : list (string * Res string) := [("/src/a.py", Ret "x = 1")].

Definition fs_drive : list (string * Res string) := [("D:/x.py", Ret "")].

Definition cfg_proj : Cfg :=
  mkCfg (Some (mkApp None (Some "/proj") (Some true))).

Definition cfg_mapped : Cfg :=
  mkCfg (Some (mkApp (Some {[ "%SRCROOT%" := "/src" ]}) (Some "/proj") None)).


Definition art_file : Artifact := mkArtifact (Some "file:///src/a.py") None None.

Definition art_drive : Artifact := mkArtifact (Some "file:///D:/x.py") None None.

Definition art_missing : Artifact :=
  mkArtifact (Some "file:///gone/b.py") None None.

Definition art_rel : Artifact := mkArtifact (Some "a.py") (Some "%SRCROOT%") None.


Definition loc_of (art : Artifact) : option Location :=
  Some (mkLocation (Object (mkPhysical (Some art)))).

(** Three locations, the first and the third of the same file, then one
    with no URI. *)
Definition res_three : ScanResult :=
  mkResult (Some "py/regex-injection")
    (Some [loc_of art_file; loc_of art_missing; loc_of art_rel;
           loc_of (mkArtifact None (Some "%SRCROOT%") None)]).

(** A readable file, a file that may not be opened, and a file whose last
    byte, 0xFF, is no UTF-8. *)
Definition fs_abc : list (string * Res string) :=
  [("/f", Ret "abc"); ("/locked", Raise PermissionError);
   ("/bad", Ret (String "a" (String "b" (String (ascii_of_nat 255) ""))))].

End Inputs.

Module SelectorSpec.
Import Tools.

(** A range lies in a file of [n] lines. *)
Definition in_file (n : Z) (r : Z * Z) : Prop :=
  0 <= fst r /\ fst r <= snd r /\ snd r <= n - 1.

(** [r2] starts after [r1] ends, with at least one line between them. *)
Definition gap (r1 r2 : Z * Z) : Prop := snd r1 + 1 < fst r2.

(** [r] covers the window [w]. *)
Definition covers (w r : Z * Z) : Prop := fst r <= fst w /\ snd w <= snd r.

(** The merge of the specification, left to right over the windows: [cur]
    is the current merged range; a window that starts at most one line
    after its end extends it, any other window closes it and becomes the
    current range. *)
Fixpoint coalesce (cur : Z * Z) (windows : list (Z * Z)) : list (Z * Z) :=
  match windows with
  | [] => [cur]
  | (s, e) :: rest =>
      if s <=? snd cur + 1
      then coalesce (fst cur, Z.max (snd cur) e) rest
      else cur :: coalesce (s, e) rest
  end.

Definition merge_windows (windows : list (Z * Z)) : list (Z * Z) :=
  match windows with
  | [] => []
  | w :: rest => coalesce w rest
  end.

(** The lines [s] to [e] of a file, both included, counted from 0. *)
Definition lines_between (lines : list string) (s e : Z) : list string :=
  take (Z.to_nat (e - s + 1)) (drop (Z.to_nat s) lines).

(** The bounds of a region. *)
Definition region_bounds (r : Snippet) : Z * Z := (start_line r, end_line r).

(** The filter of the knowledge base in the words of the specification:
    the identifier occurs in the query, or a token of the query occurs in
    the text of the record; both case-insensitively. *)
Definition id_in_query (q : string) (item : KbItem) : bool :=
  Py.contains (Py.lower q) (Py.lower (default "" (id item))).

Definition token_in_text (q : string) (item : KbItem) : bool :=
  existsb (fun tok => Py.contains (item_text item) tok) (findall (Py.lower q)).

Definition kb_match (q : string) (item : KbItem) : bool :=
  id_in_query q item || token_in_text q item.

(** The pieces of [s] between the characters that [delim] holds for;
    [cur] is the piece being read, reversed. *)
Fixpoint split_on (delim : ascii -> bool) (s : string) (cur : list ascii)
  : list string :=
  match s with
  | EmptyString => [string_of_list_ascii (rev cur)]
  | String c r =>
      if delim c then string_of_list_ascii (rev cur) :: split_on delim r []
      else split_on delim r (c :: cur)
  end.

(** All the characters of a token are of the class. *)
Fixpoint all_tok_chars (s : string) : bool :=
  match s with
  | EmptyString => true
  | String c r => is_tok_char c && all_tok_chars r
  end.

(** A token of [q]: not empty, made of class characters, found in [q]. *)
Definition is_token_of (q t : string) : Prop :=
  t <> "" /\ all_tok_chars t = true /\ Py.contains q t = true.

(** The characters a token is made of, one by one: the small letters, the
    digits, and four punctuation characters. *)
Definition token_alphabet : string :=
  "abcdefghijklmnopqrstuvwxyz0123456789-._/".

Definition in_alphabet (c : ascii) : bool :=
  existsb (Ascii.eqb c) (list_ascii_of_string token_alphabet).

(** The tokens of a query: its maximal runs of characters of the alphabet;
    every other character delimits, and the four punctuation characters of
    the alphabet do not. *)
Definition run_tokens (q : string) : list string :=
  List.filter Py.truthy (split_on (fun c => negb (in_alphabet c)) q []).

(** The entries of a field, with a space between two. *)
Definition spaced (entries : option (list string)) : string :=
  Py.join " " (default [] entries).

(** The text of a record in the words of the specification: its
    classifiers, patterns, detection hints and fixes, then its identifier,
    with a space between two fields, case set aside. *)
Definition record_text (item : KbItem) : string :=
  Py.lower (spaced (cwe item) +:+ " " +:+ spaced (patterns item) +:+ " "
            +:+ spaced (detection_hints item) +:+ " " +:+ spaced (fixes item)
            +:+ " " +:+ default "" (id item)).

(** The filter of the amended claim. *)
Definition record_match (q : string) (item : KbItem) : bool :=
  Py.contains (Py.lower q) (Py.lower (default "" (id item)))
  || existsb (Py.contains (record_text item)) (run_tokens (Py.lower q)).

(** The delimiters of the claim as it is worded: white space and the
    punctuation characters of ASCII, all of them. *)
Definition is_delimiter (c : ascii) : bool :=
  let n := nat_of_ascii c in
  (((9 <=? n) && (n <=? 13)) || ((32 <=? n) && (n <=? 47))
   || ((58 <=? n) && (n <=? 64)) || ((91 <=? n) && (n <=? 96))
   || ((123 <=? n) && (n <=? 126)))%nat.

Definition claimed_tokens (q : string) : list string :=
  List.filter Py.truthy (split_on is_delimiter q []).

(** The filter of the claim as it is worded. *)
Definition claimed_match (q : string) (item : KbItem) : bool :=
  Py.contains (Py.lower q) (Py.lower (default "" (id item)))
  || existsb (Py.contains (record_text item)) (claimed_tokens (Py.lower q)).

End SelectorSpec.

Module ToolInputs.
Import Tools.

Definition nl : string := String Py.newline "".

Definition toolset (keywords : list string) (kb : list KbItem) : FakeToolset :=
  mkToolset ["retrieve_vuln_kb"; "select_suspicious"] kb
            (mkRules (Some keywords)) 12.

(** The end-to-end scenario of the specification. *)
Definition file_eval : string :=
  "def f(x):" +:+ nl +:+ "    y = eval(x)" +:+ nl +:+ "    return y".

(** Ten lines with hits on lines 5 and 7 (counted from 1). *)
Definition file_ten : string :=
  Py.join nl ["l1"; "l2"; "l3"; "l4"; "eval(a)"; "l6"; "EVAL(b)"; "l8"; "l9";
              "l10"].

(** Hits on the lines 1 and 5: two ranges for a window of one line. *)
Definition file_two : string :=
  Py.join nl ["eval(a)"; "b"; "c"; "d"; "eval(e)"].

Definition file_open : string :=
  Py.join nl ["p = request.args"; "f = open(Path)"; "x = 1"; "y = 2";
              "re.compile(p)"].

Definition kb_demo : list KbItem :=
  [ mkItem (Some "py/sqli") (Some ["CWE-89"]) (Some ["execute("; "cursor"])
           (Some ["string concat"]) (Some ["use params"]);
    mkItem (Some "RULE-1") (Some ["CWE-79"]) (Some ["innerHTML"]) None None;
    mkItem (Some "py/path") (Some ["CWE-22"]) None None None ].

End ToolInputs.

(** * The rest of the pipeline

    The functions around the locator and the selector: the iteration over
    a report, the tool dispatcher and the calculator of [FakeToolset], the
    tool phase of Agent A, and the loop of [main.py] over the findings. *)

(** ** sarif_utils.py, continued *)

Module SarifReport.

(** A run and a report; [R] is the type of a result, which [iter_results]
    hands on as it finds it. *)
Record Run (R : Type) : Type := mkRun { results : option (list R) }.

Record Sarif (R : Type) : Type := mkSarif { runs : option (list (Run R)) }.

Arguments mkRun {R} results.
Arguments results {R} r.
Arguments mkSarif {R} runs.
Arguments runs {R} s.

(** The generator, as the list of what it yields. *)
Definition iter_results {R} (sarif : Sarif R) : list R :=
  let runs := default [] (runs sarif) in
  fold_left
    (fun yielded run =>
       let results := default [] (results run) in
       fold_left (fun yielded r => (yielded ++ [r])%list) results yielded)
    runs [].

End SarifReport.

(** ** tools.py, continued *)

Module ToolBox.
Import Tools.

Record Calculator : Type := mkCalculator { max_digits : option Z }.

(** [tool_config]: each key may be missing. *)
Record ToolConfig : Type := mkToolConfig {
  cfg_available : option (list string);
  cfg_vuln_kb : option (list KbItem);
  cfg_selector_rules : option SelectorRules;
  cfg_calculator : option Calculator
}.

Definition __init__ (tool_config : ToolConfig) : FakeToolset :=
  mkToolset
    (default [] (cfg_available tool_config))
    (default [] (cfg_vuln_kb tool_config))
    (default (mkRules None) (cfg_selector_rules tool_config))
    (default 12 (max_digits (default (mkCalculator None)
                                     (cfg_calculator tool_config)))).

(** What [str(eval(expression, {"__builtins__": {}}))] does: it gives the
    text of the value, raises an exception with a message, or does not
    come back. *)
Inductive EvalOutcome : Type :=
  | Value (s : string)
  | Exc (message : string)
  | Diverges.

Class Evaluator : Type := { py_eval : string -> EvalOutcome }.

(** The output of the calculator: a result or an error. *)
Inductive CalcOut : Type :=
  | CalcResult (tool expression result : string)
  | CalcError (tool expression error : string).

(** [\s] below code point 256 *)
Definition is_space (c : ascii) : bool :=
  let n := nat_of_ascii c in
  (((9 <=? n) && (n <=? 13)) || ((28 <=? n) && (n <=? 32))
   || (n =? 133) || (n =? 160))%nat.

(** The character class of the pattern [[0-9\+\-\*\/\.\(\)\s]+]. *)
Definition is_calc_char (c : ascii) : bool :=
  let n := nat_of_ascii c in
  ((48 <=? n) && (n <=? 57))%nat
  || Ascii.eqb c "+" || Ascii.eqb c "-" || Ascii.eqb c "*" || Ascii.eqb c "/"
  || Ascii.eqb c "." || Ascii.eqb c "(" || Ascii.eqb c ")" || is_space c.

Fixpoint all_calc_chars (s : string) : bool :=
  match s with
  | EmptyString => true
  | String c r => is_calc_char c && all_calc_chars r
  end.

(** [re.fullmatch] of that pattern *)
Definition fullmatch (s : string) : bool :=
  Py.truthy s && all_calc_chars s.

Section Calculator.

Context `{E : Evaluator}.

(** [None]: the evaluation does not come back. The calls of [_log] are
    no part of the model. *)
Definition run_calculator (self : FakeToolset) (expression : string)
  : option CalcOut :=
  if negb (fullmatch expression) then
    Some (CalcError "run_calculator" expression "Invalid characters.")
  else
    match py_eval expression with
    | Value s =>
        let s := if Py.slen s >? calc_max_digits self
                 then Py.sslice_to s (calc_max_digits self) else s in
        Some (CalcResult "run_calculator" expression s)
    | Exc message => Some (CalcError "run_calculator" expression message)
    | Diverges => None
    end.

(** The keyword arguments of [call]; each may be missing. *)
Record Kwargs : Type := mkKwargs {
  rule_or_query : option string;
  kw_file_path : option string;
  kw_file_content : option string;
  kw_codeql_query : option string;
  kw_context_window : option Z;
  kw_max_snippets : option Z;
  kw_expression : option string
}.

Inductive ToolOut : Type :=
  | OutError (error : string)
  | OutKb (out : KbOut)
  | OutSelect (out : SelectOut)
  | OutCalc (out : CalcOut).

(** [name in self.available] *)
Definition is_available (self : FakeToolset) (name : string) : bool :=
  existsb (String.eqb name) (available self).

Definition call (self : FakeToolset) (name : string) (kwargs : Kwargs)
  : option ToolOut :=
  if negb (is_available self name) then
    Some (OutError ("Tool `" +:+ name +:+ "` is not available."))
  else if String.eqb name "retrieve_vuln_kb" then
    Some (OutKb (retrieve_vuln_kb self
                   (Some (default "" (rule_or_query kwargs)))))
  else if String.eqb name "select_suspicious" then
    Some (OutSelect
            (select_suspicious self
               (default "" (kw_file_path kwargs))
               (default "" (kw_file_content kwargs))
               (Some (default "" (kw_codeql_query kwargs)))
               (default 10 (kw_context_window kwargs))
               (default 3 (kw_max_snippets kwargs))))
  else if String.eqb name "run_calculator" then
    OutCalc <$> run_calculator self (default "" (kw_expression kwargs))
  else Some (OutError ("Unknown tool `" +:+ name +:+ "`.")).

End Calculator.

(** An evaluator given by a table of expressions with what Python gives
    for them; it is taken not to come back on any other expression. *)
Definition table_evaluator (table : list (string * EvalOutcome)) : Evaluator :=
  {| py_eval e :=
       default Diverges
               (snd <$> List.find (fun p => String.eqb (fst p) e) table) |}.

Definition eval_demo : Evaluator :=
  table_evaluator
    [("1+1", Value "2"); ("1/0", Exc "division by zero");
     ("2**100", Value "1267650600228229401496703205376")].

End ToolBox.

(** ** agents.py: the tool phase of Agent A *)

Module AgentA.
Import Tools ToolBox.

Section Run.

Context `{E : Evaluator}.

Definition no_kwargs : Kwargs := mkKwargs None None None None None None None.

(** [plan] in [AgentA.run]: the two calls in their fixed order, cut to
    [max_tool_calls]. *)
Definition plan (max_tool_calls : Z)
    (file_path file_content codeql_query rule_id_hint : string)
  : list (string * Kwargs) :=
  Py.slice_to
    [ ("retrieve_vuln_kb",
       mkKwargs (Some (if Py.truthy rule_id_hint then rule_id_hint
                       else codeql_query))
                None None None None None None);
      ("select_suspicious",
       mkKwargs None (Some file_path) (Some file_content) (Some codeql_query)
                (Some 12) (Some 3) None) ]
    max_tool_calls.

(** [tool_outputs] when the loop over [plan] ends; [None] if a call does
    not come back. *)
Definition tool_outputs (tools : FakeToolset) (max_tool_calls : Z)
    (file_path file_content codeql_query rule_id_hint : string)
  : option (list ToolOut) :=
  fold_left
    (fun acc c =>
       match acc with
       | Some outs =>
           match call tools (fst c) (snd c) with
           | Some out => Some (outs ++ [out])%list
           | None => None
           end
       | None => None
       end)
    (plan max_tool_calls file_path file_content codeql_query rule_id_hint)
    (Some []).

End Run.

(** What Agent A may get from the dispatcher: no output of the calculator,
    and at most three regions in a selection. *)
Definition evidence_ok (o : ToolOut) : Prop :=
  match o with
  | OutCalc _ => False
  | OutSelect s => snippet_count s <= 3
  | _ => True
  end.

End AgentA.

(** ** main.py: the loop over the findings *)

Module Main.
Import SarifUtils SarifReport.

(** [res["rule"]] *)
Record Rule : Type := mkRule { rule_id : option string }.

(** A result of the report as [run_from_sarif_only] reads it: the keys of
    [ScanResult], and [rule]. *)
Record Finding : Type := mkFinding {
  result : ScanResult;
  rule : option Rule
}.

(** [cfg["codeql"]] *)
Record Codeql : Type := mkCodeql {
  rule_query_map : option (gmap string string);
  default_query_text : option string
}.

(** The configuration as [main.py] reads it: [cfg] holds the keys the
    locator reads, [default_encoding] and [max_file_chars] are the other
    two keys of [cfg["app"]] (they count only when [cfg] has the key
    [app]). *)
Record MainCfg : Type := mkMainCfg {
  cfg : Cfg;
  default_encoding : option string;
  max_file_chars : option Z;
  codeql : option Codeql
}.

Definition _get_query_for_rule (cfg : MainCfg) (rule_id : string) : string :=
  let cq := default (mkCodeql None None) (codeql cfg) in
  let rule_map := default ∅ (rule_query_map cq) in
  match rule_map !! rule_id with
  | Some q =>
      if Py.truthy q then q else default "" (default_query_text cq)
  | None => default "" (default_query_text cq)
  end.

(** [a or b] for an optional string [a] *)
Definition or_else (a : option string) (b : string) : string :=
  match a with
  | Some s => if Py.truthy s then s else b
  | None => b
  end.

(** [res.get("ruleId") or (res.get("rule", {}) or {}).get("id") or ""] *)
Definition rule_id_of (res : Finding) : string :=
  or_else (ruleId (result res))
          (or_else (rule res ≫= rule_id) "").

(** The arguments of one call of [run_single_finding]. *)
Record Call : Type := mkCall {
  call_file_path : string;
  call_file_content : string;
  call_codeql_query : string;
  call_rule_id_hint : string
}.

(** An exception that leaves [run_from_sarif_only]. *)
Inductive RunExc : Type :=
  | Propagated (e : PyExc)
  | KeyError (key : string)
  | DebateError.

Section Run.

Context `{P : Platform}.

(** The verdicts, and the two things the loop calls outside this
    repository's data: [load_sarif] (a file read and a JSON parse), and
    [run_single_finding] (the debate with the remote model), whose answer
    may depend on the calls made before and which may raise. The lines
    printed by the logger are no part of the model. *)
Variable V : Type.
Variable load_sarif : string -> Res (Sarif Finding).
Variable run_single_finding : list Call -> Call -> option V.

(** An entry of [outputs]. *)
Inductive Output : Type :=
  | NoFile (index : Z) (ruleId : string)
  | Unreadable (index : Z) (ruleId file : string)
  | Verdict (index : Z) (ruleId file : string) (verdict : V).

(** The state of the loops: [outputs], and the calls of
    [run_single_finding] made so far. *)
Definition State : Type := (list Output * list Call)%type.

(** The loop [for fp in files]. *)
Fixpoint files_loop (cfg : MainCfg) (idx : Z) (rule_id codeql_query : string)
    (files : list string) (st : State) : RunExc + State :=
  match files with
  | [] => inr st
  | fp :: rest =>
      match app (Main.cfg cfg) with
      | None => inl (KeyError "app")
      | Some _ =>
          match safe_read_text fp (default "utf-8" (default_encoding cfg))
                               (default 120000 (max_file_chars cfg)) with
          | Raise e => inl (Propagated e)
          | Ret text =>
              if negb (Py.truthy text) then
                files_loop cfg idx rule_id codeql_query rest
                  ((fst st ++ [Unreadable idx rule_id fp])%list, snd st)
              else
                let c := mkCall fp text codeql_query rule_id in
                match run_single_finding (snd st) c with
                | None => inl DebateError
                | Some verdict =>
                    files_loop cfg idx rule_id codeql_query rest
                      ((fst st ++ [Verdict idx rule_id fp verdict])%list,
                       (snd st ++ [c])%list)
                end
          end
      end
  end.

(** The loop [for idx, res in enumerate(results, 1)], from [idx] on. *)
Fixpoint results_loop (cfg : MainCfg) (idx : Z) (results : list Finding)
    (st : State) : RunExc + State :=
  match results with
  | [] => inr st
  | res :: rest =>
      let rule_id := rule_id_of res in
      match extract_result_files (result res) (Main.cfg cfg) with
      | Raise e => inl (Propagated e)
      | Ret [] =>
          results_loop cfg (idx + 1) rest
            ((fst st ++ [NoFile idx rule_id])%list, snd st)
      | Ret files =>
          let codeql_query := _get_query_for_rule cfg rule_id in
          match files_loop cfg idx rule_id codeql_query files st with
          | inl e => inl e
          | inr st' => results_loop cfg (idx + 1) rest st'
          end
      end
  end.

(** The value returned, or the exception, and the calls made. *)
Definition run_from_sarif_only (cfg : MainCfg) (sarif_path : string)
  : RunExc + State :=
  match load_sarif sarif_path with
  | Raise e => inl (Propagated e)
  | Ret sarif => results_loop cfg 1 (iter_results sarif) ([], [])
  end.

(** An entry of [outputs] without its verdict. *)
Inductive Shape : Type :=
  | NoFileS (index : Z) (ruleId : string)
  | UnreadableS (index : Z) (ruleId file : string)
  | VerdictS (index : Z) (ruleId file : string).

Definition shape_of (o : Output) : Shape :=
  match o with
  | NoFile i r => NoFileS i r
  | Unreadable i r f => UnreadableS i r f
  | Verdict i r f _ => VerdictS i r f
  end.

Definition shape_index (s : Shape) : Z :=
  match s with
  | NoFileS i _ | UnreadableS i _ _ | VerdictS i _ _ => i
  end.

(** The text of a file as the loop gets it, when it is not empty. *)
Definition readable (cfg : MainCfg) (fp : string) : option string :=
  match safe_read_text fp (default "utf-8" (default_encoding cfg))
                       (default 120000 (max_file_chars cfg)) with
  | Ret text => if Py.truthy text then Some text else None
  | Raise _ => None
  end.

(** The entries and the calls that the files of one finding stand for. *)
Definition shapes_of_files (cfg : MainCfg) (idx : Z) (rule_id : string)
    (files : list string) : list Shape :=
  map (fun fp => match readable cfg fp with
                 | Some _ => VerdictS idx rule_id fp
                 | None => UnreadableS idx rule_id fp
                 end) files.

Definition calls_of_files (cfg : MainCfg) (rule_id codeql_query : string)
    (files : list string) : list Call :=
  omap (fun fp => (fun text => mkCall fp text codeql_query rule_id)
                    <$> readable cfg fp) files.

(** The files of a finding, when [extract_result_files] returns. *)
Definition files_of (cfg : MainCfg) (res : Finding) : list string :=
  match extract_result_files (result res) (Main.cfg cfg) with
  | Ret files => files
  | Raise _ => []
  end.

(** The entries and the calls that a report stands for, finding by
    finding, counting from [idx]. *)
Fixpoint shapes_of_results (cfg : MainCfg) (idx : Z) (results : list Finding)
  : list Shape :=
  match results with
  | [] => []
  | res :: rest =>
      (match files_of cfg res with
       | [] => [NoFileS idx (rule_id_of res)]
       | files => shapes_of_files cfg idx (rule_id_of res) files
       end ++ shapes_of_results cfg (idx + 1) rest)%list
  end.

Definition calls_of_results (cfg : MainCfg) (results : list Finding)
  : list Call :=
  List.concat
    (map (fun res =>
            calls_of_files cfg (rule_id_of res)
              (_get_query_for_rule cfg (rule_id_of res))
              (files_of cfg res))
         results).

(** An entry is right for the report: its index counts a finding, from
    [idx] on, and its label says what the files of that finding gave. *)
Definition shape_ok (cfg : MainCfg) (idx : Z) (results : list Finding)
    (s : Shape) : Prop :=
  idx <= shape_index s /\
  exists res,
    results !! Z.to_nat (shape_index s - idx) = Some res /\
    match s with
    | NoFileS _ r =>
        r = rule_id_of res /\
        extract_result_files (result res) (Main.cfg cfg) = Ret []
    | UnreadableS _ r f =>
        r = rule_id_of res /\
        (exists files,
           extract_result_files (result res) (Main.cfg cfg) = Ret files /\
           In f files) /\
        readable cfg f = None
    | VerdictS _ r f =>
        r = rule_id_of res /\
        (exists files,
           extract_result_files (result res) (Main.cfg cfg) = Ret files /\
           In f files) /\
        is_Some (readable cfg f)
    end.

(** A call is right for the report: it is for a file of a finding, with
    the text read from it, not empty, and with the query of the rule. *)
Definition call_ok (cfg : MainCfg) (results : list Finding) (c : Call) : Prop :=
  call_file_content c <> "" /\
  safe_read_text (call_file_path c) (default "utf-8" (default_encoding cfg))
                 (default 120000 (max_file_chars cfg))
  = Ret (call_file_content c) /\
  (0 <= default 120000 (max_file_chars cfg) ->
   Py.slen (call_file_content c) <= default 120000 (max_file_chars cfg)) /\
  exists res,
    In res results /\
    (exists files,
       extract_result_files (result res) (Main.cfg cfg) = Ret files /\
       In (call_file_path c) files) /\
    call_rule_id_hint c = rule_id_of res /\
    call_codeql_query c = _get_query_for_rule cfg (rule_id_of res).

Definition is_verdict (s : Shape) : bool :=
  match s with VerdictS _ _ _ => true | _ => false end.

End Run.

Arguments NoFile {V} index ruleId.
Arguments Unreadable {V} index ruleId file.
Arguments Verdict {V} index ruleId file verdict.

End Main.

Module MainInputs.
Import SarifUtils SarifReport Main Inputs.

(** A report of two findings: one names an existing file twice and a
    missing one, the other has no location. *)
Definition sarif_demo : Sarif Finding :=
  mkSarif (Some [
    mkRun (Some [ mkFinding res_three None;
                  mkFinding (mkResult None None)
                            (Some (mkRule (Some "py/path-injection"))) ]);
    mkRun None ]).

Definition cfg_demo : MainCfg :=
  mkMainCfg cfg_mapped None None
    (Some (mkCodeql (Some {[ "py/regex-injection" := "import python" ]})
                    (Some "select 1"))).

(** The same without the key [app]. *)
Definition cfg_no_app : MainCfg :=
  mkMainCfg (mkCfg None) None None None.

Definition load_demo (path : string) : Res (Sarif Finding) := Ret sarif_demo.

(** A debate that answers with the number of calls made before. *)
Definition debate_demo (before : list Call) (c : Call) : option nat :=
  Some (length before).

(** What the run gives for [sarif_demo] and [cfg_demo] when [/src/a.py]
    is the only file. *)
Definition outputs_demo : list (Output nat) :=
  [ Verdict 1 "py/regex-injection" "/src/a.py" 0%nat;
    Unreadable 1 "py/regex-injection" "/gone/b.py";
    NoFile 2 "py/path-injection" ].

Definition calls_demo : list Call :=
  [ mkCall "/src/a.py" "x = 1" "import python" "py/regex-injection" ].

End MainInputs.

(** ** Properties of the locator *)

Module LocatorProps.
Import SarifUtils LocatorSpec Inputs.

Section Tiers.

Context `{P : Platform}.

Lemma startswith_truthy (s : string) :
  Py.startswith s "file://" = true -> Py.truthy s = true.
Proof. destruct s; [discriminate | reflexivity]. Qed.

Lemma isfile_truthy (p : string) :
  os_path_isfile p = true -> Py.truthy p = true.
Proof.
  destruct p as [|c p]; [|reflexivity].
  rewrite isfile_empty. discriminate.
Qed.

(** On a URI of scheme [file] that parses, [_file_from_file_uri] returns
    the decoded path. *)
Lemma file_uri_decoded (uri : string) (parsed : ParseResult) :
  Py.startswith uri "file://" = true ->
  urlparse uri = Ret parsed ->
  _file_from_file_uri uri = Some (decoded_path parsed).
Proof.
  intros Hpre Hparse. unfold _file_from_file_uri, decoded_path.
  rewrite Hparse, (urlparse_file_scheme uri parsed Hpre Hparse). simpl.
  unfold drive_letter_pattern.
  destruct (String.eqb os_name "nt"); reflexivity.
Qed.

(** When [urlparse] raises, the exception is caught and nothing is decoded. *)
Lemma file_uri_raises (uri : string) (e : PyExc) :
  urlparse uri = Raise e -> _file_from_file_uri uri = None.
Proof. intros Hparse. unfold _file_from_file_uri. now rewrite Hparse. Qed.

(** Tier 2 computes the join with the mapped directory of a non-empty
    token of the mapping. *)
Lemma resolve_with_base_mapped (uri t d : string) (cfg : Cfg) :
  Py.truthy t = true ->
  base_map_of cfg !! t = Some d ->
  _resolve_with_base uri (Some t) cfg = joined d uri.
Proof.
  intros Ht Hd. unfold _resolve_with_base, joined.
  rewrite Ht. unfold base_map_of in Hd. now rewrite Hd.
Qed.

(** With no usable token, tier 2 joins with the project root. *)
Lemma resolve_with_base_root (uri : string) (tok : option string) (cfg : Cfg) :
  match tok with
  | Some t => Py.truthy t = false \/ base_map_of cfg !! t = None
  | None => True
  end ->
  _resolve_with_base uri tok cfg = joined (root_of cfg) uri.
Proof.
  unfold _resolve_with_base, joined, root_of, base_map_of.
  destruct tok as [t|]; [|reflexivity].
  intros [Ht | Hn]; [now rewrite Ht|].
  rewrite Hn. now destruct (Py.truthy t).
Qed.

(** A URI that does not start with [file://] never returns at tier 1. *)
Lemma tier1_relative (uri : string) (cfg : Cfg) :
  Py.startswith uri "file://" = false -> tier1 uri cfg = None.
Proof. intros Hrel. unfold tier1. now rewrite Hrel. Qed.

(** C1, amended: for a URI of scheme [file] that parses, when the
    prefer-absolute flag is set (or missing, its default) and the decoded
    path (percent-decoded, the leading separator dropped on a drive-letter
    pattern when [os.name] is ["nt"]) is a regular file,
    [resolve_artifact_location] returns exactly that path. *)
Theorem resolve_file_uri_existing (artifact : Artifact) (cfg : Cfg)
    (u : string) (parsed : ParseResult) :
  uri artifact = Some u ->
  Py.startswith u "file://" = true ->
  prefer_absolute cfg = true ->
  urlparse u = Ret parsed ->
  os_path_isfile (decoded_path parsed) = true ->
  resolve_artifact_location artifact cfg = Some (decoded_path parsed).
Proof.
  intros Huri Hpre Hflag Hparse Hfile.
  unfold resolve_artifact_location. rewrite Huri.
  rewrite (startswith_truthy u Hpre). simpl.
  unfold tier1. rewrite Hpre, Hflag.
  rewrite (file_uri_decoded u parsed Hpre Hparse).
  now rewrite (isfile_truthy _ Hfile), Hfile.
Qed.


(** C3, amended: for a URI that starts with [file://], when tier 1 (tried
    only if the prefer-absolute flag is set) and tiers 2 and 3 found no
    regular file, the result is what [_file_from_file_uri] decodes,
    whatever the flag and whether or not that path exists: when the URI
    parses, the percent-decoded path, without its leading separator on a
    drive-letter pattern on a Windows host only; nothing when the URI does
    not parse. *)
Theorem resolve_file_uri_best_guess (artifact : Artifact) (cfg : Cfg)
    (u : string) :
  uri artifact = Some u ->
  Py.startswith u "file://" = true ->
  (prefer_absolute cfg = true ->
   forall p, _file_from_file_uri u = Some p -> os_path_isfile p = false) ->
  os_path_isfile (_resolve_with_base u (uriBaseId artifact) cfg) = false ->
  os_path_isfile (root_joined cfg u) = false ->
  resolve_artifact_location artifact cfg = _file_from_file_uri u /\
  (forall parsed,
     urlparse u = Ret parsed ->
     resolve_artifact_location artifact cfg = Some (decoded_path parsed)) /\
  (forall e,
     urlparse u = Raise e -> resolve_artifact_location artifact cfg = None).
Proof.
  intros Huri Hpre Ht1 Ht2 Ht3.
  assert (resolve_artifact_location artifact cfg = _file_from_file_uri u)
    as Hres.
  { unfold resolve_artifact_location. rewrite Huri.
    rewrite (startswith_truthy u Hpre). simpl.
    assert (tier1 u cfg = None) as ->.
    { unfold tier1. rewrite Hpre.
      destruct (prefer_absolute cfg); [|reflexivity].
      destruct (_file_from_file_uri u) as [p|]; [|reflexivity].
      rewrite (Ht1 eq_refl p eq_refl). now rewrite andb_false_r. }
    rewrite Ht2. unfold root_joined, root_of in Ht3. now rewrite Ht3, Hpre. }
  split; [exact Hres|]. split.
  - intros parsed Hparse. rewrite Hres.
    exact (file_uri_decoded u parsed Hpre Hparse).
  - intros e Hparse. rewrite Hres. exact (file_uri_raises u e Hparse).
Qed.

End Tiers.

(** An existing [file://] target on a POSIX host. *)
Lemma resolve_file_uri_existing_witness :
  resolve_artifact_location (P := posix fs_src) art_file cfg_proj
  = Some "/src/a.py".
Proof.
  exact (resolve_file_uri_existing (P := posix fs_src) art_file cfg_proj
           "file:///src/a.py" (mkParse "file" "" "/src/a.py")
           eq_refl eq_refl eq_refl eq_refl eq_refl).
Defined.

(** C1 as stated fails on a POSIX host: the path without its leading
    separator is a regular file, the flag is set, and the result is the
    path with the separator. *)
Lemma resolve_drive_letter_posix :
  uri art_drive = Some "file:///D:/x.py" /\
  prefer_absolute cfg_proj = true /\
  urlparse (Platform := posix fs_drive) "file:///D:/x.py"
    = Ret (mkParse "file" "" "/D:/x.py") /\
  decoded_path_spec (P := posix fs_drive) (mkParse "file" "" "/D:/x.py")
    = "D:/x.py" /\
  os_path_isfile (Platform := posix fs_drive) "D:/x.py" = true /\
  resolve_artifact_location (P := posix fs_drive) art_drive cfg_proj
    = Some "/D:/x.py" /\
  resolve_artifact_location (P := posix fs_drive) art_drive cfg_proj
    <> Some (decoded_path_spec (P := posix fs_drive)
               (mkParse "file" "" "/D:/x.py")).
Proof. repeat split; try (vm_compute; reflexivity). vm_compute. discriminate. Qed.



(** C3 as stated fails twice on a POSIX host, where no tier finds a
    regular file. For a drive-letter URI the result keeps the leading
    separator that the decoding rule, as the claim words it, drops. And
    for a URI that does not parse there is no decoded path: the result is
    nothing. *)
Lemma resolve_best_guess_posix :
  uri art_drive = Some "file:///D:/x.py" /\
  urlparse (Platform := posix fs_src) "file:///D:/x.py"
    = Ret (mkParse "file" "" "/D:/x.py") /\
  decoded_path_spec (P := posix fs_src) (mkParse "file" "" "/D:/x.py")
    = "D:/x.py" /\
  os_path_isfile (Platform := posix fs_src) "D:/x.py" = false /\
  os_path_isfile (Platform := posix fs_src) "/D:/x.py" = false /\
  os_path_isfile (Platform := posix fs_src)
    (_resolve_with_base (P := posix fs_src) "file:///D:/x.py" None cfg_proj)
    = false /\
  os_path_isfile (Platform := posix fs_src)
    (root_joined (P := posix fs_src) cfg_proj "file:///D:/x.py") = false /\
  resolve_artifact_location (P := posix fs_src) art_drive cfg_proj
    = Some "/D:/x.py" /\
  resolve_artifact_location (P := posix fs_src) art_drive cfg_proj
    <> Some (decoded_path_spec (P := posix fs_src)
               (mkParse "file" "" "/D:/x.py")) /\
  urlparse (Platform := posix fs_src) "file://[/x.py" = Raise ValueError /\
  resolve_artifact_location (P := posix fs_src)
    (mkArtifact (Some "file://[/x.py") None None) cfg_proj = None.
Proof.
  repeat split; try (vm_compute; reflexivity). vm_compute. discriminate.
Qed.

(** A [file://] target that no tier finds. *)
Lemma resolve_file_uri_best_guess_witness :
  resolve_artifact_location (P := posix fs_src) art_missing cfg_proj
  = Some "/gone/b.py".
Proof.
  assert (prefer_absolute cfg_proj = true ->
          forall p,
            _file_from_file_uri (P := posix fs_src) "file:///gone/b.py" = Some p ->
            os_path_isfile (Platform := posix fs_src) p = false) as Htier1.
  { intros _ p Hp. vm_compute in Hp. inversion Hp. reflexivity. }
  exact (proj1 (resolve_file_uri_best_guess (P := posix fs_src)
                  art_missing cfg_proj "file:///gone/b.py"
                  eq_refl eq_refl Htier1 eq_refl eq_refl)).
Defined.

End LocatorProps.

(** ** Properties of the batch step and of the bounded read *)

Module BatchProps.
Import SarifUtils LocatorSpec Inputs.

(** *** Filters and first occurrences *)

Lemma notin_In (d : list string) (y : string) :
  notin d y = true <-> ~ In y d.
Proof.
  unfold notin. rewrite negb_true_iff, <- not_true_iff_false, existsb_exists.
  split; intros Hn Hin; apply Hn.
  - exists y. split; [assumption | apply String.eqb_refl].
  - destruct Hin as (z & Hz & Heq). apply String.eqb_eq in Heq. now subst.
Qed.

Lemma notin_snoc (d : list string) (x y : string) :
  notin (d ++ [x]) y = notin d y && differs x y.
Proof.
  unfold notin, differs. rewrite existsb_app. simpl.
  rewrite orb_false_r. now rewrite negb_orb.
Qed.

Lemma filter_filter_and (f g : string -> bool) (l : list string) :
  List.filter f (List.filter g l) = List.filter (fun y => f y && g y) l.
Proof.
  induction l as [|a l IH]; [reflexivity|]. simpl.
  destruct (g a); simpl; rewrite ?andb_true_r, ?andb_false_r.
  - destruct (f a); now rewrite IH.
  - exact IH.
Qed.

Lemma first_seen_In (l : list string) (x : string) :
  In x (first_seen l) <-> In x l.
Proof.
  induction l as [|a l IH]; [reflexivity|]. simpl.
  rewrite filter_In, IH, negb_true_iff, String.eqb_neq.
  destruct (String.eqb_spec x a) as [->|Hne]; intuition congruence.
Qed.

Lemma first_seen_NoDup (l : list string) : List.NoDup (first_seen l).
Proof.
  induction l as [|a l IH]; simpl; constructor.
  - intros Hf. apply filter_In in Hf as [_ Hf].
    rewrite String.eqb_refl in Hf. discriminate.
  - now apply List.NoDup_filter.
Qed.

(** A split of a filtered list comes from a split of the list. *)
Lemma filter_app_inv (f : string -> bool) (l a b : list string) :
  List.filter f l = (a ++ b)%list ->
  exists a' b', l = (a' ++ b')%list /\ List.filter f a' = a /\ List.filter f b' = b.
Proof.
  revert a. induction l as [|x l IH]; intros a Hf; simpl in Hf.
  - destruct a; [|discriminate]. destruct b; [|discriminate].
    now exists [], [].
  - destruct (f x) eqn:Hx.
    + destruct a as [|y a].
      * exists [], (x :: l). simpl. rewrite Hx. now repeat split.
      * simpl in Hf. inversion Hf; subst y.
        destruct (IH a H1) as (a' & b' & -> & Ha & Hb).
        exists (x :: a'), b'. simpl. rewrite Hx, Ha. now repeat split.
    + destruct (IH a Hf) as (a' & b' & -> & Ha & Hb).
      exists (x :: a'), b'. simpl. rewrite Hx. now repeat split.
Qed.

Lemma filter_cons_inv (f : string -> bool) (l b : list string) (p : string) :
  List.filter f l = p :: b ->
  exists a' b', l = (a' ++ p :: b')%list /\ List.filter f b' = b.
Proof.
  induction l as [|x l IH]; intros Hf; simpl in Hf; [discriminate|].
  destruct (f x) eqn:Hx.
  - inversion Hf; subst. now exists [], l.
  - destruct (IH Hf) as (a' & b' & -> & Hb). now exists (x :: a'), b'.
Qed.

Lemma filter_stands_before (f : string -> bool) (l : list string)
    (p q : string) :
  stands_before (List.filter f l) p q -> stands_before l p q.
Proof.
  intros (l1 & l2 & l3 & Heq).
  destruct (filter_app_inv f l l1 _ Heq) as (a1 & r1 & -> & _ & Hr1).
  destruct (filter_cons_inv f r1 _ p Hr1) as (a2 & r2 & -> & Hr2).
  destruct (filter_app_inv f r2 l2 _ Hr2) as (a3 & r3 & -> & _ & Hr3).
  destruct (filter_cons_inv f r3 _ q Hr3) as (a4 & r4 & -> & _).
  exists (a1 ++ a2)%list, (a3 ++ a4)%list, r4.
  now rewrite <- !app_assoc.
Qed.

(** The order of [first_seen l] is the order of first occurrences in [l]. *)
Lemma first_seen_order (l : list string) (p q : string) :
  stands_before (first_seen l) p q -> first_before l p q.
Proof.
  induction l as [|x l IH]; intros Hsb.
  - destruct Hsb as (l1 & l2 & l3 & Heq). now destruct l1.
  - destruct Hsb as (l1 & l2 & l3 & Heq). simpl in Heq.
    destruct l1 as [|y l1]; simpl in Heq; inversion Heq as [[Hx Hrest]].
    + exists [], l. now repeat split.
    + subst y.
      assert (In p (l1 ++ p :: l2 ++ q :: l3)) as Hp
        by (apply in_or_app; right; now left).
      assert (In q (l1 ++ p :: l2 ++ q :: l3)) as Hq
        by (apply in_or_app; right; right; apply in_or_app; right; now left).
      rewrite <- Hrest in Hp, Hq.
      apply filter_In in Hp as [_ Hp]. apply filter_In in Hq as [_ Hq].
      apply negb_true_iff, String.eqb_neq in Hp, Hq.
      assert (stands_before (List.filter (differs x) (first_seen l)) p q) as Hf
        by (exists l1, l2, l3; exact Hrest).
      destruct (IH (filter_stands_before _ _ _ _ Hf)) as (r1 & r2 & -> & Hp1 & Hq1).
      exists (x :: r1), r2. repeat split; simpl; intuition congruence.
Qed.

(** Lengths and prefixes of [substring 0 k s]. *)
Lemma length_substring_0 (s : string) (k : nat) :
  (k <= String.length s)%nat -> String.length (substring 0 k s) = k.
Proof.
  revert k. induction s as [|c s IH]; intros k Hk; simpl in *.
  - destruct k; [reflexivity | lia].
  - destruct k as [|k]; [reflexivity|]. simpl. rewrite IH; [reflexivity | lia].
Qed.

Lemma prefix_substring_0 (s : string) (k : nat) :
  String.prefix (substring 0 k s) s = true.
Proof.
  revert k. induction s as [|c s IH]; intros k; simpl.
  - now destruct k.
  - destruct k as [|k]; [reflexivity|]. simpl.
    destruct (ascii_dec c c); [apply IH | congruence].
Qed.

Lemma prefix_refl (s : string) : String.prefix s s = true.
Proof.
  induction s as [|c s IH]; [reflexivity|]. simpl.
  destruct (ascii_dec c c); [exact IH | congruence].
Qed.

Section Batch.

Context `{P : Platform}.

(** An artifact with no URI resolves to nothing. *)
Lemma resolve_no_uri (art : Artifact) (cfg : Cfg) :
  uri art = None -> resolve_artifact_location art cfg = None.
Proof. intros Hu. unfold resolve_artifact_location. now rewrite Hu. Qed.

Lemma empty_artifact_no_uri (art : Artifact) :
  artifact_is_empty art = true -> uri art = None.
Proof. unfold artifact_is_empty. now destruct (uri art). Qed.

(** A turn of the first loop: it raises on a [null], and appends what
    the location contributes otherwise. *)
Lemma collect_step_spec (cfg : Cfg) (paths : list string)
    (loc : option Location) :
  collect_step cfg paths loc
  = if null_physical loc then Raise AttributeError
    else Ret (paths ++ from_option (fun p => [p]) [] (location_path cfg loc))%list.
Proof.
  unfold collect_step, location_path, null_physical.
  destruct loc as [[[| |[[art|]]]]|]; simpl; rewrite ?app_nil_r;
    try reflexivity.
  destruct (artifact_is_empty art) eqn:He.
  - rewrite (resolve_no_uri art cfg (empty_artifact_no_uri art He)).
    simpl. now rewrite app_nil_r.
  - destruct (resolve_artifact_location art cfg) as [p|]; simpl.
    + destruct (Py.truthy p); simpl; now rewrite ?app_nil_r.
    + now rewrite app_nil_r.
Qed.

Lemma collect_loop_spec (cfg : Cfg) (locs : list (option Location))
    (paths : list string) :
  collect_loop cfg locs paths
  = if existsb null_physical locs then Raise AttributeError
    else Ret (paths ++ omap (location_path cfg) locs)%list.
Proof.
  revert paths. induction locs as [|loc locs IH]; intros paths; simpl.
  - now rewrite app_nil_r.
  - rewrite collect_step_spec.
    destruct (null_physical loc); simpl; [reflexivity|].
    rewrite IH. destruct (existsb null_physical locs); [reflexivity|].
    rewrite <- app_assoc. do 2 f_equal.
    now destruct (location_path cfg loc).
Qed.

End Batch.

(** The second loop, from a state in which [seen] holds the elements of
    [dedup]. *)
Lemma dedup_loop_spec (l : list string) (seen : gset string)
    (dedup : list string) :
  (forall x, x ∈ seen <-> In x dedup) ->
  snd (fold_left dedup_step l (seen, dedup))
  = (dedup ++ List.filter (notin dedup) (first_seen l))%list.
Proof.
  revert seen dedup. induction l as [|x l IH]; intros seen dedup Hseen; simpl.
  - now rewrite app_nil_r.
  - destruct (bool_decide (x ∈ seen)) eqn:Hx.
    + apply bool_decide_eq_true in Hx. apply Hseen in Hx.
      rewrite (IH seen dedup Hseen). f_equal.
      assert (notin dedup x = false) as ->.
      { apply not_true_iff_false. rewrite notin_In. tauto. }
      rewrite filter_filter_and. apply List.filter_ext_in. intros y _.
      destruct (notin dedup y) eqn:Hy; [|reflexivity]. simpl.
      apply notin_In in Hy. symmetry. apply negb_true_iff, String.eqb_neq.
      congruence.
    + apply bool_decide_eq_false in Hx.
      rewrite (IH ({[x]} ∪ seen) (dedup ++ [x])%list).
      * assert (notin dedup x = true) as ->.
        { apply notin_In. rewrite <- Hseen. exact Hx. }
        rewrite <- app_assoc. simpl. do 2 f_equal.
        rewrite filter_filter_and. apply List.filter_ext. intros y.
        apply notin_snoc.
      * intros y. rewrite elem_of_union, elem_of_singleton, in_app_iff, Hseen.
        simpl. intuition congruence.
Qed.

Lemma dedup_loop_first_seen (l : list string) :
  snd (fold_left dedup_step l (∅, [])) = first_seen l.
Proof.
  rewrite (dedup_loop_spec l ∅ []).
  - simpl. clear. induction (first_seen l) as [|a r IH]; [reflexivity|].
    simpl. now rewrite IH.
  - intros x. rewrite elem_of_empty. simpl. tauto.
Qed.

Section Extract.

Context `{P : Platform}.

(** The outcome of [extract_result_files]: the exception when a location
    holds [null] under [physicalLocation], the first occurrences of the
    resolved paths otherwise. *)
Lemma extract_result_files_spec (res : ScanResult) (cfg : Cfg) :
  extract_result_files res cfg
  = if existsb null_physical (default [] (locations res))
    then Raise AttributeError
    else Ret (first_seen (resolved_paths res cfg)).
Proof.
  unfold extract_result_files, resolved_paths. rewrite collect_loop_spec.
  destruct (existsb null_physical (default [] (locations res)));
    [reflexivity|].
  simpl. now rewrite dedup_loop_first_seen.
Qed.

Lemma existsb_null_physical (locs : list (option Location)) :
  (existsb null_physical locs = true <->
   Exists (fun loc => null_physical loc = true) locs) /\
  (existsb null_physical locs = false <->
   Forall (fun loc => null_physical loc = false) locs).
Proof.
  induction locs as [|loc locs [IHt IHf]]; simpl.
  - repeat split; try discriminate; try constructor.
    intros H. inversion H.
  - split.
    + rewrite orb_true_iff, IHt. split.
      * intros [H | H]; [now left | now right].
      * intros H. inversion H; subst; auto.
    + rewrite orb_false_iff, IHf. split.
      * intros [H1 H2]. now constructor.
      * intros H. inversion H; subst; auto.
Qed.

(** C7: where the claim has every location without result left out and no
    error, [extract_result_files] raises [AttributeError] as soon as a
    location holds [null] under [physicalLocation], and the paths found
    are lost. For every other result it does what the claim says: it
    returns the resolved paths of the locations, each location on its own,
    a location without artifact, URI or path giving none, deduplicated in
    the order of first occurrence: every resolved path is in the output
    exactly once, and the output holds nothing else. *)
Theorem extract_result_files_dedup (res : ScanResult) (cfg : Cfg) :
  let locs := default [] (locations res) in
  let paths := resolved_paths res cfg in
  (Exists (fun loc => null_physical loc = true) locs ->
   extract_result_files res cfg = Raise AttributeError) /\
  (Forall (fun loc => null_physical loc = false) locs ->
   exists out,
     extract_result_files res cfg = Ret out /\
     out = first_seen paths /\
     List.NoDup out /\
     (forall p, In p out <-> In p paths) /\
     (forall p, In p paths -> count_occ string_dec out p = 1%nat) /\
     (forall p q, stands_before out p q -> first_before paths p q)) /\
  (forall l phy art,
     physicalLocation l = Object phy -> artifactLocation phy = Some art ->
     uri art = None -> location_path cfg (Some l) = None).
Proof.
  intros locs paths. rewrite extract_result_files_spec. fold locs.
  destruct (existsb_null_physical locs) as [Ht Hf].
  split; [|split].
  - intros Hex. now rewrite (proj2 Ht Hex).
  - intros Hall. rewrite (proj2 Hf Hall). exists (first_seen paths).
    split; [reflexivity|]. split; [reflexivity|].
    split; [apply first_seen_NoDup|].
    split; [intros p; apply first_seen_In|].
    split.
    + intros p Hp.
      apply (proj1 (List.NoDup_count_occ' string_dec _)
                   (first_seen_NoDup paths)).
      now apply first_seen_In.
    + intros p q. apply first_seen_order.
  - intros l phy art Hphy Hart Huri. unfold location_path.
    now rewrite Hphy, Hart, (resolve_no_uri art cfg Huri).
Qed.

(** C8, amended: [safe_read_text] always returns a string, whatever the
    path, the encoding and [max_chars]; it is empty when the read (with the
    handler [ignore]) raises, and for [max_chars >= 0] it is the prefix of
    the text read that has [min(len, max_chars)] characters. *)
Theorem safe_read_text_bounded (path encoding : string) (max_chars : Z) :
  exists s,
    safe_read_text path encoding max_chars = Ret s /\
    (forall e, read_text path encoding "ignore" = Raise e -> s = "") /\
    (forall content,
       read_text path encoding "ignore" = Ret content ->
       0 <= max_chars ->
       Py.slen s <= max_chars /\
       Py.slen s = Z.min (Py.slen content) max_chars /\
       String.prefix s content = true).
Proof.
  unfold safe_read_text.
  destruct (read_text path encoding "ignore") as [content|e]; simpl.
  - eexists. split; [reflexivity|]. split; [discriminate|].
    intros c Hc Hmax. inversion Hc; subst c.
    destruct (Py.slen content >? max_chars) eqn:Hlen.
    + apply Z.gtb_lt in Hlen.
      unfold Py.sslice_to, Py.bound.
      rewrite (proj2 (Z.ltb_ge max_chars 0) Hmax).
      rewrite Z.min_l by lia.
      unfold Py.slen in *.
      rewrite length_substring_0 by lia.
      split; [lia|]. split; [lia|]. apply prefix_substring_0.
    + assert (Py.slen content <= max_chars) as Hle
        by (destruct (Z.gtb_spec (Py.slen content) max_chars); [discriminate | lia]).
      split; [exact Hle|]. split; [lia|]. apply prefix_refl.
  - exists "". split; [reflexivity|]. split; [reflexivity|]. discriminate.
Qed.

End Extract.

(** The three locations on a POSIX host: the file named twice is listed
    once, at its first place. *)
Example extract_three_locations :
  resolved_paths (P := posix fs_src) res_three cfg_mapped
    = ["/src/a.py"; "/gone/b.py"; "/src/a.py"] /\
  extract_result_files (P := posix fs_src) res_three cfg_mapped
    = Ret ["/src/a.py"; "/gone/b.py"].
Proof. split; vm_compute; reflexivity. Qed.

(** A location whose [physicalLocation] is [null], alone and after a
    location that resolves: the call raises, where a location with no
    [physicalLocation] at all, or an entry [null] of [locations], is left
    out. *)
Example extract_null_physical :
  extract_result_files (P := posix fs_src)
    (mkResult None (Some [Some (mkLocation Null)])) cfg_mapped
    = Raise AttributeError /\
  extract_result_files (P := posix fs_src)
    (mkResult None (Some [loc_of art_file; Some (mkLocation Null)])) cfg_mapped
    = Raise AttributeError /\
  extract_result_files (P := posix fs_src)
    (mkResult None (Some [loc_of art_file; Some (mkLocation Missing); None]))
    cfg_mapped
    = Ret ["/src/a.py"].
Proof. repeat split; vm_compute; reflexivity. Qed.

(** C8 as stated fails twice. A file with an undecodable byte does not
    yield the empty string: the byte is skipped. And with a negative
    [max_chars] the text returned has more than [max_chars] characters. *)
Lemma safe_read_text_not_bounded :
  read_text (Platform := posix fs_abc) "/bad" "utf-8" "strict"
    = Raise UnicodeDecodeError /\
  safe_read_text (P := posix fs_abc) "/bad" "utf-8" 120000 = Ret "ab" /\
  read_text (Platform := posix fs_abc) "/f" "utf-8" "ignore" = Ret "abc" /\
  safe_read_text (P := posix fs_abc) "/f" "utf-8" (-1) = Ret "ab" /\
  Py.slen "ab" > -1.
Proof. repeat split. Qed.

(** Reads that raise, a read that is cut and a read that is not. *)
Example safe_read_text_cases :
  safe_read_text (P := posix fs_abc) "/locked" "utf-8" 120000 = Ret "" /\
  safe_read_text (P := posix fs_abc) "/nowhere" "utf-8" 120000 = Ret "" /\
  safe_read_text (P := posix fs_abc) "/f" "no-such-codec" 120000 = Ret "" /\
  safe_read_text (P := posix fs_abc) "/f" "utf-8" 2 = Ret "ab" /\
  safe_read_text (P := posix fs_abc) "/f" "utf-8" 120000 = Ret "abc".
Proof. repeat split. Qed.

End BatchProps.

(** ** Properties of the selector *)

Module SelectorProps.
Import Tools SelectorSpec ToolInputs.

(** *** Slices *)

Lemma take_all {A} (l : list A) (k : nat) :
  (length l <= k)%nat -> take k l = l.
Proof. apply take_ge. Qed.

Lemma slice_to_nonneg {A} (l : list A) (m : Z) :
  0 <= m -> Py.slice_to l m = take (Z.to_nat m) l.
Proof.
  intros Hm. unfold Py.slice_to, Py.bound, Py.len.
  rewrite (proj2 (Z.ltb_ge m 0) Hm).
  destruct (Z.le_gt_cases m (Z.of_nat (length l))) as [Hle | Hgt].
  - now rewrite Z.min_l.
  - rewrite Z.min_r by lia. rewrite Nat2Z.id.
    rewrite !take_ge; [reflexivity | lia | lia].
Qed.

Lemma slice_to_neg {A} (l : list A) (m : Z) :
  m < 0 -> Py.slice_to l m = take (Z.to_nat (Z.max 0 (Py.len l + m))) l.
Proof.
  intros Hm. unfold Py.slice_to, Py.bound.
  now rewrite (proj2 (Z.ltb_lt m 0) Hm).
Qed.

Lemma len_take {A} (l : list A) (k : Z) :
  0 <= k -> Py.len (take (Z.to_nat k) l) = Z.min k (Py.len l).
Proof. intros Hk. unfold Py.len. rewrite length_take. lia. Qed.

Lemma slice_lines (lines : list string) (s e : Z) :
  0 <= s -> s <= e -> e <= Py.len lines - 1 ->
  Py.slice lines s (e + 1) = lines_between lines s e.
Proof.
  intros Hs Hse He. unfold Py.slice, lines_between, Py.bound.
  rewrite (proj2 (Z.ltb_ge s 0) Hs).
  rewrite (proj2 (Z.ltb_ge (e + 1) 0)) by lia.
  rewrite !Z.min_l by lia. do 2 f_equal. lia.
Qed.

Lemma lines_between_length (lines : list string) (s e : Z) :
  0 <= s -> s <= e -> e <= Py.len lines - 1 ->
  Py.len (lines_between lines s e) = e - s + 1.
Proof.
  intros Hs Hse He. unfold lines_between, Py.len in *.
  rewrite length_take, length_drop. lia.
Qed.

(** *** The scans *)

(** The hits of a scan are the indices of the lines that pass the test. *)
Lemma scan_spec (hit : string -> bool) (lines : list string) (idx i : Z) :
  In i (scan hit idx lines) <->
  idx <= i /\ exists line, lines !! Z.to_nat (i - idx) = Some line /\ hit line = true.
Proof.
  revert idx. induction lines as [|l lines IH]; intros idx; simpl.
  - split; [tauto | intros (_ & line & Hl & _); discriminate].
  - assert (In i (scan hit (idx + 1) lines) <->
            idx < i /\ exists line, lines !! Z.to_nat (i - idx - 1) = Some line
                                    /\ hit line = true) as Hrec.
    { rewrite IH. replace (i - (idx + 1)) with (i - idx - 1) by lia.
      split; intros [? ?]; split; (lia || assumption). }
    assert (forall line, idx < i ->
              ((l :: lines) !! Z.to_nat (i - idx) = Some line <->
               lines !! Z.to_nat (i - idx - 1) = Some line)) as Hcons.
    { intros line Hlt.
      replace (Z.to_nat (i - idx)) with (S (Z.to_nat (i - idx - 1))) by lia.
      reflexivity. }
    destruct (hit l) eqn:Hl; simpl; rewrite Hrec; split.
    + intros [<- | (Hlt & line & Hline & Hh)].
      * split; [lia|]. exists l. now rewrite Z.sub_diag.
      * split; [lia|]. exists line. split; [now apply Hcons | assumption].
    + intros (Hle & line & Hline & Hh).
      destruct (Z.eq_dec idx i) as [-> | Hne]; [now left | right].
      split; [lia|]. exists line. split; [apply Hcons; [lia | assumption] | assumption].
    + intros (Hlt & line & Hline & Hh).
      split; [lia|]. exists line. split; [now apply Hcons | assumption].
    + intros (Hle & line & Hline & Hh).
      destruct (Z.eq_dec idx i) as [-> | Hne].
      * rewrite Z.sub_diag in Hline. simpl in Hline. congruence.
      * split; [lia|]. exists line. split; [apply Hcons; [lia | assumption] | assumption].
Qed.

Lemma scan_bounds (hit : string -> bool) (lines : list string) (idx : Z) :
  Forall (fun h => idx <= h < idx + Py.len lines) (scan hit idx lines).
Proof.
  revert idx. induction lines as [|l lines IH]; intros idx; simpl.
  - constructor.
  - assert (Forall (fun h => idx <= h < idx + Py.len (l :: lines))
                   (scan hit (idx + 1) lines)) as Hrest.
    { eapply Forall_impl; [apply IH|]. intros h. unfold Py.len. simpl. lia. }
    destruct (hit l); [constructor|]; try assumption.
    unfold Py.len. simpl. lia.
Qed.

Lemma scan_sorted (hit : string -> bool) (lines : list string) (idx : Z) :
  StronglySorted Z.le (scan hit idx lines).
Proof.
  revert idx. induction lines as [|l lines IH]; intros idx; simpl.
  - constructor.
  - destruct (hit l); [|apply IH]. constructor; [apply IH|].
    eapply Forall_impl; [apply (scan_bounds hit lines (idx + 1))|].
    intros h. simpl. lia.
Qed.

(** *** The merge loop *)

(** A turn of the loop on a list of ranges that ends with [cur]. *)
Lemma merge_step_snoc (n w : Z) (init : list (Z * Z)) (cur : Z * Z) (h : Z) :
  merge_step n w (init ++ [cur]) h =
  if fst (window n w h) <=? snd cur + 1
  then (init ++ [(fst cur, Z.max (snd cur) (snd (window n w h)))])%list
  else (init ++ [cur; window n w h])%list.
Proof.
  unfold merge_step. destruct (window n w h) as [s e]. simpl.
  rewrite last_snoc. destruct cur as [s0 e0]. simpl.
  destruct (s <=? e0 + 1).
  - rewrite length_app. simpl.
    replace (length init + 1 - 1)%nat with (length init + 0)%nat by lia.
    now rewrite insert_app_r.
  - now rewrite <- app_assoc.
Qed.

(** The loop, started on ranges that end with [cur], closes the ranges the
    left-to-right merge closes. *)
Lemma merge_loop_coalesce (n w : Z) (hits : list Z) (init : list (Z * Z))
    (cur : Z * Z) :
  fold_left (merge_step n w) hits (init ++ [cur])%list
  = (init ++ coalesce cur (map (window n w) hits))%list.
Proof.
  revert init cur. induction hits as [|h hits IH]; intros init cur.
  - reflexivity.
  - cbn [fold_left map coalesce]. rewrite merge_step_snoc.
    destruct (window n w h) as [s e] eqn:Hw. cbn [fst snd].
    destruct (s <=? snd cur + 1).
    + apply IH.
    + change (init ++ [cur; (s, e)])%list with (init ++ [cur] ++ [(s, e)])%list.
      rewrite app_assoc, IH, <- app_assoc. reflexivity.
Qed.

Lemma merge_ranges_coalesce (n w : Z) (hits : list Z) :
  merge_ranges n w hits = merge_windows (map (window n w) hits).
Proof.
  unfold merge_ranges. destruct hits as [|h hits]; [reflexivity|].
  cbn [fold_left map merge_windows].
  assert (merge_step n w [] h = ([] ++ [window n w h])%list) as ->.
  { unfold merge_step. now destruct (window n w h). }
  now rewrite merge_loop_coalesce.
Qed.

(** The first range the merge returns starts where [cur] starts and ends
    no earlier. *)
Lemma coalesce_head (cur : Z * Z) (windows : list (Z * Z)) :
  exists e rest,
    coalesce cur windows = (fst cur, e) :: rest /\ snd cur <= e.
Proof.
  revert cur. induction windows as [|[s e] ws IH]; intros cur; simpl.
  - exists (snd cur), []. split; [now destruct cur | lia].
  - destruct (s <=? snd cur + 1).
    + destruct (IH (fst cur, Z.max (snd cur) e)) as (e' & rest & -> & He).
      simpl in *. exists e', rest. split; [reflexivity | lia].
    + exists (snd cur), (coalesce (s, e) ws).
      split; [now destruct cur | lia].
Qed.

Lemma coalesce_in_file (n : Z) (cur : Z * Z) (windows : list (Z * Z)) :
  in_file n cur -> Forall (in_file n) windows ->
  Forall (in_file n) (coalesce cur windows).
Proof.
  revert cur. induction windows as [|[s e] ws IH]; intros cur Hcur Hws; simpl.
  - now constructor.
  - inversion Hws as [|? ? Hse Hrest]; subst.
    destruct (s <=? snd cur + 1).
    + apply IH; [|assumption]. unfold in_file in *. simpl in *. lia.
    + constructor; [assumption | now apply IH].
Qed.

(** Consecutive ranges of the merge are more than one line apart. *)
Lemma coalesce_sorted (n : Z) (cur : Z * Z) (windows : list (Z * Z)) :
  in_file n cur -> Forall (in_file n) windows ->
  Sorted gap (coalesce cur windows).
Proof.
  revert cur. induction windows as [|[s e] ws IH]; intros cur Hcur Hws; simpl.
  - repeat constructor.
  - inversion Hws as [|? ? Hse Hrest]; subst.
    destruct (s <=? snd cur + 1) eqn:Hs.
    + apply IH; [|assumption]. unfold in_file in *. simpl in *. lia.
    + constructor; [now apply IH|].
      destruct (coalesce_head (s, e) ws) as (e' & rest & -> & _).
      constructor. unfold gap. simpl. apply Z.leb_gt in Hs. lia.
Qed.

(** Between ranges that lie in the file, [gap] is transitive. *)
Lemma sorted_gap_strongly (n : Z) (l : list (Z * Z)) :
  Forall (in_file n) l -> Sorted gap l -> StronglySorted gap l.
Proof.
  induction l as [|r l IH]; intros Hin Hs; [constructor|].
  inversion Hin as [|? ? Hr Hl]; subst.
  inversion Hs as [|? ? Hs' Hhd]; subst.
  constructor; [now apply IH|].
  specialize (IH Hl Hs').
  destruct l as [|r2 l]; [constructor|].
  inversion Hhd; subst. inversion IH as [|? ? _ Hall]; subst.
  inversion Hl as [|? ? Hr2 _]; subst.
  constructor; [assumption|].
  eapply Forall_impl; [exact Hall|].
  intros r3. unfold gap, in_file in *. lia.
Qed.

(** When the windows start in ascending order, from the start of [cur] on,
    the merge covers [cur] and every window. *)
Lemma coalesce_covers (cur : Z * Z) (windows : list (Z * Z)) :
  StronglySorted (fun a b => fst a <= fst b) (cur :: windows) ->
  Forall (fun w => Exists (covers w) (coalesce cur windows)) (cur :: windows).
Proof.
  revert cur. induction windows as [|[s e] ws IH]; intros cur Hs.
  - repeat constructor; unfold covers; lia.
  - inversion Hs as [|? ? Hs' Hall]; subst.
    inversion Hall as [|? ? Hcs Hcws]; subst.
    inversion Hs' as [|? ? Hsws Hsall]; subst. simpl in Hcs.
    cbn [coalesce]. destruct (s <=? snd cur + 1).
    + assert (StronglySorted (fun a b => fst a <= fst b)
                ((fst cur, Z.max (snd cur) e) :: ws)) as Hs2.
      { constructor; [assumption|]. simpl.
        eapply Forall_impl; [exact Hcws|]. now simpl. }
      specialize (IH _ Hs2).
      inversion IH as [|? ? Hcur' Hrest]; subst.
      assert (forall w, covers w (fst cur, Z.max (snd cur) e) ->
                Exists (covers w)
                       (coalesce (fst cur, Z.max (snd cur) e) ws)) as Hup.
      { intros w Hw. apply Exists_exists in Hcur' as (r & Hr & Hc).
        apply Exists_exists. exists r. split; [assumption|].
        unfold covers in *. simpl in *. lia. }
      constructor; [apply Hup; unfold covers; simpl; lia|].
      constructor; [apply Hup; unfold covers; simpl; lia | assumption].
    + specialize (IH _ Hs').
      constructor; [left; unfold covers; lia|].
      eapply Forall_impl; [exact IH|].
      intros w Hw. now right.
Qed.

(** *** Windows *)

Lemma coerce_window_pos (context_window : Z) : 0 < coerce_window context_window.
Proof.
  unfold coerce_window.
  destruct (Z.leb_spec context_window 0); lia.
Qed.

Lemma window_in_file (n w h : Z) :
  0 <= w -> 0 <= h < n -> in_file n (window n w h).
Proof. intros Hw Hh. unfold in_file, window. simpl. lia. Qed.

Lemma windows_in_file (n w : Z) (hits : list Z) :
  0 <= w -> Forall (fun h => 0 <= h < n) hits ->
  Forall (in_file n) (map (window n w) hits).
Proof.
  intros Hw Hall. induction Hall as [|h hits Hh _ IH]; simpl; constructor.
  - now apply window_in_file.
  - exact IH.
Qed.

Lemma windows_ascending (n w : Z) (hits : list Z) :
  StronglySorted Z.le hits ->
  StronglySorted (fun a b => fst a <= fst b) (map (window n w) hits).
Proof.
  induction 1 as [|h hits _ IH Hall]; simpl; constructor.
  - exact IH.
  - clear IH. induction Hall as [|h2 hits2 Hle _ IH2]; simpl; constructor.
    + simpl. lia.
    + exact IH2.
Qed.

(** What the merge loop guarantees for hits in ascending order that lie in
    the file. *)
Lemma merge_ranges_facts (n w : Z) (hits : list Z) :
  0 <= w ->
  StronglySorted Z.le hits ->
  Forall (fun h => 0 <= h < n) hits ->
  Forall (in_file n) (merge_ranges n w hits) /\
  StronglySorted gap (merge_ranges n w hits) /\
  Forall (fun h => Exists (covers (window n w h)) (merge_ranges n w hits)) hits.
Proof.
  intros Hw Hsorted Hin. rewrite merge_ranges_coalesce.
  pose proof (windows_in_file n w hits Hw Hin) as Hwin.
  pose proof (windows_ascending n w hits Hsorted) as Hasc.
  destruct hits as [|h hits]; simpl in *.
  - repeat constructor.
  - inversion Hwin as [|? ? Hcur Hrest]; subst.
    assert (Forall (in_file n) (coalesce (window n w h) (map (window n w) hits)))
      as Hfile by now apply coalesce_in_file.
    split; [exact Hfile|]. split.
    + apply (sorted_gap_strongly n); [exact Hfile|].
      now apply (coalesce_sorted n).
    + pose proof (coalesce_covers _ _ Hasc) as Hcov.
      inversion Hcov as [|? ? Hc Hcs]; subst.
      constructor; [exact Hc|].
      now rewrite Forall_map in Hcs.
Qed.

(** C4: for hit lines in ascending order within a file of [n] lines, the
    merge loop returns, for every window [w0], the left-to-right merge of
    the windows [max(0, h-w0), min(n-1, h+w0)]: a window that starts at
    most one line after the end of the current range extends that end to
    the larger of the two ends, any other window opens a new range. With
    the window [w] in force in [select_suspicious] (the argument, or 10
    when it is not positive), the ranges lie in the file, each is more
    than one line after the end of every earlier one, and every window is
    covered by a range. Hits on the lines 5 and 7
    (counted from 1) with window 2 in a file of at least 9 lines give the
    one region from line 3 to line 9. *)
Theorem merge_ranges_ordered (n context_window : Z) (hit_lines : list Z) :
  StronglySorted Z.le hit_lines ->
  Forall (fun h => 0 <= h < n) hit_lines ->
  let w := coerce_window context_window in
  let ranges := merge_ranges n w hit_lines in
  (forall w0 : Z,
     merge_ranges n w0 hit_lines
     = merge_windows
         (map (fun h => (Z.max 0 (h - w0), Z.min (n - 1) (h + w0))) hit_lines)) /\
  Forall (in_file n) ranges /\
  StronglySorted gap ranges /\
  Forall (fun h => Exists (covers (Z.max 0 (h - w), Z.min (n - 1) (h + w))) ranges)
         hit_lines /\
  (forall lines : list string,
     9 <= Py.len lines ->
     merge_ranges (Py.len lines) (coerce_window 2) [4; 6] = [(2, 8)] /\
     map region_bounds
         (map (make_snippet lines)
              (merge_ranges (Py.len lines) (coerce_window 2) [4; 6]))
     = [(3, 9)]).
Proof.
  intros Hsorted Hin w ranges.
  pose proof (coerce_window_pos context_window) as Hw.
  destruct (merge_ranges_facts n w hit_lines) as (Hfile & Hgap & Hcov);
    [fold w in Hw; lia | assumption | assumption |].
  split; [intros w0; apply merge_ranges_coalesce|].
  split; [exact Hfile|]. split; [exact Hgap|]. split; [exact Hcov|].
  intros lines Hlen.
  assert (merge_ranges (Py.len lines) (coerce_window 2) [4; 6] = [(2, 8)]) as ->.
  { rewrite merge_ranges_coalesce. unfold coerce_window, window. simpl.
    rewrite Z.min_r by lia. rewrite Z.min_r by lia.
    rewrite Z.max_r by lia. reflexivity. }
  split; reflexivity.
Qed.

(** The hits 4 and 6 in a file of ten lines. *)
Lemma merge_ranges_ordered_witness :
  merge_ranges 10 (coerce_window 2) [4; 6] = [(2, 8)].
Proof.
  assert (StronglySorted Z.le [4; 6]) as Hsorted
    by (repeat constructor; lia).
  assert (Forall (fun h => 0 <= h < 10) [4; 6]) as Hin
    by (repeat constructor; lia).
  exact (proj1 (proj2 (proj2 (proj2 (proj2
           (merge_ranges_ordered 10 2 [4; 6] Hsorted Hin)))) ["l1"; "l2"; "l3";
             "l4"; "l5"; "l6"; "l7"; "l8"; "l9"; "l10"] ltac:(vm_compute; discriminate))).
Defined.

(** *** The regions returned *)

Lemma hit_lines_cases (keywords : list string) (codeql_query : option string)
    (lines : list string) :
  hit_lines keywords codeql_query lines
  = scan (primary_hit keywords) 0 lines \/
  hit_lines keywords codeql_query lines
  = scan (fallback_hit (Py.lower (default "" codeql_query))) 0 lines.
Proof.
  unfold hit_lines.
  destruct (scan (primary_hit keywords) 0 lines); [right | left]; reflexivity.
Qed.

Lemma hit_lines_sorted (keywords : list string) (codeql_query : option string)
    (lines : list string) :
  StronglySorted Z.le (hit_lines keywords codeql_query lines) /\
  Forall (fun h => 0 <= h < Py.len lines)
         (hit_lines keywords codeql_query lines).
Proof.
  destruct (hit_lines_cases keywords codeql_query lines) as [-> | ->];
    (split; [apply scan_sorted | apply (scan_bounds _ lines 0)]).
Qed.

(** The ranges of [select_suspicious] lie in the file, in ascending order
    and apart. *)
Lemma ranges_of_facts (self : FakeToolset) (file_content : string)
    (codeql_query : option string) (context_window : Z) :
  Forall (in_file (Py.len (Py.splitlines file_content)))
         (ranges_of self file_content codeql_query context_window) /\
  StronglySorted gap (ranges_of self file_content codeql_query context_window).
Proof.
  unfold ranges_of.
  destruct (hit_lines_sorted
              (default [] (suspicious_keywords (selector_rules self)))
              codeql_query (Py.splitlines file_content)) as [Hs Hb].
  pose proof (coerce_window_pos context_window) as Hw.
  destruct (merge_ranges_facts _ (coerce_window context_window) _
              ltac:(lia) Hs Hb) as (Hfile & Hgap & _).
  now split.
Qed.

Lemma snippets_slice (self : FakeToolset) (file_path file_content : string)
    (codeql_query : option string) (context_window max_snippets : Z) :
  snippets (select_suspicious self file_path file_content codeql_query
                              context_window max_snippets)
  = map (make_snippet (Py.splitlines file_content))
        (Py.slice_to (ranges_of self file_content codeql_query context_window)
                     max_snippets).
Proof. reflexivity. Qed.

Lemma snippet_count_len (self : FakeToolset) (file_path file_content : string)
    (codeql_query : option string) (context_window max_snippets : Z) :
  let out := select_suspicious self file_path file_content codeql_query
                               context_window max_snippets in
  snippet_count out = Py.len (snippets out).
Proof. reflexivity. Qed.

(** The region of a range that lies in the file. *)
Lemma make_snippet_spec (lines : list string) (r : Z * Z) :
  in_file (Py.len lines) r ->
  start_line (make_snippet lines r) = fst r + 1 /\
  end_line (make_snippet lines r) = snd r + 1 /\
  text (make_snippet lines r)
  = Py.join (String Py.newline "") (lines_between lines (fst r) (snd r)) /\
  Py.len (lines_between lines (fst r) (snd r)) = snd r - fst r + 1.
Proof.
  destruct r as [s e]. unfold in_file. simpl. intros (Hs & Hse & He).
  rewrite slice_lines by assumption.
  rewrite lines_between_length by assumption. now repeat split.
Qed.

Lemma Forall2_map_self {A B} (R : B -> A -> Prop) (f : A -> B) (l : list A) :
  Forall (fun x => R (f x) x) l -> Forall2 R (map f l) l.
Proof. induction 1; simpl; constructor; assumption. Qed.

Lemma Forall_take {A} (Q : A -> Prop) (l : list A) (k : nat) :
  Forall Q l -> Forall Q (take k l).
Proof.
  intros Hall. revert k. induction Hall as [|x l Hx _ IH]; intros [|k]; simpl;
    constructor; [assumption | apply IH].
Qed.

(** C5, amended: for [max_snippets >= 0], [select_suspicious] returns at
    most [max_snippets] regions, one for each of the first [max_snippets]
    merged ranges, in their ascending order; the region of the range
    [(s, e)] has [start_line = s + 1], [end_line = e + 1] and for text the
    [e - s + 1] lines [s] to [e] of the file joined by line breaks. *)
Theorem select_suspicious_cap (self : FakeToolset)
    (file_path file_content : string) (codeql_query : option string)
    (context_window max_snippets : Z) :
  0 <= max_snippets ->
  let out := select_suspicious self file_path file_content codeql_query
                               context_window max_snippets in
  let lines := Py.splitlines file_content in
  let ranges := ranges_of self file_content codeql_query context_window in
  Py.len (snippets out) <= max_snippets /\
  snippet_count out = Z.min max_snippets (Py.len ranges) /\
  StronglySorted gap ranges /\
  Forall2
    (fun region r =>
       start_line region = fst r + 1 /\
       end_line region = snd r + 1 /\
       text region
       = Py.join (String Py.newline "") (lines_between lines (fst r) (snd r)) /\
       Py.len (lines_between lines (fst r) (snd r)) = snd r - fst r + 1)
    (snippets out) (take (Z.to_nat max_snippets) ranges).
Proof.
  intros Hmax out lines ranges.
  destruct (ranges_of_facts self file_content codeql_query context_window)
    as [Hfile Hgap].
  assert (snippets out = map (make_snippet lines)
                             (take (Z.to_nat max_snippets) ranges)) as Hsn.
  { unfold out. rewrite snippets_slice. now rewrite slice_to_nonneg. }
  assert (Py.len (snippets out) = Z.min max_snippets (Py.len ranges)) as Hlen.
  { rewrite Hsn. unfold Py.len at 1. rewrite length_map.
    now apply len_take. }
  split; [lia|]. split; [exact Hlen|]. split; [exact Hgap|].
  rewrite Hsn. apply Forall2_map_self.
  eapply Forall_impl; [apply Forall_take, Hfile|].
  intros r Hr. now apply make_snippet_spec.
Qed.

(** C10: for [max_snippets < 0] and [k] merged ranges, the regions are
    those of the first [max(0, k - |max_snippets|)] ranges, so there are
    more than [max_snippets] of them; a [context_window] that is not
    positive is replaced by 10, [max_snippets] is used as it is given. *)
Theorem select_suspicious_negative_cap (self : FakeToolset)
    (file_path file_content : string) (codeql_query : option string)
    (context_window max_snippets : Z) :
  max_snippets < 0 ->
  let out := select_suspicious self file_path file_content codeql_query
                               context_window max_snippets in
  let lines := Py.splitlines file_content in
  let ranges := ranges_of self file_content codeql_query context_window in
  let k := Py.len ranges in
  snippets out
  = map (make_snippet lines)
        (take (Z.to_nat (Z.max 0 (k - Z.abs max_snippets))) ranges) /\
  snippet_count out = Z.max 0 (k - Z.abs max_snippets) /\
  max_snippets < snippet_count out /\
  (context_window <= 0 ->
   out = select_suspicious self file_path file_content codeql_query
                           10 max_snippets).
Proof.
  intros Hneg out lines ranges k.
  assert (snippets out
          = map (make_snippet lines)
                (take (Z.to_nat (Z.max 0 (k - Z.abs max_snippets))) ranges))
    as Hsn.
  { unfold out. rewrite snippets_slice, slice_to_neg by assumption.
    fold ranges k lines. do 3 f_equal. lia. }
  assert (snippet_count out = Z.max 0 (k - Z.abs max_snippets)) as Hcount.
  { unfold out. rewrite snippet_count_len. fold out. rewrite Hsn.
    unfold Py.len at 1. rewrite length_map.
    fold (Py.len (take (Z.to_nat (Z.max 0 (k - Z.abs max_snippets))) ranges)).
    rewrite len_take by lia. unfold k, Py.len. lia. }
  split; [exact Hsn|]. split; [exact Hcount|].
  split; [rewrite Hcount; lia|].
  intros Hcw. unfold out, select_suspicious, coerce_window.
  now rewrite (proj2 (Z.leb_le context_window 0) Hcw).
Qed.

(** *** The fallback scan *)

Lemma scan_none (hit : string -> bool) (lines : list string) (idx : Z) :
  (forall line, hit line = false) -> scan hit idx lines = [].
Proof.
  intros Hnone. revert idx. induction lines as [|l lines IH]; intros idx; simpl.
  - reflexivity.
  - now rewrite Hnone.
Qed.

Lemma no_hits_no_regions (self : FakeToolset) (file_path file_content : string)
    (codeql_query : option string) (context_window max_snippets : Z) :
  hit_lines (default [] (suspicious_keywords (selector_rules self)))
            codeql_query (Py.splitlines file_content) = [] ->
  let out := select_suspicious self file_path file_content codeql_query
                               context_window max_snippets in
  snippets out = [] /\ snippet_count out = 0.
Proof.
  intros Hhits out.
  assert (snippets out = []) as Hsn.
  { unfold out. rewrite snippets_slice. unfold ranges_of. rewrite Hhits.
    unfold merge_ranges, Py.slice_to. simpl. now rewrite take_nil. }
  split; [exact Hsn|].
  unfold out. rewrite snippet_count_len. fold out. now rewrite Hsn.
Qed.

Lemma primary_hit_spec (keywords : list string) (line : string) :
  primary_hit keywords line = true <->
  exists kw, In kw keywords /\ Py.contains (Py.lower line) (Py.lower kw) = true.
Proof. unfold primary_hit, Py.any. apply existsb_exists. Qed.

Lemma fallback_hit_spec (codeql_query : option string) (line : string) :
  fallback_hit (Py.lower (default "" codeql_query)) line = true <->
  exists k, In k fallbacks /\
            Py.contains (Py.lower (default "" codeql_query)) k = true /\
            Py.contains (Py.lower line) k = true.
Proof.
  unfold fallback_hit, Py.any. rewrite existsb_exists.
  split.
  - intros (k & Hk & Hline). apply filter_In in Hk as [Hk Hq]. now exists k.
  - intros (k & Hk & Hq & Hline). exists k. split; [|assumption].
    apply filter_In. now split.
Qed.

(** C6: the hit lines are those of the primary scan when it finds some;
    when, and only when, it finds none, they are the lines that contain,
    case set aside, one of the seven fallback keywords that occurs, case
    set aside, in the query. With no primary hit and no fallback keyword
    in the query, and for an empty file, no region is returned. *)
Theorem select_suspicious_fallback (self : FakeToolset)
    (file_path file_content : string) (codeql_query : option string)
    (context_window max_snippets : Z) :
  let keywords := default [] (suspicious_keywords (selector_rules self)) in
  let lines := Py.splitlines file_content in
  let primary := scan (primary_hit keywords) 0 lines in
  let hits := hit_lines keywords codeql_query lines in
  let cq_low := Py.lower (default "" codeql_query) in
  let out := select_suspicious self file_path file_content codeql_query
                               context_window max_snippets in
  fallbacks = ["regex"; "pattern"; "compile"; "file"; "path"; "input";
               "sanitize"] /\
  (forall i, In i primary <->
     0 <= i /\ exists line, lines !! Z.to_nat i = Some line /\
       exists kw, In kw keywords /\
                  Py.contains (Py.lower line) (Py.lower kw) = true) /\
  (primary <> [] -> hits = primary) /\
  (primary = [] ->
   forall i, In i hits <->
     0 <= i /\ exists line, lines !! Z.to_nat i = Some line /\
       exists k, In k fallbacks /\ Py.contains cq_low k = true /\
                 Py.contains (Py.lower line) k = true) /\
  (primary = [] ->
   (forall k, In k fallbacks -> Py.contains cq_low k = false) ->
   snippets out = [] /\ snippet_count out = 0) /\
  (file_content = "" -> snippets out = [] /\ snippet_count out = 0).
Proof.
  intros keywords lines primary hits cq_low out.
  split; [reflexivity|]. split.
  { intros i. unfold primary. rewrite scan_spec, Z.sub_0_r.
    split; intros (Hi & line & Hline & Hhit); (split; [exact Hi|]);
      exists line; (split; [exact Hline|]); now apply primary_hit_spec. }
  split.
  { intros Hne. unfold hits, hit_lines. fold primary.
    now destruct primary. }
  assert (primary = [] -> hits = scan (fallback_hit cq_low) 0 lines) as Hfb.
  { intros Hnil. unfold hits, hit_lines. fold primary. now rewrite Hnil. }
  split.
  { intros Hnil i. rewrite (Hfb Hnil), scan_spec, Z.sub_0_r.
    split; intros (Hi & line & Hline & Hhit); (split; [exact Hi|]);
      exists line; (split; [exact Hline|]);
      now apply (fallback_hit_spec codeql_query line). }
  split.
  { intros Hnil Hnone. apply no_hits_no_regions.
    fold keywords lines hits. rewrite (Hfb Hnil). apply scan_none.
    intros line. apply not_true_iff_false. intros Hhit.
    apply (fallback_hit_spec codeql_query line) in Hhit
      as (k & Hk & Hq & _).
    fold cq_low in Hq. rewrite (Hnone k Hk) in Hq. discriminate. }
  intros ->. apply no_hits_no_regions. reflexivity.
Qed.

(** *** The knowledge base *)

Lemma kb_step_spec (q : string) (hits : list KbItem) (item : KbItem) :
  kb_step (Py.lower q) hits item
  = (hits ++ if kb_match q item then [item] else [])%list.
Proof.
  unfold kb_step, kb_match, id_in_query, token_in_text, Py.any.
  destruct (Py.contains (Py.lower q) (Py.lower (default "" (id item))));
    [reflexivity|]. simpl.
  destruct (existsb _ _); [reflexivity | now rewrite app_nil_r].
Qed.

Lemma kb_loop_spec (q : string) (kb hits : list KbItem) :
  fold_left (kb_step (Py.lower q)) kb hits
  = (hits ++ List.filter (kb_match q) kb)%list.
Proof.
  revert hits. induction kb as [|item kb IH]; intros hits; simpl.
  - now rewrite app_nil_r.
  - rewrite IH, kb_step_spec, <- app_assoc. f_equal.
    now destruct (kb_match q item).
Qed.

(** *** Tokens of the query *)

Lemma str_app_cons (x : ascii) (a b : string) :
  String x a +:+ b = String x (a +:+ b).
Proof. reflexivity. Qed.

Lemma str_app_nil (b : string) : "" +:+ b = b.
Proof. reflexivity. Qed.

Lemma str_app_assoc (a b c : string) : (a +:+ b) +:+ c = a +:+ b +:+ c.
Proof.
  induction a as [|x a IH]; [reflexivity|].
  now rewrite !str_app_cons, IH.
Qed.

Lemma str_of_list_app (l1 l2 : list ascii) :
  string_of_list_ascii (l1 ++ l2)
  = string_of_list_ascii l1 +:+ string_of_list_ascii l2.
Proof.
  induction l1 as [|x l1 IH]; [reflexivity|].
  simpl. now rewrite IH, str_app_cons.
Qed.

Lemma prefix_app (t b : string) : String.prefix t (t +:+ b) = true.
Proof.
  induction t as [|c t IH]; [now destruct b|].
  rewrite str_app_cons. simpl.
  destruct (ascii_dec c c); [exact IH | congruence].
Qed.

Lemma contains_unfold (hay t : string) :
  Py.contains hay t
  = String.prefix t hay
    || match hay with
       | EmptyString => false
       | String _ r => Py.contains r t
       end.
Proof. now destruct hay. Qed.

Lemma contains_prefix (hay t : string) :
  String.prefix t hay = true -> Py.contains hay t = true.
Proof. intros Hp. now rewrite contains_unfold, Hp. Qed.

Lemma contains_app (a t b : string) : Py.contains (a +:+ t +:+ b) t = true.
Proof.
  induction a as [|c a IH].
  - rewrite str_app_nil. apply contains_prefix, prefix_app.
  - rewrite str_app_cons, contains_unfold, IH. apply orb_true_r.
Qed.

Lemma all_tok_chars_of_list (l : list ascii) :
  all_tok_chars (string_of_list_ascii l) = forallb is_tok_char l.
Proof. induction l as [|c l IH]; simpl; [reflexivity | now rewrite IH]. Qed.

Lemma forallb_rev_tok (l : list ascii) :
  forallb is_tok_char (rev l) = forallb is_tok_char l.
Proof.
  induction l as [|c l IH]; simpl; [reflexivity|].
  rewrite forallb_app, IH. simpl. rewrite andb_true_r. apply andb_comm.
Qed.

Lemma flush_tokens (pre : string) (cur : list ascii) (s : string) :
  forallb is_tok_char cur = true ->
  Forall (is_token_of (pre +:+ string_of_list_ascii (rev cur) +:+ s))
         (flush cur).
Proof.
  intros Hcur. destruct cur as [|c cur]; [constructor|].
  unfold flush. constructor; [|constructor].
  repeat split.
  - simpl. rewrite str_of_list_app.
    now destruct (string_of_list_ascii (rev cur)).
  - now rewrite all_tok_chars_of_list, forallb_rev_tok.
  - apply contains_app.
Qed.

Lemma findall_go_tokens (s : string) (cur : list ascii) (pre : string) :
  forallb is_tok_char cur = true ->
  Forall (is_token_of (pre +:+ string_of_list_ascii (rev cur) +:+ s))
         (findall_go s cur).
Proof.
  revert cur pre. induction s as [|c s IH]; intros cur pre Hcur.
  - now apply flush_tokens.
  - cbn [findall_go]. destruct (is_tok_char c) eqn:Hc.
    + specialize (IH (c :: cur) pre). simpl in IH.
      rewrite Hc, Hcur, str_of_list_app, str_app_assoc in IH.
      now apply IH.
    + apply Forall_app. split; [now apply flush_tokens|].
      specialize (IH [] (pre +:+ string_of_list_ascii (rev cur) +:+ String c "")
                     eq_refl).
      simpl in IH. now rewrite !str_app_assoc in IH.
Qed.

Lemma findall_tokens (q : string) : Forall (is_token_of q) (findall q).
Proof. exact (findall_go_tokens q [] "" eq_refl). Qed.

Lemma flush_filter (cur : list ascii) :
  flush cur = List.filter Py.truthy [string_of_list_ascii (rev cur)].
Proof.
  destruct cur as [|c cur]; [reflexivity|].
  unfold flush. simpl. rewrite str_of_list_app.
  now destruct (string_of_list_ascii (rev cur)).
Qed.

(** The runs the pattern finds are the non-empty pieces between
    delimiters. *)
Lemma findall_go_split (s : string) (cur : list ascii) :
  findall_go s cur
  = List.filter Py.truthy (split_on (fun c => negb (is_tok_char c)) s cur).
Proof.
  revert cur. induction s as [|c s IH]; intros cur.
  - apply flush_filter.
  - cbn [findall_go split_on]. destruct (is_tok_char c); cbn [negb].
    + apply IH.
    + rewrite IH, flush_filter.
      change (string_of_list_ascii (rev cur)
              :: split_on (fun c0 => negb (is_tok_char c0)) s [])
        with ([string_of_list_ascii (rev cur)]
              ++ split_on (fun c0 => negb (is_tok_char c0)) s [])%list.
      now rewrite List.filter_app.
Qed.

(** The class of the pattern is the alphabet, character by character. *)
Lemma alphabet_class (c : ascii) : in_alphabet c = is_tok_char c.
Proof.
  destruct c as [b0 b1 b2 b3 b4 b5 b6 b7].
  destruct b0, b1, b2, b3, b4, b5, b6, b7; reflexivity.
Qed.

Lemma split_on_ext (d1 d2 : ascii -> bool) (s : string) (cur : list ascii) :
  (forall c, d1 c = d2 c) -> split_on d1 s cur = split_on d2 s cur.
Proof.
  intros Hd. revert cur. induction s as [|c s IH]; intros cur; simpl.
  - reflexivity.
  - rewrite (Hd c). destruct (d2 c); now rewrite ?IH.
Qed.

(** What [re.findall] gives for the pattern: the runs of the alphabet. *)
Lemma findall_run_tokens (q : string) : findall q = run_tokens q.
Proof.
  unfold findall, run_tokens. rewrite findall_go_split. f_equal.
  apply split_on_ext. intros c. now rewrite alphabet_class.
Qed.

(** The text the code searches is the text of the record. *)
Lemma item_text_record_text (item : KbItem) : item_text item = record_text item.
Proof. reflexivity. Qed.

Lemma kb_match_record_match (q : string) (item : KbItem) :
  kb_match q item = record_match q item.
Proof.
  unfold kb_match, id_in_query, token_in_text, record_match.
  now rewrite findall_run_tokens, item_text_record_text.
Qed.

(** C9, amended: the hits of [retrieve_vuln_kb] are the records of the
    knowledge base, in its order, whose identifier occurs in the query or
    that have a token of the query in their text, case set aside on both
    sides. The text is the concatenation, with a space between two fields
    and between two entries of a field, of the classifiers, patterns,
    detection hints, fixes and identifier of the record. The tokens are the
    maximal runs, in the lower-cased query, of the characters
    [a-z 0-9 - . _ /]: these four punctuation characters do not delimit a
    token, every other character does. *)
Theorem retrieve_vuln_kb_filter (self : FakeToolset)
    (rule_id_or_query : option string) :
  let q := default "" rule_id_or_query in
  let out := retrieve_vuln_kb self rule_id_or_query in
  hits out = List.filter (record_match q) (vuln_kb self) /\
  (forall item,
     In item (hits out) <->
     In item (vuln_kb self) /\
     (Py.contains (Py.lower q) (Py.lower (default "" (id item))) = true \/
      exists tok, In tok (run_tokens (Py.lower q)) /\
                  Py.contains (record_text item) tok = true)) /\
  Forall (fun tok =>
            tok <> "" /\
            forallb in_alphabet (list_ascii_of_string tok) = true /\
            Py.contains (Py.lower q) tok = true)
         (run_tokens (Py.lower q)) /\
  query out = rule_id_or_query.
Proof.
  intros q out.
  assert (hits out = List.filter (record_match q) (vuln_kb self)) as Hhits.
  { unfold out, retrieve_vuln_kb. simpl. fold q. rewrite kb_loop_spec.
    apply List.filter_ext. intros item. apply kb_match_record_match. }
  split; [exact Hhits|]. split.
  - intros item. rewrite Hhits, filter_In. unfold record_match.
    rewrite orb_true_iff, existsb_exists. reflexivity.
  - split; [|reflexivity].
    rewrite <- findall_run_tokens.
    eapply Forall_impl; [apply findall_tokens|].
    intros tok (Hne & Hclass & Hin). split; [exact Hne|].
    split; [|exact Hin]. clear Hne Hin.
    induction tok as [|c tok IH]; [reflexivity|]. simpl in *.
    apply andb_true_iff in Hclass as [Hc Htok].
    now rewrite alphabet_class, Hc, IH.
Qed.

(** *** The tools on concrete inputs *)

(** The scenario of the specification: one region, the three lines. *)
Example select_suspicious_eval :
  select_suspicious (toolset ["eval"] []) "a.py" file_eval None 1 3
  = mkSelectOut "select_suspicious" "a.py" 1 [mkSnippet 1 3 file_eval].
Proof. vm_compute. reflexivity. Qed.

(** Hits on the lines 5 and 7 with window 2: the one region 3 to 9. *)
Example select_suspicious_lines_5_7 :
  map region_bounds
      (snippets (select_suspicious (toolset ["eval"] []) "a.py" file_ten
                                   None 2 3))
  = [(3, 9)].
Proof. vm_compute. reflexivity. Qed.

(** No primary hit: the keywords [path] and [compile] of the query are
    looked for, [regex] is in the query and in no line, [file] is in no
    query. *)
Example select_suspicious_fallback_scan :
  hit_lines ["eval"] (Some "Regex built from a PATH, then Compiled")
            (Py.splitlines file_open) = [1; 4] /\
  hit_lines ["eval"] (Some "taint tracking") (Py.splitlines file_open) = [] /\
  hit_lines ["OPEN"] (Some "taint tracking") (Py.splitlines file_open) = [1].
Proof. repeat split. Qed.

(** Three regions at most, of two ranges. *)
Lemma select_suspicious_cap_witness :
  Py.len (snippets (select_suspicious (toolset ["eval"] []) "a.py" file_two
                                      None 1 3)) <= 3.
Proof.
  assert (0 <= 3) as Hmax by lia.
  exact (proj1 (select_suspicious_cap (toolset ["eval"] []) "a.py" file_two
                  None 1 3 Hmax)).
Defined.

(** C5 as stated fails for a negative [max_snippets]: of two ranges, one
    region is returned, more than [max_snippets]. *)
Lemma select_suspicious_minus_one :
  ranges_of (toolset ["eval"] []) file_two None 1 = [(0, 1); (3, 4)] /\
  snippets (select_suspicious (toolset ["eval"] []) "a.py" file_two None 1 (-1))
  = [mkSnippet 1 2 ("eval(a)" +:+ nl +:+ "b")] /\
  snippet_count
    (select_suspicious (toolset ["eval"] []) "a.py" file_two None 1 (-1)) = 1 /\
  1 > -1.
Proof. repeat split. Qed.

(** Two ranges and [max_snippets = -1]: the first range only. *)
Lemma select_suspicious_negative_cap_witness :
  snippet_count
    (select_suspicious (toolset ["eval"] []) "a.py" file_two None 1 (-1))
  = Z.max 0 (Py.len (ranges_of (toolset ["eval"] []) file_two None 1)
             - Z.abs (-1)).
Proof.
  assert (-1 < 0) as Hneg by lia.
  exact (proj1 (proj2 (select_suspicious_negative_cap (toolset ["eval"] [])
                         "a.py" file_two None 1 (-1) Hneg))).
Defined.

(** The identifier in the query, a token in the text, and neither. *)
Example retrieve_vuln_kb_demo :
  hits (retrieve_vuln_kb (toolset [] kb_demo) (Some "see Rule-1, please"))
    = [mkItem (Some "RULE-1") (Some ["CWE-79"]) (Some ["innerHTML"]) None None] /\
  map id (hits (retrieve_vuln_kb (toolset [] kb_demo) (Some "CURSOR! cwe-2")))
    = [Some "py/sqli"; Some "py/path"] /\
  hits (retrieve_vuln_kb (toolset [] kb_demo) (Some "xss")) = [] /\
  findall "ab-c d_e/f.g!!h  i," = ["ab-c"; "d_e/f.g"; "h"; "i"].
Proof. repeat split. Qed.

(** C9 as stated fails both ways. In the query [cursor.] the full stop
    delimits the token [cursor] of the claim, which the text of the first
    record holds; the code reads the one token [cursor.] and has no hit.
    In the query [-] the claim has no token at all; the code reads the
    token [-] and every record whose text has a hyphen is a hit. *)
Lemma retrieve_vuln_kb_punctuation :
  claimed_tokens (Py.lower "cursor.") = ["cursor"] /\
  map id (List.filter (claimed_match "cursor.") kb_demo) = [Some "py/sqli"] /\
  findall (Py.lower "cursor.") = ["cursor."] /\
  hits (retrieve_vuln_kb (toolset [] kb_demo) (Some "cursor.")) = [] /\
  claimed_tokens (Py.lower "-") = [] /\
  List.filter (claimed_match "-") kb_demo = [] /\
  findall (Py.lower "-") = ["-"] /\
  map id (hits (retrieve_vuln_kb (toolset [] kb_demo) (Some "-")))
    = [Some "py/sqli"; Some "RULE-1"; Some "py/path"].
Proof. repeat split. Qed.

End SelectorProps.

(** ** More properties of the locator and of the report *)

Module LocatorMore.
Import SarifUtils SarifReport LocatorSpec Inputs LocatorProps BatchProps.

Section Results.

Context `{P : Platform}.

Lemma file_uri_none (u : string) :
  Py.startswith u "file://" = true ->
  (_file_from_file_uri u = None <-> exists e, urlparse u = Raise e).
Proof.
  intros Hpre. destruct (urlparse u) as [parsed|e] eqn:Hparse.
  - rewrite (file_uri_decoded u parsed Hpre Hparse).
    split; [discriminate | intros [e He]; discriminate].
  - rewrite (file_uri_raises u e Hparse). split; [eauto | reflexivity].
Qed.

(** A [file://] URI that tier 1 returns for is a regular file. *)
Lemma tier1_isfile (u : string) (cfg : Cfg) (p : string) :
  tier1 u cfg = Some p -> os_path_isfile p = true.
Proof.
  unfold tier1. destruct (Py.startswith u "file://"); [|discriminate].
  destruct (prefer_absolute cfg); [|discriminate].
  destruct (_file_from_file_uri u) as [q|]; [|discriminate].
  destruct (Py.truthy q); simpl; [|discriminate].
  destruct (os_path_isfile q) eqn:Hq; [|discriminate].
  intros Heq. inversion Heq; subst. exact Hq.
Qed.

Lemma tier1_raises (u : string) (cfg : Cfg) (e : PyExc) :
  urlparse u = Raise e -> tier1 u cfg = None.
Proof.
  intros He. unfold tier1. rewrite (file_uri_raises u e He).
  destruct (Py.startswith u "file://"); [|reflexivity].
  now destruct (prefer_absolute cfg).
Qed.

(** X1: the locator gives no result exactly when the URI is missing or
    empty, or when it starts with [file://], cannot be parsed, and neither
    the tier-2 nor the tier-3 join is a regular file. A non-empty URI
    that does not start with [file://] always gets a path. *)
Theorem resolve_no_result_iff (artifact : Artifact) (cfg : Cfg) :
  (resolve_artifact_location artifact cfg = None <->
   Py.otruthy (uri artifact) = false \/
   exists u,
     uri artifact = Some u /\ Py.startswith u "file://" = true /\
     (exists e, urlparse u = Raise e) /\
     os_path_isfile (_resolve_with_base u (uriBaseId artifact) cfg) = false /\
     os_path_isfile (root_joined cfg u) = false) /\
  (forall u,
     uri artifact = Some u -> Py.truthy u = true ->
     Py.startswith u "file://" = false ->
     is_Some (resolve_artifact_location artifact cfg)).
Proof.
  split.
  - unfold resolve_artifact_location, Py.otruthy.
    destruct (uri artifact) as [u|]; [|split; [now left | reflexivity]].
    destruct (Py.truthy u) eqn:Hu; simpl; [|split; [now left | reflexivity]].
    destruct (tier1 u cfg) as [p|] eqn:Ht1.
    { split; [discriminate|].
      intros [Hf | (u' & Hu' & _ & [e He] & _)]; [discriminate|].
      inversion Hu'; subst u'.
      rewrite (tier1_raises u cfg e He) in Ht1. discriminate. }
    fold (root_of cfg). fold (root_joined cfg u).
    destruct (os_path_isfile (_resolve_with_base u (uriBaseId artifact) cfg))
      eqn:Habs.
    { split; [discriminate|].
      intros [Hf | (u' & Hu' & _ & _ & Habs' & _)]; [discriminate|].
      inversion Hu'; subst u'. congruence. }
    destruct (os_path_isfile (root_joined cfg u)) eqn:Hroot.
    { split; [discriminate|].
      intros [Hf | (u' & Hu' & _ & _ & _ & Hroot')]; [discriminate|].
      inversion Hu'; subst u'. congruence. }
    destruct (Py.startswith u "file://") eqn:Hpre.
    + rewrite (file_uri_none u Hpre). split.
      * intros He. right. exists u. now repeat split.
      * intros [Hf | (u' & Hu' & _ & He & _)]; [discriminate|].
        inversion Hu'; subst u'. exact He.
    + split; [discriminate|].
      intros [Hf | (u' & Hu' & Hpre' & _)]; [discriminate|].
      inversion Hu'; subst u'. congruence.
  - intros u Hu Htr Hrel. unfold resolve_artifact_location.
    rewrite Hu, Htr, (tier1_relative u cfg Hrel). simpl.
    repeat (destruct (os_path_isfile _); [eexists; reflexivity|]).
    rewrite Hrel. eexists. reflexivity.
Qed.

(** X2: when any candidate is a regular file (the tier-2 join, the tier-3
    join, or the decoded path of a [file://] URI), the path returned is a
    regular file: the locator falls back on an unchecked guess only when
    nothing it tries exists. *)
Theorem resolve_existing_when_any (artifact : Artifact) (cfg : Cfg)
    (u : string) :
  uri artifact = Some u ->
  Py.truthy u = true ->
  (os_path_isfile (_resolve_with_base u (uriBaseId artifact) cfg) = true \/
   os_path_isfile (root_joined cfg u) = true \/
   (Py.startswith u "file://" = true /\
    exists p, _file_from_file_uri u = Some p /\ os_path_isfile p = true)) ->
  exists p,
    resolve_artifact_location artifact cfg = Some p /\
    os_path_isfile p = true.
Proof.
  intros Huri Hu Hany. unfold resolve_artifact_location.
  rewrite Huri, Hu. simpl.
  destruct (tier1 u cfg) as [p|] eqn:Ht1.
  { exists p. split; [reflexivity | exact (tier1_isfile u cfg p Ht1)]. }
  fold (root_of cfg). fold (root_joined cfg u).
  destruct (os_path_isfile (_resolve_with_base u (uriBaseId artifact) cfg))
    eqn:Habs; [eexists; split; [reflexivity | exact Habs]|].
  destruct (os_path_isfile (root_joined cfg u)) eqn:Hroot;
    [eexists; split; [reflexivity | exact Hroot]|].
  destruct Hany as [Ha | [Hr | (Hpre & p & Hp & Hfile)]]; try discriminate.
  rewrite Hpre. exists p. now split.
Qed.

Lemma replace_char_idem (a b : ascii) (s : string) :
  a <> b ->
  Py.replace_char a b (Py.replace_char a b s) = Py.replace_char a b s.
Proof.
  intros Hab. induction s as [|c s IH]; [reflexivity|]. simpl. rewrite IH.
  f_equal. destruct (Ascii.eqb_spec c a) as [->|Hc].
  - destruct (Ascii.eqb_spec b a); [congruence | reflexivity].
  - destruct (Ascii.eqb_spec c a); [congruence | reflexivity].
Qed.

(** X3: tier 2 reads backslashes in the URI as slashes, so the two
    spellings of a URI get the same path; and without a usable token (none,
    an empty one, or one the mapping lacks) the base is the project root. *)
Theorem resolve_with_base_rules (u : string) (tok : option string)
    (cfg : Cfg) :
  _resolve_with_base (Py.replace_char Py.backslash "/" u) tok cfg
  = _resolve_with_base u tok cfg /\
  (match tok with
   | Some t => Py.truthy t = false \/ base_map_of cfg !! t = None
   | None => True
   end ->
   _resolve_with_base u tok cfg = joined (root_of cfg) u) /\
  (uriBaseId_map (cfg_app cfg) = None ->
   _resolve_with_base u tok cfg = joined (root_of cfg) u).
Proof.
  split; [|split].
  - unfold _resolve_with_base. rewrite replace_char_idem; [reflexivity|].
    discriminate.
  - apply resolve_with_base_root.
  - intros Hmap. apply resolve_with_base_root.
    destruct tok as [t|]; [right | exact I].
    unfold base_map_of. now rewrite Hmap.
Qed.

(** X4: for a non-empty URI that does not start with [file://], when
    neither join is a regular file the result is the tier-2 path,
    unchecked: the join with the mapped directory of a usable token, the
    join with the project root otherwise. *)
Theorem resolve_relative_best_guess (artifact : Artifact) (cfg : Cfg)
    (u : string) :
  uri artifact = Some u ->
  Py.truthy u = true ->
  Py.startswith u "file://" = false ->
  os_path_isfile (_resolve_with_base u (uriBaseId artifact) cfg) = false ->
  os_path_isfile (root_joined cfg u) = false ->
  resolve_artifact_location artifact cfg
  = Some (_resolve_with_base u (uriBaseId artifact) cfg) /\
  (forall t d,
     uriBaseId artifact = Some t -> Py.truthy t = true ->
     base_map_of cfg !! t = Some d ->
     resolve_artifact_location artifact cfg = Some (joined d u)) /\
  (uriBaseId artifact = None ->
   resolve_artifact_location artifact cfg = Some (joined (root_of cfg) u)).
Proof.
  intros Huri Hu Hrel Habs Hroot.
  assert (resolve_artifact_location artifact cfg
          = Some (_resolve_with_base u (uriBaseId artifact) cfg)) as Hres.
  { unfold resolve_artifact_location.
    rewrite Huri, Hu, (tier1_relative u cfg Hrel). simpl.
    rewrite Habs. unfold root_joined, root_of in Hroot.
    now rewrite Hroot, Hrel. }
  split; [exact Hres|]. split.
  - intros t d Htok Ht Hd. rewrite Hres, Htok.
    now rewrite (resolve_with_base_mapped u t d cfg Ht Hd).
  - intros Htok. rewrite Hres, Htok.
    now rewrite (resolve_with_base_root u None cfg I).
Qed.

Lemma first_seen_length (l : list string) :
  (length (first_seen l) <= length l)%nat.
Proof.
  induction l as [|x l IH]; [reflexivity|]. simpl.
  pose proof (List.filter_length_le
                (fun y => negb (String.eqb y x)) (first_seen l)).
  lia.
Qed.

Lemma location_path_truthy (cfg : Cfg) (loc : option Location) (p : string) :
  location_path cfg loc = Some p -> Py.truthy p = true.
Proof.
  unfold location_path.
  destruct loc as [[[| |[[art|]]]]|]; simpl; try discriminate.
  destruct (resolve_artifact_location art cfg) as [q|]; [|discriminate].
  destruct (Py.truthy q) eqn:Hq; [|discriminate].
  intros Heq. now inversion Heq; subst.
Qed.

Lemma omap_length_le {A B} (f : A -> option B) (l : list A) :
  (length (omap f l) <= length l)%nat.
Proof.
  induction l as [|a l IH]; [reflexivity|]. cbn.
  destruct (f a); cbn; lia.
Qed.

(** X5: every path [extract_result_files] returns is non-empty, there are
    at most as many as the result has locations, and a result whose
    [locations] are missing, null or empty gives the empty list. *)
Theorem extract_result_files_bounds (res : ScanResult) (cfg : Cfg) :
  (forall files,
     extract_result_files res cfg = Ret files ->
     Forall (fun p => p <> "") files /\
     (length files <= length (default [] (locations res)))%nat) /\
  (default [] (locations res) = [] -> extract_result_files res cfg = Ret []).
Proof.
  rewrite extract_result_files_spec. split.
  - destruct (existsb null_physical (default [] (locations res)));
      [discriminate|].
    intros files Hout. inversion Hout; subst files. clear Hout. split.
    + apply Forall_forall. intros p Hp.
      apply (proj1 (list_elem_of_In _ _)) in Hp.
      apply (proj1 (first_seen_In _ _)) in Hp.
      apply (proj2 (list_elem_of_In _ _)) in Hp.
      unfold resolved_paths in Hp.
      apply (proj1 (list_elem_of_omap _ _ _)) in Hp.
      destruct Hp as (loc & _ & Hloc).
      apply location_path_truthy in Hloc. now destruct p.
    + etransitivity; [apply first_seen_length|].
      unfold resolved_paths. apply omap_length_le.
  - intros Hnil. unfold resolved_paths. now rewrite Hnil.
Qed.

(** X6: [safe_read_text] hands on a text that fits in [max_chars] as it
    is; for [max_chars > 0] it returns the empty string only when the read
    raises or the file is empty; for [max_chars = 0] it returns the empty
    string for every file. *)
Theorem safe_read_text_empty_iff (path encoding : string) (max_chars : Z) :
  0 < max_chars ->
  (safe_read_text path encoding max_chars = Ret "" <->
   (exists e, read_text path encoding "ignore" = Raise e) \/
   read_text path encoding "ignore" = Ret "") /\
  (forall content,
     read_text path encoding "ignore" = Ret content ->
     Py.slen content <= max_chars ->
     safe_read_text path encoding max_chars = Ret content) /\
  safe_read_text path encoding 0 = Ret "".
Proof.
  intros Hmax. unfold safe_read_text.
  destruct (read_text path encoding "ignore") as [content|e]; simpl.
  - split; [|split].
    + destruct (Py.slen content >? max_chars) eqn:Hlen.
      * apply Z.gtb_lt in Hlen. split.
        -- intros Heq. inversion Heq as [Hs]. exfalso.
           assert (Py.slen (Py.sslice_to content max_chars) = max_chars) as Hl.
           { unfold Py.sslice_to, Py.bound.
             rewrite (proj2 (Z.ltb_ge max_chars 0)) by lia.
             rewrite Z.min_l by lia. unfold Py.slen in *.
             rewrite length_substring_0 by lia. lia. }
           rewrite Hs in Hl. unfold Py.slen in Hl. simpl in Hl. lia.
        -- intros [[e He] | Heq]; [discriminate|].
           inversion Heq; subst. unfold Py.slen in Hlen. simpl in Hlen. lia.
      * split; [intros Heq; right; exact Heq|].
        intros [[e He] | Heq]; [discriminate | exact Heq].
    + intros c Hc Hfit. inversion Hc; subst c.
      destruct (Z.gtb_spec (Py.slen content) max_chars); [lia | reflexivity].
    + destruct (Py.slen content >? 0) eqn:Hlen; [|].
      * unfold Py.sslice_to, Py.bound. simpl.
        rewrite Z.min_l by (unfold Py.slen; lia). simpl.
        now destruct content.
      * destruct content; [reflexivity|].
        unfold Py.slen in Hlen. simpl in Hlen.
        destruct (Z.gtb_spec (Z.pos (Pos.of_succ_nat (String.length content))) 0);
          [discriminate | lia].
  - split; [|split]; [|discriminate | reflexivity].
    split; [intros _; left; eauto | reflexivity].
Qed.

End Results.

(** A relative URI whose tier-2 join exists. *)
Lemma resolve_existing_when_any_witness :
  exists p,
    resolve_artifact_location (P := posix fs_src) art_rel cfg_mapped = Some p /\
    os_path_isfile (Platform := posix fs_src) p = true.
Proof.
  exact (resolve_existing_when_any (P := posix fs_src) art_rel cfg_mapped
           "a.py" eq_refl eq_refl (or_introl eq_refl)).
Defined.

(** A relative URI that no tier finds, with a mapped token. *)
Lemma resolve_relative_best_guess_witness :
  resolve_artifact_location (P := posix fs_src)
    (mkArtifact (Some "lib/b.py") (Some "%SRCROOT%") None) cfg_mapped
  = Some "/src/lib/b.py".
Proof.
  exact (proj1 (resolve_relative_best_guess (P := posix fs_src)
                  (mkArtifact (Some "lib/b.py") (Some "%SRCROOT%") None)
                  cfg_mapped "lib/b.py"
                  eq_refl eq_refl eq_refl eq_refl eq_refl)).
Defined.

(** A file of three characters and a bound of three. *)
Lemma safe_read_text_empty_iff_witness :
  safe_read_text (P := posix fs_abc) "/f" "utf-8" 3 = Ret "abc".
Proof.
  assert (0 < 3) as Hmax by lia.
  assert (Py.slen "abc" <= 3) as Hfit by (vm_compute; discriminate).
  exact (proj1 (proj2 (safe_read_text_empty_iff (P := posix fs_abc)
                         "/f" "utf-8" 3 Hmax)) "abc" eq_refl Hfit).
Defined.

(** X7: [iter_results] yields the results of all runs, run after run, in
    the order of the report; missing, null or empty [runs] and [results]
    yield nothing. *)
Theorem iter_results_flatten {R : Type} (sarif : Sarif R) :
  iter_results sarif
  = List.concat (map (fun run => default [] (results run))
                     (default [] (runs sarif))) /\
  (forall r, In r (iter_results sarif) <->
     exists run, In run (default [] (runs sarif)) /\
                 In r (default [] (results run))) /\
  (default [] (runs sarif) = [] -> iter_results sarif = []).
Proof.
  assert (forall (l : list R) acc,
            fold_left (fun yielded r => (yielded ++ [r])%list) l acc
            = (acc ++ l)%list) as Hinner.
  { induction l as [|r l IH]; intros acc; simpl.
    - now rewrite app_nil_r.
    - rewrite IH, <- app_assoc. reflexivity. }
  assert (forall (rs : list (Run R)) acc,
            fold_left
              (fun yielded run =>
                 fold_left (fun yielded r => (yielded ++ [r])%list)
                           (default [] (results run)) yielded) rs acc
            = (acc ++ List.concat (map (fun run => default [] (results run)) rs))%list)
    as Houter.
  { induction rs as [|run rs IH]; intros acc; simpl.
    - now rewrite app_nil_r.
    - rewrite IH, Hinner, <- app_assoc. reflexivity. }
  assert (iter_results sarif
          = List.concat (map (fun run => default [] (results run))
                             (default [] (runs sarif)))) as Heq.
  { unfold iter_results. now rewrite Houter. }
  split; [exact Heq|]. split.
  - intros r. rewrite Heq, in_concat. split.
    + intros (l & Hl & Hr). apply in_map_iff in Hl as (run & <- & Hrun).
      now exists run.
    + intros (run & Hrun & Hr). exists (default [] (results run)).
      split; [|exact Hr]. apply in_map_iff. now exists run.
  - intros Hnil. now rewrite Heq, Hnil.
Qed.

End LocatorMore.

(** ** More properties of the tools *)

Module SelectorMore.
Import Tools SelectorSpec ToolInputs SelectorProps.

Lemma lower_empty (s : string) : Py.lower s = "" <-> s = "".
Proof. destruct s; simpl; split; congruence. Qed.

Lemma contains_empty_hay (t : string) :
  Py.contains "" t = true <-> t = "".
Proof. destruct t; simpl; split; congruence. Qed.

Lemma contains_empty_needle (hay : string) : Py.contains hay "" = true.
Proof. destruct hay; reflexivity. Qed.

(** X8: a record with no identifier, or an empty one, is a hit of every
    query; and for a missing or empty query the hits are exactly those
    records. *)
Theorem retrieve_vuln_kb_no_id (self : FakeToolset) :
  (forall q item,
     In item (vuln_kb self) -> default "" (id item) = "" ->
     In item (hits (retrieve_vuln_kb self q))) /\
  (forall q,
     default "" q = "" ->
     hits (retrieve_vuln_kb self q)
     = List.filter (fun item => String.eqb (default "" (id item)) "")
                   (vuln_kb self)).
Proof.
  assert (forall q, hits (retrieve_vuln_kb self q)
                    = List.filter (kb_match (default "" q)) (vuln_kb self))
    as Hhits.
  { intros q. unfold retrieve_vuln_kb. simpl. now rewrite kb_loop_spec. }
  split.
  - intros q item Hin Hid. rewrite Hhits. apply filter_In. split; [exact Hin|].
    unfold kb_match, id_in_query. rewrite Hid. simpl.
    now rewrite contains_empty_needle.
  - intros q Hq. rewrite Hhits, Hq. apply List.filter_ext. intros item.
    unfold kb_match, id_in_query, token_in_text.
    change (Py.lower "") with "". change (findall "") with (@nil string).
    cbn [existsb]. rewrite orb_false_r.
    destruct (String.eqb_spec (default "" (id item)) "") as [-> | Hne].
    + reflexivity.
    + apply not_true_iff_false. rewrite contains_empty_hay, lower_empty.
      exact Hne.
Qed.

(** *** Regions *)

Lemma StronglySorted_take {A} (R : A -> A -> Prop) (l : list A) (k : nat) :
  StronglySorted R l -> StronglySorted R (take k l).
Proof.
  intros Hs. revert k. induction Hs as [|x l Hs IH Hall]; intros [|k]; simpl;
    try constructor.
  - apply IH.
  - now apply Forall_take.
Qed.

Lemma StronglySorted_map {A B} (R : A -> A -> Prop) (Q : B -> B -> Prop)
    (f : A -> B) (l : list A) :
  (forall a b, R a b -> Q (f a) (f b)) ->
  StronglySorted R l -> StronglySorted Q (map f l).
Proof.
  intros HRQ. induction 1 as [|x l Hs IH Hall]; simpl; constructor.
  - exact IH.
  - apply Forall_map. eapply Forall_impl; [exact Hall|].
    intros y. apply HRQ.
Qed.

Lemma slice_to_take {A} (l : list A) (m : Z) :
  exists k, Py.slice_to l m = take k l.
Proof. unfold Py.slice_to. eauto. Qed.

(** X9: whatever [max_snippets], every region returned lies in the file
    ([1 <= start_line <= end_line <= number of lines]), and the regions are
    in ascending order with at least one line between two of them. *)
Theorem select_suspicious_regions_in_file (self : FakeToolset)
    (file_path file_content : string) (codeql_query : option string)
    (context_window max_snippets : Z) :
  let out := select_suspicious self file_path file_content codeql_query
                               context_window max_snippets in
  let n := Py.len (Py.splitlines file_content) in
  Forall (fun r => 1 <= start_line r /\ start_line r <= end_line r
                   /\ end_line r <= n) (snippets out) /\
  StronglySorted (fun a b => end_line a + 1 < start_line b) (snippets out).
Proof.
  intros out n.
  destruct (ranges_of_facts self file_content codeql_query context_window)
    as [Hfile Hgap].
  unfold out. rewrite snippets_slice.
  destruct (slice_to_take
              (ranges_of self file_content codeql_query context_window)
              max_snippets) as [k ->].
  split.
  - apply Forall_map. eapply Forall_impl; [apply Forall_take, Hfile|].
    intros [s e] Hr. unfold in_file in Hr. simpl in *. fold n in Hr. lia.
  - eapply StronglySorted_map; [|apply StronglySorted_take, Hgap].
    intros [s1 e1] [s2 e2]. unfold gap. simpl. lia.
Qed.

Lemma make_snippet_bounds (lines : list string) (r : Z * Z) :
  start_line (make_snippet lines r) = fst r + 1 /\
  end_line (make_snippet lines r) = snd r + 1.
Proof. now destruct r. Qed.

(** The hits of [select_suspicious] and their windows. *)
Lemma hits_windows (self : FakeToolset) (file_content : string)
    (codeql_query : option string) (context_window : Z) :
  let lines := Py.splitlines file_content in
  let hits := hit_lines (default [] (suspicious_keywords (selector_rules self)))
                        codeql_query lines in
  let w := coerce_window context_window in
  StronglySorted Z.le hits /\
  Forall (fun h => 0 <= h < Py.len lines) hits /\
  0 < w /\
  ranges_of self file_content codeql_query context_window
  = merge_ranges (Py.len lines) w hits.
Proof.
  intros lines hits w.
  destruct (hit_lines_sorted
              (default [] (suspicious_keywords (selector_rules self)))
              codeql_query lines) as [Hs Hb].
  repeat split; try assumption. apply coerce_window_pos.
Qed.

(** X10: when the merged ranges are not cut ([max_snippets] is at least
    their number), every hit line lies in a returned region; so does every
    line that contains a configured keyword. *)
Theorem select_suspicious_covers_hits (self : FakeToolset)
    (file_path file_content : string) (codeql_query : option string)
    (context_window max_snippets : Z) :
  Py.len (ranges_of self file_content codeql_query context_window)
  <= max_snippets ->
  let out := select_suspicious self file_path file_content codeql_query
                               context_window max_snippets in
  let keywords := default [] (suspicious_keywords (selector_rules self)) in
  let lines := Py.splitlines file_content in
  (forall h, In h (hit_lines keywords codeql_query lines) ->
     Exists (fun r => start_line r <= h + 1 <= end_line r) (snippets out)) /\
  (forall i line,
     0 <= i -> lines !! Z.to_nat i = Some line ->
     primary_hit keywords line = true ->
     Exists (fun r => start_line r <= i + 1 <= end_line r) (snippets out)).
Proof.
  intros Hcap out keywords lines.
  destruct (hits_windows self file_content codeql_query context_window)
    as (Hs & Hb & Hw & Hranges).
  fold keywords lines in Hs, Hb, Hranges.
  assert (snippets out
          = map (make_snippet lines)
                (ranges_of self file_content codeql_query context_window))
    as Hsn.
  { unfold out. rewrite snippets_slice.
    rewrite slice_to_nonneg by (unfold Py.len in *; lia).
    rewrite take_ge; [reflexivity|]. unfold Py.len in Hcap. lia. }
  assert (forall h, In h (hit_lines keywords codeql_query lines) ->
            Exists (fun r => start_line r <= h + 1 <= end_line r)
                   (snippets out)) as Hall.
  { intros h Hh. rewrite Hsn, Hranges.
    destruct (merge_ranges_facts (Py.len lines) (coerce_window context_window)
                _ ltac:(lia) Hs Hb) as (_ & _ & Hcov).
    rewrite Forall_forall in Hcov. rewrite Forall_forall in Hb.
    apply list_elem_of_In in Hh.
    specialize (Hcov h Hh). specialize (Hb h Hh).
    apply Exists_exists in Hcov as (r & Hr & Hc).
    apply Exists_exists. exists (make_snippet lines r).
    split; [apply list_elem_of_fmap; now exists r|].
    destruct (make_snippet_bounds lines r) as [-> ->].
    unfold covers, window in Hc. simpl in Hc. lia. }
  split; [exact Hall|].
  intros i line Hi Hline Hhit. apply Hall.
  assert (In i (scan (primary_hit keywords) 0 lines)) as Hin.
  { apply scan_spec. split; [exact Hi|]. exists line.
    now rewrite Z.sub_0_r. }
  unfold hit_lines.
  destruct (scan (primary_hit keywords) 0 lines); [destruct Hin | exact Hin].
Qed.

(** Every range of the merge covers one of the windows it was given. *)
Lemma coalesce_has_window (cur : Z * Z) (windows : list (Z * Z)) :
  Forall (fun r => Exists (fun w => covers w r) (cur :: windows))
         (coalesce cur windows).
Proof.
  revert cur. induction windows as [|[s e] ws IH]; intros cur.
  - repeat constructor; unfold covers; lia.
  - cbn [coalesce]. destruct (s <=? snd cur + 1).
    + eapply Forall_impl; [apply IH|].
      intros r Hr. inversion Hr as [? ? Hc | ? ? Hc]; subst.
      * left. unfold covers in *. simpl in *. lia.
      * now right; right.
    + constructor; [left; unfold covers; lia|].
      eapply Forall_impl; [apply IH|].
      intros r Hr. now right.
Qed.

Lemma coalesce_length (cur : Z * Z) (windows : list (Z * Z)) :
  (length (coalesce cur windows) <= S (length windows))%nat.
Proof.
  revert cur. induction windows as [|[s e] ws IH]; intros cur; [reflexivity|].
  cbn [coalesce]. destruct (s <=? snd cur + 1).
  - specialize (IH (fst cur, Z.max (snd cur) e)). simpl. lia.
  - specialize (IH (s, e)). simpl. lia.
Qed.

(** X11: every region returned holds at least one hit line, and there are
    no more regions than hit lines. *)
Theorem select_suspicious_regions_have_hits (self : FakeToolset)
    (file_path file_content : string) (codeql_query : option string)
    (context_window max_snippets : Z) :
  let out := select_suspicious self file_path file_content codeql_query
                               context_window max_snippets in
  let hits := hit_lines (default [] (suspicious_keywords (selector_rules self)))
                        codeql_query (Py.splitlines file_content) in
  Forall (fun r => exists h, In h hits /\ start_line r <= h + 1 <= end_line r)
         (snippets out) /\
  snippet_count out <= Py.len hits.
Proof.
  intros out hits.
  destruct (hits_windows self file_content codeql_query context_window)
    as (Hs & Hb & Hw & Hranges).
  fold hits in Hs, Hb, Hranges.
  set (lines := Py.splitlines file_content) in *.
  set (w := coerce_window context_window) in *.
  assert (Forall (fun r => exists h, In h hits /\ fst r <= h <= snd r)
                 (merge_ranges (Py.len lines) w hits)
          /\ (length (merge_ranges (Py.len lines) w hits) <= length hits)%nat)
    as [Hhas Hlen].
  { rewrite merge_ranges_coalesce. destruct hits as [|h0 hits0]; simpl.
    - split; [constructor | lia].
    - split.
      + eapply Forall_impl; [apply coalesce_has_window|].
        intros r Hr. apply Exists_exists in Hr as (wd & Hwd & Hc).
        change (window (Py.len lines) w h0 :: map (window (Py.len lines) w) hits0)
          with (map (window (Py.len lines) w) (h0 :: hits0)) in Hwd.
        apply list_elem_of_fmap in Hwd as (h & -> & Hh).
        exists h. split; [exact (proj1 (list_elem_of_In _ _) Hh)|].
        rewrite Forall_forall in Hb. specialize (Hb h Hh).
        unfold covers, window in Hc. simpl in Hc. lia.
      + pose proof (coalesce_length (window (Py.len lines) w h0)
                      (map (window (Py.len lines) w) hits0)) as Hl.
        rewrite length_map in Hl. lia. }
  unfold out. rewrite snippet_count_len, snippets_slice, Hranges.
  destruct (slice_to_take (merge_ranges (Py.len lines) w hits) max_snippets)
    as [k ->].
  split.
  - apply Forall_map. eapply Forall_impl; [apply Forall_take, Hhas|].
    intros [s e] (h & Hh & Hr). unfold compose. exists h.
    split; [exact Hh|]. simpl in *. lia.
  - unfold Py.len in *. rewrite length_map, length_take. lia.
Qed.

(** Windows of consecutive hit lines are merged into the current range
    one after the other. *)
Lemma coalesce_run (n w : Z) (hit : string -> bool) (lines : list string) :
  1 <= w ->
  (forall line, In line lines -> hit line = true) ->
  forall idx cur,
    0 <= idx -> idx + Py.len lines <= n ->
    idx - w <= snd cur + 1 -> 0 <= snd cur + 1 ->
    exists e,
      coalesce cur (map (window n w) (scan hit idx lines)) = [(fst cur, e)].
Proof.
  intros Hw. induction lines as [|l lines IH]; intros Hall idx cur Hidx Hn Hreach Hcur.
  - exists (snd cur). now destruct cur.
  - cbn [scan]. rewrite (Hall l (or_introl eq_refl)).
    cbn [map coalesce window fst snd].
    unfold Py.len in Hn. simpl length in Hn.
    rewrite (proj2 (Z.leb_le (Z.max 0 (idx - w)) (snd cur + 1))) by lia.
    destruct (IH (fun line Hl => Hall line (or_intror Hl)) (idx + 1)
                 (fst cur, Z.max (snd cur) (Z.min (n - 1) (idx + w))))
      as [e He]; try (unfold Py.len; simpl; lia).
    exists e. exact He.
Qed.

(** X12: when the keyword list holds the empty string, every line is a
    hit; for a file of at least one line and [max_snippets >= 1] the one
    region returned is then the whole file. *)
Theorem select_suspicious_empty_keyword (self : FakeToolset)
    (file_path file_content : string) (codeql_query : option string)
    (context_window max_snippets : Z) :
  In "" (default [] (suspicious_keywords (selector_rules self))) ->
  Py.splitlines file_content <> [] ->
  1 <= max_snippets ->
  let lines := Py.splitlines file_content in
  snippets (select_suspicious self file_path file_content codeql_query
                              context_window max_snippets)
  = [mkSnippet 1 (Py.len lines) (Py.join (String Py.newline "") lines)].
Proof.
  intros Hkw Hne Hmax lines.
  set (keywords := default [] (suspicious_keywords (selector_rules self))) in *.
  assert (forall line, primary_hit keywords line = true) as Hhit.
  { intros line. apply primary_hit_spec. exists "". split; [exact Hkw|].
    apply contains_empty_needle. }
  destruct (hits_windows self file_content codeql_query context_window)
    as (Hs & Hb & Hw & Hranges).
  fold keywords lines in Hs, Hb, Hranges.
  set (w := coerce_window context_window) in *.
  set (n := Py.len lines) in *.
  fold lines in Hne.
  assert (hit_lines keywords codeql_query lines
          = scan (primary_hit keywords) 0 lines) as Hhits.
  { unfold hit_lines. destruct lines as [|l0 rest]; [contradiction|].
    simpl. now rewrite Hhit. }
  rewrite Hhits in *.
  assert (0 < n) as Hn.
  { unfold n, Py.len. destruct lines; [contradiction | simpl; lia]. }
  destruct (merge_ranges_facts n w _ ltac:(lia) Hs Hb) as (Hfile & _ & Hcov).
  assert (exists e, merge_ranges n w (scan (primary_hit keywords) 0 lines)
                    = [(0, e)]) as [e He].
  { rewrite merge_ranges_coalesce.
    destruct lines as [|l0 rest] eqn:Hl; [contradiction|].
    cbn [scan]. rewrite Hhit. cbn [map merge_windows].
    destruct (coalesce_run n w (primary_hit keywords) rest ltac:(lia)
                (fun line _ => Hhit line) (0 + 1) (window n w 0))
      as [e He]; try (unfold window; simpl; lia).
    - unfold n, Py.len. simpl. lia.
    - exists e. rewrite He. unfold window. simpl. f_equal. f_equal. lia. }
  assert (e = n - 1) as ->.
  { rewrite He in Hfile, Hcov.
    inversion Hfile as [|? ? Hin _]; subst. unfold in_file in Hin. simpl in Hin.
    assert (In (n - 1) (scan (primary_hit keywords) 0 lines)) as Hlast.
    { apply scan_spec. split; [lia|].
      destruct (lookup_lt_is_Some_2 lines (Z.to_nat (n - 1 - 0))) as [line Hline].
      { unfold n, Py.len in *. lia. }
      exists line. split; [exact Hline | apply Hhit]. }
    rewrite Forall_forall in Hcov.
    specialize (Hcov (n - 1) (proj2 (list_elem_of_In _ _) Hlast)).
    apply Exists_exists in Hcov as (r & Hr & Hc).
    apply list_elem_of_singleton in Hr. subst r.
    unfold covers, window in Hc. simpl in Hc. lia. }
  rewrite snippets_slice, Hranges, He.
  rewrite slice_to_nonneg by lia.
  replace (Z.to_nat max_snippets) with (S (Z.to_nat (max_snippets - 1))) by lia.
  cbn [take map make_snippet]. fold lines.
  rewrite take_nil. cbn [map]. f_equal. f_equal; [lia|].
  f_equal. unfold Py.slice, Py.bound. fold n.
  replace (n - 1 + 1) with n by lia. simpl.
  rewrite (proj2 (Z.ltb_ge n 0)) by lia.
  rewrite Z.min_id, (Z.min_l 0 n), Z.sub_0_r by lia.
  simpl. apply take_ge. unfold n, Py.len. lia.
Qed.

(** Two ranges, not cut: the hit on line 5 lies in a region. *)
Lemma select_suspicious_covers_hits_witness :
  Exists (fun r => start_line r <= 4 + 1 <= end_line r)
         (snippets (select_suspicious (toolset ["eval"] []) "a.py" file_two
                                      None 1 3)).
Proof.
  assert (Py.len (ranges_of (toolset ["eval"] []) file_two None 1) <= 3)
    as Hlen by (vm_compute; discriminate).
  apply (proj1 (select_suspicious_covers_hits (toolset ["eval"] []) "a.py"
                  file_two None 1 3 Hlen) 4).
  vm_compute. right. left. reflexivity.
Defined.

(** The empty keyword: the file of five lines in one region. *)
Lemma select_suspicious_empty_keyword_witness :
  snippets (select_suspicious (toolset [""] []) "a.py" file_two None 1 1)
  = [mkSnippet 1 5 file_two].
Proof.
  assert (Py.splitlines file_two <> []) as Hlines
    by (vm_compute; discriminate).
  assert (1 <= 1) as Hmax by lia.
  exact (select_suspicious_empty_keyword (toolset [""] []) "a.py" file_two
           None 1 1 (or_introl eq_refl) Hlines Hmax).
Defined.

End SelectorMore.

(** ** Properties of the calculator, of the dispatcher and of Agent A *)

Module ToolBoxProps.
Import Tools ToolBox SelectorSpec ToolInputs SelectorProps BatchProps.

Lemma all_calc_chars_false (e : string) :
  all_calc_chars e = false <->
  exists c, In c (list_ascii_of_string e) /\ is_calc_char c = false.
Proof.
  induction e as [|a e IH]; simpl.
  - split; [discriminate | intros (c & [] & _)].
  - rewrite andb_false_iff, IH. split.
    + intros [Ha | (c & Hc & Hbad)]; [exists a | exists c]; auto.
    + intros (c & [<- | Hc] & Hbad); [now left | right; now exists c].
Qed.

(** No letter and no underscore is of the class. *)
Lemma calc_char_no_name (c : ascii) :
  is_calc_char c = true -> Posix.is_alpha c = false /\ c <> "_"%char.
Proof.
  destruct c as [b0 b1 b2 b3 b4 b5 b6 b7].
  destruct b0, b1, b2, b3, b4, b5, b6, b7; vm_compute;
    intros H; (discriminate H || (split; [reflexivity | discriminate])).
Qed.

(** X13: an expression that is empty or has a character other than a
    digit, [+ - * / . ( )] or white space is refused with the error
    [Invalid characters.] before anything is evaluated: the output is the
    same for every evaluator, also one that would not come back. In
    particular no expression with a letter or an underscore is evaluated. *)
Theorem run_calculator_gate `{E : Evaluator} (self : FakeToolset)
    (expression : string) :
  (expression = "" \/
   exists c, In c (list_ascii_of_string expression) /\
             (is_calc_char c = false \/ Posix.is_alpha c = true
              \/ c = "_"%char)) ->
  run_calculator self expression
  = Some (CalcError "run_calculator" expression "Invalid characters.").
Proof.
  intros Hbad. unfold run_calculator.
  assert (fullmatch expression = false) as ->; [|reflexivity].
  unfold fullmatch. destruct Hbad as [-> | (c & Hc & Hbad)]; [reflexivity|].
  apply andb_false_iff. right. apply all_calc_chars_false. exists c.
  split; [exact Hc|].
  destruct (is_calc_char c) eqn:Hcc; [|reflexivity].
  destruct (calc_char_no_name c Hcc) as [Ha Hu].
  destruct Hbad as [Hf | [Hal | Hun]]; congruence.
Qed.


(** An expression with names is refused, whatever would evaluate it. *)
Lemma run_calculator_gate_witness :
  run_calculator (E := eval_demo) (toolset [] []) "__import__('os')"
  = Some (CalcError "run_calculator" "__import__('os')" "Invalid characters.").
Proof.
  apply (run_calculator_gate (E := eval_demo)).
  right. exists "_"%char. split; [now left | now right; right].
Defined.


Example run_calculator_cases :
  run_calculator (E := eval_demo) (toolset [] []) "2**100"
    = Some (CalcResult "run_calculator" "2**100" "126765060022") /\
  run_calculator (E := eval_demo) (toolset [] []) "1/0"
    = Some (CalcError "run_calculator" "1/0" "division by zero") /\
  run_calculator (E := eval_demo) (toolset [] []) "1+1"
    = Some (CalcResult "run_calculator" "1+1" "2") /\
  run_calculator (E := eval_demo) (toolset [] []) ""
    = Some (CalcError "run_calculator" "" "Invalid characters.").
Proof. repeat split. Qed.

(** *** The dispatcher *)

Lemma select_empty_file (self : FakeToolset) (file_path : string)
    (codeql_query : option string) (context_window max_snippets : Z) :
  select_suspicious self file_path "" codeql_query context_window max_snippets
  = mkSelectOut "select_suspicious" file_path 0 [].
Proof.
  unfold select_suspicious. simpl. unfold hit_lines. simpl.
  unfold merge_ranges, Py.slice_to. simpl. now rewrite take_nil.
Qed.

(** X15: [call] runs a tool only if its name is listed in [available]:
    for any other name, a known tool included, the output is the error
    [Tool `name` is not available.], whatever the arguments and the
    evaluator. A listed name that is none of the three tools gives the
    error [Unknown tool `name`.]. [call] comes back for every name but
    [run_calculator], and for that one unless the evaluation does not. With
    no argument at all, [select_suspicious] returns no region. *)
Theorem call_dispatch `{E : Evaluator} (self : FakeToolset) (name : string)
    (kwargs : Kwargs) :
  (~ In name (available self) ->
   call self name kwargs
   = Some (OutError ("Tool `" +:+ name +:+ "` is not available."))) /\
  (In name (available self) ->
   name <> "retrieve_vuln_kb" -> name <> "select_suspicious" ->
   name <> "run_calculator" ->
   call self name kwargs
   = Some (OutError ("Unknown tool `" +:+ name +:+ "`."))) /\
  (call self name kwargs = None ->
   name = "run_calculator" /\ In name (available self) /\
   py_eval (default "" (kw_expression kwargs)) = Diverges) /\
  (In "select_suspicious" (available self) ->
   call self "select_suspicious" (mkKwargs None None None None None None None)
   = Some (OutSelect (mkSelectOut "select_suspicious" "" 0 []))).
Proof.
  assert (forall n, is_available self n = true <-> In n (available self))
    as Havail.
  { intros n. unfold is_available. rewrite existsb_exists. split.
    - intros (x & Hx & Heq). apply String.eqb_eq in Heq. now subst.
    - intros Hin. exists n. split; [exact Hin | apply String.eqb_refl]. }
  split; [|split; [|split]].
  - intros Hnot. unfold call.
    destruct (is_available self name) eqn:Ha; [|reflexivity].
    apply Havail in Ha. contradiction.
  - intros Hin H1 H2 H3. unfold call.
    rewrite (proj2 (Havail name) Hin). simpl.
    rewrite (proj2 (String.eqb_neq _ _) H1), (proj2 (String.eqb_neq _ _) H2),
            (proj2 (String.eqb_neq _ _) H3).
    reflexivity.
  - unfold call. destruct (is_available self name) eqn:Ha; [|discriminate].
    simpl. destruct (String.eqb name "retrieve_vuln_kb"); [discriminate|].
    destruct (String.eqb name "select_suspicious"); [discriminate|].
    destruct (String.eqb_spec name "run_calculator") as [-> | Hne];
      [|discriminate].
    intros Hnone. split; [reflexivity|]. split; [now apply Havail|].
    unfold run_calculator in Hnone.
    destruct (fullmatch _); simpl in Hnone; [|discriminate].
    destruct (py_eval _); (discriminate || reflexivity).
  - intros Hin. unfold call. rewrite (proj2 (Havail _) Hin). simpl.
    now rewrite select_empty_file.
Qed.

(** *** Agent A *)

Lemma select_count_3 (self : FakeToolset) (file_path file_content : string)
    (codeql_query : option string) (context_window : Z) :
  snippet_count (select_suspicious self file_path file_content codeql_query
                                   context_window 3) <= 3.
Proof.
  rewrite snippet_count_len, snippets_slice, slice_to_nonneg by lia.
  unfold Py.len. rewrite length_map, length_take. lia.
Qed.

(** X16: the tool phase of Agent A always comes back, with as many outputs
    as [plan] has calls after the cut [[:max_tool_calls]] of its two
    calls (so one for [max_tool_calls = -1], none for [0]); the calculator
    is never called, and a selection has at most three regions. With both
    tools listed and [max_tool_calls >= 2] the outputs are the
    knowledge-base lookup of the rule hint (of the query text when the
    hint is empty), then the selection with window 12 and at most 3
    regions. *)
Theorem agent_a_tool_outputs `{E : Evaluator} (tools : FakeToolset)
    (max_tool_calls : Z)
    (file_path file_content codeql_query rule_id_hint : string) :
  exists outs,
    AgentA.tool_outputs tools max_tool_calls file_path file_content
                        codeql_query rule_id_hint = Some outs /\
    Py.len outs = Py.bound 2 max_tool_calls /\
    Forall AgentA.evidence_ok outs /\
    (2 <= max_tool_calls ->
     In "retrieve_vuln_kb" (available tools) ->
     In "select_suspicious" (available tools) ->
     outs = [ OutKb (retrieve_vuln_kb tools
                       (Some (if Py.truthy rule_id_hint then rule_id_hint
                              else codeql_query)));
              OutSelect (select_suspicious tools file_path file_content
                           (Some codeql_query) 12 3) ]).
Proof.
  assert (forall n, In n (available tools) -> is_available tools n = true)
    as Havail.
  { intros n Hin. unfold is_available. apply existsb_exists. exists n.
    split; [exact Hin | apply String.eqb_refl]. }
  unfold AgentA.tool_outputs, AgentA.plan, Py.slice_to.
  change (Py.len [_; _]) with 2.
  assert (0 <= Py.bound 2 max_tool_calls <= 2) as Hb
    by (unfold Py.bound; destruct (Z.ltb_spec max_tool_calls 0); lia).
  destruct (Z.to_nat (Py.bound 2 max_tool_calls)) as [|[|k]] eqn:Hk.
  - exists []. simpl. repeat split; [unfold Py.len; simpl; lia | constructor |].
    intros Hm. unfold Py.bound in Hk.
    rewrite (proj2 (Z.ltb_ge max_tool_calls 0)) in Hk by lia. lia.
  - cbn [take fold_left fst snd]. unfold call at 1.
    destruct (is_available tools "retrieve_vuln_kb") eqn:Ha; simpl;
      eexists; (split; [reflexivity|]);
      (split; [unfold Py.len; simpl; lia|]);
      (split; [repeat constructor|]);
      intros Hm; unfold Py.bound in Hk;
      rewrite (proj2 (Z.ltb_ge max_tool_calls 0)) in Hk by lia; lia.
  - assert (take (S (S k))
                 [("retrieve_vuln_kb",
                   mkKwargs (Some (if Py.truthy rule_id_hint then rule_id_hint
                                   else codeql_query))
                            None None None None None None);
                  ("select_suspicious",
                   mkKwargs None (Some file_path) (Some file_content)
                            (Some codeql_query) (Some 12) (Some 3) None)]
            = [("retrieve_vuln_kb",
                   mkKwargs (Some (if Py.truthy rule_id_hint then rule_id_hint
                                   else codeql_query))
                            None None None None None None);
                  ("select_suspicious",
                   mkKwargs None (Some file_path) (Some file_content)
                            (Some codeql_query) (Some 12) (Some 3) None)])
      as -> by (simpl; now rewrite take_nil).
    cbn [fold_left fst snd]. unfold call.
    destruct (is_available tools "retrieve_vuln_kb") eqn:Ha;
      destruct (is_available tools "select_suspicious") eqn:Hs; simpl;
      eexists; (split; [reflexivity|]);
      (split; [unfold Py.len; simpl; lia|]);
      (split; [repeat constructor; apply select_count_3|]);
      intros _ H1 H2;
      rewrite ?(Havail _ H1) in Ha; rewrite ?(Havail _ H2) in Hs;
      try discriminate; reflexivity.
Qed.

(** X22: a toolset built from a configuration whose [available] is
    missing or empty runs no tool: the dispatcher answers every call with
    the error, and the outputs of Agent A are that error for each call of
    its plan. *)
Theorem init_no_tools `{E : Evaluator} (tool_config : ToolConfig)
    (max_tool_calls : Z)
    (file_path file_content codeql_query rule_id_hint : string) :
  default [] (cfg_available tool_config) = [] ->
  let not_available name :=
    OutError ("Tool `" +:+ name +:+ "` is not available.") in
  (forall name kwargs,
     call (__init__ tool_config) name kwargs = Some (not_available name)) /\
  AgentA.tool_outputs (__init__ tool_config) max_tool_calls file_path
                      file_content codeql_query rule_id_hint
  = Some (map not_available
              (Py.slice_to ["retrieve_vuln_kb"; "select_suspicious"]
                           max_tool_calls)).
Proof.
  intros Hnone not_available.
  assert (forall name kwargs,
            call (__init__ tool_config) name kwargs
            = Some (not_available name)) as Hcall.
  { intros name kwargs. unfold call, is_available, __init__. simpl.
    now rewrite Hnone. }
  split; [exact Hcall|].
  unfold AgentA.tool_outputs, AgentA.plan, Py.slice_to.
  change (Py.len [_; _]) with 2. change (Py.len [_; _]) with 2.
  destruct (Z.to_nat (Py.bound 2 max_tool_calls)) as [|[|k]];
    cbn [take fold_left fst snd map]; rewrite ?Hcall, ?take_nil; reflexivity.
Qed.

(** No key at all in the configuration, and a plan of two calls. *)
Lemma init_no_tools_witness :
  AgentA.tool_outputs (E := eval_demo)
    (__init__ (mkToolConfig None None None None)) 2 "a.py" file_two
    "import python" ""
  = Some [ OutError "Tool `retrieve_vuln_kb` is not available.";
           OutError "Tool `select_suspicious` is not available." ].
Proof.
  exact (proj2 (init_no_tools (E := eval_demo)
                  (mkToolConfig None None None None) 2 "a.py" file_two
                  "import python" "" eq_refl)).
Defined.

End ToolBoxProps.

(** ** Properties of the loop over the findings *)

Module MainProps.
Import SarifUtils SarifReport Main MainInputs Inputs LocatorSpec BatchProps.

Section Loop.

Context `{P : Platform}.
Variable V : Type.
Variable load_sarif : string -> Res (Sarif Finding).
Variable run_single_finding : list Call -> Call -> option V.

Local Abbreviation files_loop := (files_loop V run_single_finding).
Local Abbreviation results_loop := (results_loop V run_single_finding).
Local Abbreviation run := (run_from_sarif_only V load_sarif run_single_finding).


Lemma safe_read_text_len (path encoding : string) (max_chars : Z) (s : string) :
  safe_read_text path encoding max_chars = Ret s ->
  0 <= max_chars -> Py.slen s <= max_chars.
Proof.
  unfold safe_read_text.
  destruct (read_text path encoding "ignore") as [content|e]; simpl.
  - intros Heq Hmax. inversion Heq; subst s. clear Heq.
    destruct (Py.slen content >? max_chars) eqn:Hlen.
    + apply Z.gtb_lt in Hlen. unfold Py.sslice_to, Py.bound.
      rewrite (proj2 (Z.ltb_ge max_chars 0) Hmax).
      rewrite Z.min_l by lia. unfold Py.slen in *.
      rewrite length_substring_0 by lia. lia.
    + destruct (Z.gtb_spec (Py.slen content) max_chars); [discriminate | lia].
  - intros Heq Hmax. inversion Heq. unfold Py.slen. simpl. lia.
Qed.

(** The loop over the files of a finding, when it ends without exception. *)
Lemma files_loop_spec (cfg : MainCfg) (idx : Z) (rule_id codeql_query : string)
    (files : list string) (st st' : State V) :
  files_loop cfg idx rule_id codeql_query files st = inr st' ->
  map (shape_of V) (fst st')
  = (map (shape_of V) (fst st) ++ shapes_of_files cfg idx rule_id files)%list /\
  snd st' = (snd st ++ calls_of_files cfg rule_id codeql_query files)%list.
Proof.
  revert st. induction files as [|fp files IH]; intros st Hrun.
  - simpl in Hrun. inversion Hrun; subst. simpl. now rewrite !app_nil_r.
  - cbn [Main.files_loop] in Hrun.
    destruct (app (Main.cfg cfg)); [|discriminate].
    unfold shapes_of_files, calls_of_files. cbn [map omap list_omap].
    unfold readable at 1 3.
    destruct (safe_read_text fp _ _) as [text|e]; [|discriminate].
    destruct (Py.truthy text); simpl in Hrun |- *.
    + destruct (run_single_finding (snd st) (mkCall fp text codeql_query rule_id))
        as [v|]; [|discriminate].
      destruct (IH _ Hrun) as [Hshapes Hcalls]. simpl in Hshapes, Hcalls.
      rewrite Hshapes, Hcalls, map_app, <- !app_assoc. now split.
    + destruct (IH _ Hrun) as [Hshapes Hcalls]. simpl in Hshapes, Hcalls.
      rewrite Hshapes, Hcalls, map_app, <- !app_assoc. now split.
Qed.

Lemma files_of_ret (cfg : MainCfg) (res : Finding) (files : list string) :
  extract_result_files (result res) (Main.cfg cfg) = Ret files ->
  files_of cfg res = files.
Proof. intros Hfiles. unfold files_of. now rewrite Hfiles. Qed.

(** The loop over the findings, when it ends without exception: no
    finding made [extract_result_files] raise. *)
Lemma results_loop_spec (cfg : MainCfg) (results : list Finding) (idx : Z)
    (st st' : State V) :
  results_loop cfg idx results st = inr st' ->
  map (shape_of V) (fst st')
  = (map (shape_of V) (fst st) ++ shapes_of_results cfg idx results)%list /\
  snd st' = (snd st ++ calls_of_results cfg results)%list /\
  Forall (fun res => extract_result_files (result res) (Main.cfg cfg)
                     = Ret (files_of cfg res)) results.
Proof.
  revert idx st. induction results as [|res results IH]; intros idx st Hrun.
  - simpl in Hrun. inversion Hrun; subst. simpl.
    unfold calls_of_results. simpl. rewrite !app_nil_r. now repeat split.
  - cbn [Main.results_loop] in Hrun.
    unfold calls_of_results. cbn [shapes_of_results map List.concat].
    fold (calls_of_results cfg results).
    destruct (extract_result_files (result res) (Main.cfg cfg))
      as [[|f files]|e] eqn:Hfiles; [| |discriminate];
      rewrite (files_of_ret cfg res _ Hfiles).
    + destruct (IH _ _ Hrun) as (Hshapes & Hcalls & Hret).
      simpl in Hshapes, Hcalls.
      rewrite Hshapes, Hcalls, map_app, <- !app_assoc. simpl.
      split; [reflexivity|]. split; [reflexivity|].
      constructor; [|exact Hret].
      now rewrite (files_of_ret cfg res _ Hfiles).
    + destruct (Main.files_loop V run_single_finding cfg idx (rule_id_of res)
                  (_get_query_for_rule cfg (rule_id_of res)) (f :: files) st)
        as [e|st1] eqn:Hfl; [discriminate|].
      destruct (files_loop_spec _ _ _ _ _ _ _ Hfl) as [Hs1 Hc1].
      destruct (IH _ _ Hrun) as (Hshapes & Hcalls & Hret).
      rewrite Hshapes, Hcalls, Hs1, Hc1, <- !app_assoc.
      split; [reflexivity|]. split; [reflexivity|].
      constructor; [|exact Hret].
      now rewrite (files_of_ret cfg res _ Hfiles).
Qed.

(** *** What the report stands for *)

Lemma readable_spec (cfg : MainCfg) (fp text : string) :
  readable cfg fp = Some text <->
  safe_read_text fp (default "utf-8" (default_encoding cfg))
                 (default 120000 (max_file_chars cfg)) = Ret text /\
  text <> "".
Proof.
  unfold readable.
  destruct (safe_read_text fp _ _) as [t|e].
  - destruct t as [|c t]; simpl.
    + split; [discriminate | intros [Heq Hne]; inversion Heq; subst; congruence].
    + split; [intros Heq; inversion Heq; subst; split; [reflexivity | discriminate]
             | intros [Heq _]; inversion Heq; reflexivity].
  - split; [discriminate | intros [Heq _]; discriminate].
Qed.

Lemma shape_ok_shift (cfg : MainCfg) (idx : Z) (res : Finding)
    (results : list Finding) (s : Shape) :
  shape_ok cfg (idx + 1) results s -> shape_ok cfg idx (res :: results) s.
Proof.
  intros (Hle & r & Hr & Hs). split; [lia|]. exists r. split; [|exact Hs].
  replace (Z.to_nat (shape_index s - idx))
    with (S (Z.to_nat (shape_index s - (idx + 1)))) by lia.
  exact Hr.
Qed.

Lemma shapes_of_files_ok (cfg : MainCfg) (idx : Z) (res : Finding)
    (results : list Finding) (files : list string) :
  (forall fp, In fp files ->
     exists fs, extract_result_files (result res) (Main.cfg cfg) = Ret fs /\
                In fp fs) ->
  Forall (shape_ok cfg idx (res :: results))
         (shapes_of_files cfg idx (rule_id_of res) files).
Proof.
  intros Hsub. induction files as [|fp files IH]; [constructor|].
  cbn [shapes_of_files map]. constructor.
  - destruct (readable cfg fp) as [text|] eqn:Hr; (split; [simpl; lia|]);
      exists res; simpl; rewrite Z.sub_diag; simpl;
      (split; [reflexivity|]); (split; [reflexivity|]);
      (split; [apply Hsub; now left|]); eauto.
  - apply IH. intros fp' Hfp'. apply Hsub. now right.
Qed.

Lemma shapes_of_results_ok (cfg : MainCfg) (results : list Finding) (idx : Z) :
  Forall (fun res => extract_result_files (result res) (Main.cfg cfg)
                     = Ret (files_of cfg res)) results ->
  Forall (shape_ok cfg idx results) (shapes_of_results cfg idx results).
Proof.
  intros Hret. revert idx.
  induction Hret as [|res results Hres Hret IH]; intros idx.
  - constructor.
  - cbn [shapes_of_results]. apply Forall_app. split.
    + destruct (files_of cfg res) as [|f files] eqn:Hfiles.
      * repeat constructor; simpl; [lia|]. exists res.
        rewrite Z.sub_diag. simpl. now repeat split.
      * apply shapes_of_files_ok. intros fp Hfp. now exists (f :: files).
    + eapply Forall_impl; [apply IH|]. intros s. apply shape_ok_shift.
Qed.

Lemma shapes_of_results_indices (cfg : MainCfg) (results : list Finding)
    (idx : Z) :
  (forall k, 0 <= k < Py.len results ->
     In (idx + k) (map shape_index (shapes_of_results cfg idx results))) /\
  Forall (fun i => idx <= i < idx + Py.len results)
         (map shape_index (shapes_of_results cfg idx results)) /\
  StronglySorted Z.le (map shape_index (shapes_of_results cfg idx results)) /\
  (length results <= length (shapes_of_results cfg idx results))%nat.
Proof.
  revert idx. induction results as [|res results IH]; intros idx.
  - repeat split; try constructor. unfold Py.len. simpl. intros k Hk. lia.
  - destruct (IH (idx + 1)) as (Hcov & Hge & Hsorted & Hlen).
    cbn [shapes_of_results]. rewrite map_app, length_app.
    set (block := match files_of cfg res with
                  | [] => [NoFileS idx (rule_id_of res)]
                  | f :: files =>
                      shapes_of_files cfg idx (rule_id_of res) (f :: files)
                  end).
    assert (Forall (fun i => i = idx) (map shape_index block)
            /\ (1 <= length block)%nat) as [Hblock Hne].
    { unfold block.
      destruct (files_of cfg res) as [|f files].
      - split; [repeat constructor | simpl; lia].
      - split; [|simpl; lia]. unfold shapes_of_files.
        apply Forall_map, Forall_map, Forall_forall. intros fp _.
        unfold compose. now destruct (readable cfg fp). }
    assert (Py.len (res :: results) = 1 + Py.len results) as Hl
      by (unfold Py.len; simpl length; lia).
    assert (0 <= Py.len results) as Hl0 by (unfold Py.len; lia).
    repeat split.
    + intros k Hk. apply in_or_app.
      destruct (Z.eq_dec k 0) as [-> | Hk0].
      * left. destruct block as [|b block']; [simpl in Hne; lia|].
        inversion Hblock as [|? ? Hb _]; subst. simpl. left. lia.
      * right. replace (idx + k) with (idx + 1 + (k - 1)) by lia.
        apply Hcov. lia.
    + apply Forall_app. split.
      * eapply Forall_impl; [exact Hblock|]. intros i. simpl. lia.
      * eapply Forall_impl; [exact Hge|]. intros i. simpl. lia.
    + clear Hne. induction Hblock as [|i l Hi Htail IHb]; simpl;
        [exact Hsorted|].
      constructor; [exact IHb|]. apply Forall_app. split.
      * eapply Forall_impl; [exact Htail|]. intros j. simpl. lia.
      * eapply Forall_impl; [exact Hge|]. intros j. simpl. lia.
    + simpl. lia.
Qed.

Lemma calls_of_results_ok (cfg : MainCfg) (results : list Finding) :
  Forall (fun res => extract_result_files (result res) (Main.cfg cfg)
                     = Ret (files_of cfg res)) results ->
  Forall (call_ok cfg results) (calls_of_results cfg results).
Proof.
  intros Hret. apply Forall_forall. intros c Hc. apply list_elem_of_In in Hc.
  unfold calls_of_results in Hc. apply in_concat in Hc as (l & Hl & Hc).
  apply in_map_iff in Hl as (res & <- & Hres).
  unfold calls_of_files in Hc. apply list_elem_of_In in Hc.
  apply list_elem_of_omap in Hc as (fp & Hfp & Hcall).
  destruct (readable cfg fp) as [text|] eqn:Hr; [|discriminate].
  simpl in Hcall. inversion Hcall; subst c. clear Hcall.
  apply readable_spec in Hr as [Hread Hne].
  unfold call_ok. simpl. split; [exact Hne|]. split; [exact Hread|].
  split; [intros Hmax; exact (safe_read_text_len _ _ _ _ Hread Hmax)|].
  exists res. split; [exact Hres|]. split; [|now split].
  exists (files_of cfg res). split; [|now apply list_elem_of_In].
  apply (proj1 (Forall_forall _ _) Hret). now apply list_elem_of_In.
Qed.

Lemma calls_count (cfg : MainCfg) (results : list Finding) (idx : Z) :
  length (calls_of_results cfg results)
  = length (List.filter is_verdict (shapes_of_results cfg idx results)).
Proof.
  revert idx. induction results as [|res results IH]; intros idx;
    [reflexivity|].
  unfold calls_of_results. cbn [map List.concat shapes_of_results].
  fold (calls_of_results cfg results).
  rewrite List.filter_app, !length_app, (IH (idx + 1)). f_equal.
  destruct (files_of cfg res) as [|f files]; [reflexivity|].
  generalize (f :: files). clear. intros files.
  unfold calls_of_files, shapes_of_files.
  induction files as [|fp files IH]; [reflexivity|].
  cbn. destruct (readable cfg fp); cbn; now rewrite IH.
Qed.

Lemma run_spec (cfg : MainCfg) (path : string) (sarif : Sarif Finding)
    (outputs : list (Output V)) (calls : list Call) :
  load_sarif path = Ret sarif ->
  run cfg path = inr (outputs, calls) ->
  map (shape_of V) outputs = shapes_of_results cfg 1 (iter_results sarif) /\
  calls = calls_of_results cfg (iter_results sarif) /\
  Forall (fun res => extract_result_files (result res) (Main.cfg cfg)
                     = Ret (files_of cfg res)) (iter_results sarif).
Proof.
  intros Hload Hrun. unfold run_from_sarif_only in Hrun. rewrite Hload in Hrun.
  destruct (results_loop_spec _ _ _ _ _ Hrun) as (Hs & Hc & Hret).
  now repeat split.
Qed.

(** X17: when the run ends without exception, every finding of the report
    has at least one entry in [outputs]; the entries carry the indices 1
    to N of the findings, in ascending order. *)
Theorem run_outputs_indices (cfg : MainCfg) (path : string)
    (sarif : Sarif Finding) (outputs : list (Output V)) (calls : list Call) :
  load_sarif path = Ret sarif ->
  run cfg path = inr (outputs, calls) ->
  let results := iter_results sarif in
  let indices := map (fun o => shape_index (shape_of V o)) outputs in
  (forall k, 0 <= k < Py.len results -> In (1 + k) indices) /\
  Forall (fun i => 1 <= i <= Py.len results) indices /\
  StronglySorted Z.le indices /\
  (length results <= length outputs)%nat.
Proof.
  intros Hload Hrun results indices.
  destruct (run_spec cfg path sarif outputs calls Hload Hrun) as [Hs _].
  fold results in Hs.
  assert (indices = map shape_index (shapes_of_results cfg 1 results)) as Hi.
  { unfold indices. rewrite <- Hs, map_map. reflexivity. }
  destruct (shapes_of_results_indices cfg results 1)
    as (Hcov & Hin & Hsorted & Hlen).
  rewrite Hi. repeat split; try assumption.
  - eapply Forall_impl; [exact Hin|]. intros i. simpl. lia.
  - rewrite <- (length_map (shape_of V) outputs), Hs. exact Hlen.
Qed.

(** X18: when the run ends without exception, every entry says what the
    files of its finding gave: [no-file] only for a finding without
    resolved file, [unreadable] only for a resolved file whose bounded text
    is empty, a verdict only for a resolved file whose bounded text is not
    empty; the rule of the entry is [ruleId], else [rule.id], else empty. *)
Theorem run_outputs_labels (cfg : MainCfg) (path : string)
    (sarif : Sarif Finding) (outputs : list (Output V)) (calls : list Call) :
  load_sarif path = Ret sarif ->
  run cfg path = inr (outputs, calls) ->
  Forall (fun o => shape_ok cfg 1 (iter_results sarif) (shape_of V o)) outputs.
Proof.
  intros Hload Hrun.
  destruct (run_spec cfg path sarif outputs calls Hload Hrun)
    as (Hs & _ & Hret).
  pose proof (shapes_of_results_ok cfg (iter_results sarif) 1 Hret) as Hok.
  rewrite <- Hs in Hok. apply (proj1 (Forall_map _ _ _)) in Hok.
  exact Hok.
Qed.

(** X19: when the run ends without exception, the debate was called once
    for each verdict in [outputs] and in that order, each time with a file
    of a finding, the text [safe_read_text] gave for it, which is not
    empty and has at most [max_file_chars] characters when that is not
    negative, and the query text of the rule of the finding. *)
Theorem run_calls (cfg : MainCfg) (path : string)
    (sarif : Sarif Finding) (outputs : list (Output V)) (calls : list Call) :
  load_sarif path = Ret sarif ->
  run cfg path = inr (outputs, calls) ->
  Forall (call_ok cfg (iter_results sarif)) calls /\
  length calls
  = length (List.filter (fun o => is_verdict (shape_of V o)) outputs) /\
  map call_file_path calls
  = omap (fun o => match o with
                   | Verdict _ _ f _ => Some f
                   | _ => None
                   end) outputs.
Proof.
  intros Hload Hrun.
  destruct (run_spec cfg path sarif outputs calls Hload Hrun)
    as (Hs & Hc & Hret).
  subst calls. split; [exact (calls_of_results_ok _ _ Hret)|]. split.
  - rewrite (calls_count cfg (iter_results sarif) 1), <- Hs.
    clear. induction outputs as [|o outputs IH]; [reflexivity|].
    simpl. destruct (is_verdict (shape_of V o)); simpl; now rewrite IH.
  - assert (forall results idx,
              map call_file_path (calls_of_results cfg results)
              = omap (fun s => match s with
                               | VerdictS _ _ f => Some f
                               | _ => None
                               end) (shapes_of_results cfg idx results))
      as Hpaths.
    { intros rs. induction rs as [|res rs IH]; intros idx; [reflexivity|].
      unfold calls_of_results. cbn [map List.concat shapes_of_results].
      fold (calls_of_results cfg rs).
      rewrite map_app, omap_app, (IH (idx + 1)). f_equal.
      destruct (files_of cfg res) as [|f files]; [reflexivity|].
      generalize (f :: files). intros fs.
      unfold calls_of_files, shapes_of_files.
      induction fs as [|fp fs IHf]; [reflexivity|].
      cbn. destruct (readable cfg fp); cbn; now rewrite IHf. }
    rewrite (Hpaths (iter_results sarif) 1), <- Hs.
    clear. induction outputs as [|o outputs IH]; [reflexivity|].
    cbn. destruct o; cbn; now rewrite IH.
Qed.

(** *** Exceptions *)

Lemma files_loop_no_app (cfg : MainCfg) (idx : Z) (rule_id q : string)
    (f : string) (files : list string) (st : State V) :
  app (Main.cfg cfg) = None ->
  files_loop cfg idx rule_id q (f :: files) st = inl (KeyError "app").
Proof. intros Happ. simpl. now rewrite Happ. Qed.

(** X20: without the key [app] in the configuration, the run raises
    [KeyError] as soon as a finding has a resolved file (the findings
    before it having none), whatever the debate would answer, and every
    entry made before is lost; it ends without exception when no finding
    has a resolved file, with one [no-file] entry for each and no call of
    the debate. *)
Theorem run_missing_app (cfg : MainCfg) (path : string)
    (sarif : Sarif Finding) :
  app (Main.cfg cfg) = None ->
  load_sarif path = Ret sarif ->
  let no_file res :=
    extract_result_files (result res) (Main.cfg cfg) = Ret [] in
  (forall before res after f files,
     iter_results sarif = (before ++ res :: after)%list ->
     Forall no_file before ->
     extract_result_files (result res) (Main.cfg cfg) = Ret (f :: files) ->
     run cfg path = inl (KeyError "app")) /\
  (Forall no_file (iter_results sarif) ->
   exists outputs,
     run cfg path = inr (outputs, []) /\
     length outputs = length (iter_results sarif) /\
     Forall (fun o => exists i r, o = NoFile i r) outputs).
Proof.
  intros Happ Hload no_file. unfold run_from_sarif_only. rewrite Hload.
  assert (forall rs st idx,
            Forall no_file rs ->
            exists outs,
              (forall rest,
                 results_loop cfg idx (rs ++ rest)%list st
                 = results_loop cfg (idx + Py.len rs) rest
                     ((fst st ++ outs)%list, snd st)) /\
              length outs = length rs /\
              Forall (fun o => exists i r, o = NoFile i r) outs) as Hloop.
  { intros rs. induction rs as [|res rs IH]; intros st idx Hall.
    - exists []. split; [|split; [reflexivity | constructor]].
      intros rest. simpl. rewrite app_nil_r.
      replace (idx + Py.len []) with idx by (unfold Py.len; simpl; lia).
      now destruct st.
    - inversion Hall as [|? ? Hres Hrest]; subst.
      destruct (IH ((fst st ++ [NoFile idx (rule_id_of res)])%list, snd st)
                   (idx + 1) Hrest) as (outs & Hrun & Hlen & Hno).
      exists (NoFile idx (rule_id_of res) :: outs). split; [|split].
      + intros rest. rewrite <- app_comm_cons. cbn [Main.results_loop].
        unfold no_file in Hres. rewrite Hres, Hrun. simpl.
        rewrite <- app_assoc. simpl.
        replace (idx + 1 + Py.len rs) with (idx + Py.len (res :: rs))
          by (unfold Py.len; simpl length; lia).
        reflexivity.
      + simpl. now rewrite Hlen.
      + constructor; [eauto | exact Hno]. }
  split.
  - intros before res after f files Hsplit Hbefore Hfiles.
    destruct (Hloop before ([], []) 1 Hbefore) as (outs & Hrun & _).
    rewrite Hsplit, Hrun. cbn [Main.results_loop]. rewrite Hfiles.
    now rewrite (files_loop_no_app _ _ _ _ _ _ _ Happ).
  - intros Hall.
    destruct (Hloop (iter_results sarif) ([], []) 1 Hall)
      as (outs & Hrun & Hlen & Hno).
    exists outs. specialize (Hrun []). rewrite app_nil_r in Hrun.
    rewrite Hrun. simpl. now repeat split.
Qed.


End Loop.

(** A report whose second finding has a location with [null] under
    [physicalLocation]: the exception leaves the run, and the entry of the
    first finding is lost. *)
Example run_null_physical :
  run_from_sarif_only (P := posix fs_src) nat
    (fun _ => Ret (mkSarif (Some [mkRun (Some [
       mkFinding res_three None;
       mkFinding (mkResult None (Some [Some (mkLocation Null)])) None ])])))
    debate_demo cfg_demo "r.sarif"
  = inl (Propagated AttributeError).
Proof. vm_compute. reflexivity. Qed.

(** The run over [sarif_demo] on a POSIX host whose only file is
    [/src/a.py]. *)
Lemma run_demo :
  run_from_sarif_only (P := posix fs_src) nat load_demo debate_demo cfg_demo
                      "r.sarif"
  = inr (outputs_demo, calls_demo).
Proof. vm_compute. reflexivity. Qed.

Lemma run_outputs_indices_witness :
  StronglySorted Z.le
    (map (fun o => shape_index (shape_of nat o)) outputs_demo) /\
  (length (iter_results sarif_demo) <= length outputs_demo)%nat.
Proof.
  pose proof (run_outputs_indices (P := posix fs_src) nat load_demo debate_demo
                cfg_demo "r.sarif" sarif_demo outputs_demo calls_demo
                eq_refl run_demo) as H.
  exact (proj2 (proj2 H)).
Defined.

Lemma run_outputs_labels_witness :
  Forall (fun o => shape_ok (P := posix fs_src) cfg_demo 1
                     (iter_results sarif_demo) (shape_of nat o))
         outputs_demo.
Proof.
  exact (run_outputs_labels (P := posix fs_src) nat load_demo debate_demo
           cfg_demo "r.sarif" sarif_demo outputs_demo calls_demo
           eq_refl run_demo).
Defined.

Lemma run_calls_witness :
  Forall (call_ok (P := posix fs_src) cfg_demo (iter_results sarif_demo))
         calls_demo.
Proof.
  exact (proj1 (run_calls (P := posix fs_src) nat load_demo debate_demo
                  cfg_demo "r.sarif" sarif_demo outputs_demo calls_demo
                  eq_refl run_demo)).
Defined.

(** The same report without the key [app]: the first finding has a file. *)
Lemma run_missing_app_witness :
  run_from_sarif_only (P := posix fs_src) nat load_demo debate_demo cfg_no_app
                      "r.sarif"
  = inl (KeyError "app").
Proof.
  apply (proj1 (run_missing_app (P := posix fs_src) nat load_demo debate_demo
                  cfg_no_app "r.sarif" sarif_demo eq_refl eq_refl)
               [] (mkFinding res_three None)
               [mkFinding (mkResult None None)
                          (Some (mkRule (Some "py/path-injection")))]
               "/src/a.py" ["/gone/b.py"; "a.py"]).
  - reflexivity.
  - constructor.
  - vm_compute. reflexivity.
Defined.


End MainProps.
